(** * Progress and reminder engine of the syllabus-tracking bot

    A shallow embedding of [index.py]: the two JSON documents
    ([syllabi.json], [progress.json]), the wall clock, the messages sent to
    the chat, and the handlers that read and write them.  Handlers are
    written in a small state-and-exception monad over the [World]; every
    [datetime.now()] of the source is one reading of the clock, every
    [save_...] a write of the whole document, and a Python exception is an
    outcome of its own, so that what was saved before it stays saved.

    The first part is the program; the second states and proves its
    properties with a weakest-precondition calculus for the monad. *)

From Stdlib Require Import ZArith Lia String List QArith.
From Stdlib Require Floats.SpecFloat.
From stdpp Require Import gmap strings list fin_maps.

Local Open Scope string_scope.
Local Open Scope list_scope.
Local Open Scope Z_scope.

(** ** Time *)

(** A naive [datetime], in microseconds since 0001-01-01T00:00:00 (the
    resolution of Python's [datetime]; [isoformat]/[fromisoformat] is the
    identity on it).  A [timedelta] is a signed number of microseconds. *)
Definition datetime := Z.

Definition usec_per_day : Z := 86400000000.

(** [timedelta(days=n)] *)
Definition timedelta (n : Z) : Z := n * usec_per_day.

(** [delta.days]: Python normalises a timedelta so that its seconds and
    microseconds are non-negative, hence [.days] is the floor. *)
Definition days (delta : Z) : Z := delta / usec_per_day.

(** [datetime.max] is 9999-12-31T23:59:59.999999 and
    [date.max.toordinal() = 3652059]; [datetime.min] is 0 here. *)
Definition datetime_max : datetime := 3652059 * usec_per_day - 1.

(** [timedelta.max.days] *)
Definition timedelta_max_days : Z := 999999999.

(** [t + timedelta(days=n)] is a [datetime], not an [OverflowError]. *)
Definition representable (t : datetime) (n : Z) : bool :=
  (Z.abs n <=? timedelta_max_days)
  && (0 <=? t + timedelta n) && (t + timedelta n <=? datetime_max).

(** [datetime.fromisoformat("2000-01-01T00:00:00")];
    [date(2000, 1, 1).toordinal() = 730120]. *)
Definition last_reminder_default : datetime := timedelta 730119.

(** ** The two documents *)

(** [syllabi.json] *)
Record Syllabus := mkSyllabus {
  syl_tasks : list string;
  syl_paused : option bool          (* read with [.get("paused", False)] *)
}.

Record SyllabiDoc := mkSyllabiDoc {
  cat_current_field : string;
  cat_syllabi : gmap string Syllabus
}.

(** [progress.json] *)
Record GlobalSettings := mkSettings {
  gs_reminder_interval : option Z;  (* [.get("reminder_interval", 7)] *)
  gs_reminders_enabled : option bool; (* [.get("reminders_enabled", True)] *)
  gs_last_check : option datetime;
  gs_last_reminder : option datetime
}.

(** The keys of [completion_dates] are [str(index)]; [str] is injective on
    integers, so the model keys the map by the index itself. *)
Record SyllabusProgress := mkProgress {
  sp_current_week : Z;
  sp_completed_weeks : list Z;
  sp_completion_dates : option (gmap Z datetime);
  sp_start_date : datetime;
  sp_due_date : option datetime
}.

Record ProgressDoc := mkProgressDoc {
  pd_global_settings : option GlobalSettings;
  pd_syllabi_progress : option (gmap string SyllabusProgress)
}.

Definition interval_of (gs : GlobalSettings) : Z :=
  default 7 (gs_reminder_interval gs).

Definition enabled_of (gs : GlobalSettings) : bool :=
  default true (gs_reminders_enabled gs).

Definition is_paused (s : Syllabus) : bool := default false (syl_paused s).

(** ** Messages *)

Inductive StatusText := StartingWith | ContinuingWith.

(** The due line of [/current] and [/check]. *)
Inductive DueStatus :=
| NoDueInfo
| OverdueBy (n : Z)
| DueIn (n : Z).

Inductive Urgency := due_today | due_tomorrow | overdue.

Record Statistics := mkStatistics {
  st_field : string;
  st_completed_tasks : Z;
  st_total_tasks : Z;
  st_completion_pct : Q;
  st_progress_task : Z;
  st_days_active : Z;
  st_days_left : option Z;
  st_remaining_tasks : option Z;
  (* [estimated_completion_date] and [int(estimated_days_left)] *)
  st_estimate : option (datetime * Z)
}.

Inductive exn :=
| KeyError | IndexError | AttributeError | OverflowError
| ZeroDivisionError | ValueError.

(** The [except] clause that answered. *)
Inductive ErrorSite :=
| InDecorator            (* [handle_errors] *)
| InCurrent | InCheck | InUpdatingProgress | InUpdatingDueDate
| InResetting | InPausing | InResuming.

Inductive Message :=
(* start_syllabus_callback / switch_syllabus_callback *)
| MsgSelected (field : string) (st : StatusText) (task : string)
              (days_remaining : option Z)
| MsgSwitched (field : string) (st : StatusText) (task : string)
              (interval : Z)
| MsgIsPaused (field : string)
(* current_week / check_progress *)
| MsgNoActiveOrPaused
| MsgCurrentTask (field : string) (task : string) (status : DueStatus)
| MsgNoCurrentTask
| MsgCheckPrompt (field : string) (task : string) (due_info : DueStatus)
| MsgNoTaskToCheck
(* the buttons *)
| MsgNoActive
| MsgCongratulations (field : string)
| MsgGreatJob (completed_task next_task : string) (interval : Z)
| MsgKeepWorkingExtended (task : string) (extension days_until : Z)
| MsgKeepWorking (task : string)
| MsgProgressReset (field : string) (task : string) (interval : Z)
| MsgNoProgressFound
(* pause / resume *)
| MsgTrackingPaused (field : string)
| MsgTrackingResumed (field : string)
| MsgSyllabusNotFound
(* settings *)
| MsgRemindersNow (enabled : bool)
| MsgIntervalUsage
| MsgPositiveNumber
| MsgIntervalSet (d : Z)
| MsgValidNumber
(* statistics *)
| MsgCurrentNotFound
| MsgStatistics (s : Statistics)
(* check_due_dates *)
| MsgReminder (chat_id : Z) (u : Urgency) (field : string) (task : string)
              (days_remaining : Z)
(* an [except] clause that reports the error *)
| MsgError (where_ : ErrorSite) (e : exn).

(** ** The world and the handler monad *)

Record World := mkWorld {
  syllabi_json : option SyllabiDoc;    (* [None]: the file does not exist *)
  progress_json : option ProgressDoc;
  clock : nat -> datetime;             (* successive [datetime.now()] *)
  ticks : nat;                         (* readings taken so far *)
  sent : list Message                  (* oldest first *)
}.

Inductive outcome (A : Type) :=
| Ok (a : A)
| Raise (e : exn).
Arguments Ok {A} a.
Arguments Raise {A} e.

Definition M (A : Type) : Type := World -> outcome A * World.

Definition ret {A} (a : A) : M A := fun w => (Ok a, w).

Definition bind {A B} (m : M A) (k : A -> M B) : M B :=
  fun w => match m w with
           | (Ok a, w') => k a w'
           | (Raise e, w') => (Raise e, w')
           end.

Definition raise {A} (e : exn) : M A := fun w => (Raise e, w).

(** [try: body except Exception: handler] *)
Definition try_except {A} (body : M A) (handler : exn -> M A) : M A :=
  fun w => match body w with
           | (Ok a, w') => (Ok a, w')
           | (Raise e, w') => handler e w'
           end.

Declare Scope handler_scope.
Delimit Scope handler_scope with handler.
Notation "x <- c ;; k" := (bind c (fun x => k))
  (at level 100, c at next level, right associativity) : handler_scope.
Notation "c ;;; k" := (bind c (fun _ => k))
  (at level 100, right associativity) : handler_scope.
Local Open Scope handler_scope.

(** The world after a handler has run, and how it ended. *)
Definition run {A} (m : M A) (w : World) : World := snd (m w).
Definition result {A} (m : M A) (w : World) : outcome A := fst (m w).

(** [datetime.now()] *)
Definition now : M datetime :=
  fun w => (Ok (clock w (ticks w)),
            mkWorld (syllabi_json w) (progress_json w) (clock w)
                    (S (ticks w)) (sent w)).

(** [reply_text], [edit_message_text] and [bot.send_message] *)
Definition send (msg : Message) : M unit :=
  fun w => (Ok tt,
            mkWorld (syllabi_json w) (progress_json w) (clock w) (ticks w)
                    (sent w ++ [msg])).

(** [d[k]] on a dict *)
Definition getitem {K V} `{Countable K} (d : gmap K V) (k : K) : M V :=
  match d !! k with
  | Some v => ret v
  | None => raise KeyError
  end.

Definition get_key {V} (o : option V) : M V :=
  match o with
  | Some v => ret v
  | None => raise KeyError
  end.

(** [l[i]] on a list: a negative index counts from the end. *)
Definition py_index {A} (l : list A) (i : Z) : option A :=
  if 0 <=? i then l !! Z.to_nat i
  else if 0 <=? Z.of_nat (length l) + i then l !! Z.to_nat (Z.of_nat (length l) + i)
  else None.

Definition index {A} (l : list A) (i : Z) : M A :=
  match py_index l i with
  | Some a => ret a
  | None => raise IndexError
  end.

(** [t + timedelta(days=n)] *)
Definition add_days (t : datetime) (n : Z) : M datetime :=
  if representable t n then ret (t + timedelta n) else raise OverflowError.

(** [len(l)] *)
Definition len {A} (l : list A) : Z := Z.of_nat (length l).

(** [x in l] on a list of integers *)
Definition mem (x : Z) (l : list Z) : bool := bool_decide (x ∈ l).

(** ** Numbers

    A Python [float] is an IEEE 754 binary64 number: the operations are
    those of [SpecFloat] at precision 53 and exponent bound 1024, rounding
    to nearest with ties to even.  A Python [int] is unbounded.  An
    operation that raises returns the exception. *)

Definition float := SpecFloat.spec_float.

Inductive number := PyInt (n : Z) | PyFloat (x : float).

(** An operation on values, as a step of a handler. *)
Definition lift {A} (o : outcome A) : M A := fun w => (o, w).

Definition and_then {A B} (o : outcome A) (k : A -> outcome B) : outcome B :=
  match o with
  | Ok a => k a
  | Raise e => Raise e
  end.

(** An [int] operand of a [float] operation: the nearest [float], and
    "int too large to convert to float" beyond the largest one. *)
Definition float_of_int (n : Z) : outcome float :=
  match SpecFloat.binary_normalize 53 1024 n 0 false with
  | SpecFloat.S754_infinity _ => Raise OverflowError
  | x => Ok x
  end.

(** [a / b] on two [int]s: the [float] nearest to the quotient, whatever
    the size of [a] and [b]. *)
Definition int_true_divide (a b : Z) : outcome float :=
  match a, b with
  | _, 0 => Raise ZeroDivisionError
  | 0, _ => Ok (SpecFloat.S754_zero (b <? 0))
  | _, _ =>
      let '(mz, ez, lz) :=
        SpecFloat.SFdiv_core_binary 53 1024 (Z.abs a) 0 (Z.abs b) 0 in
      match SpecFloat.binary_round_aux 53 1024 (xorb (a <? 0) (b <? 0))
                                       mz ez lz with
      | SpecFloat.S754_infinity _ => Raise OverflowError
      | x => Ok x
      end
  end.

Definition float_mul : float -> float -> float := SpecFloat.SFmul 53 1024.

(** [int(x)]: towards zero; an infinity is an [OverflowError], a NaN a
    [ValueError]. *)
Definition int_of_float (x : float) : outcome Z :=
  match x with
  | SpecFloat.S754_zero _ => Ok 0
  | SpecFloat.S754_finite s m e =>
      Ok (SpecFloat.cond_Zopp s
            match e with
            | Zneg k => Z.shiftr (Zpos m) (Zpos k)
            | _ => Z.shiftl (Zpos m) e
            end)
  | SpecFloat.S754_infinity _ => Raise OverflowError
  | SpecFloat.S754_nan => Raise ValueError
  end.

(** [n * y] for an [int] [n] *)
Definition int_mul (n : Z) (y : number) : outcome number :=
  match y with
  | PyInt m => Ok (PyInt (n * m))
  | PyFloat x => and_then (float_of_int n) (fun f => Ok (PyFloat (float_mul f x)))
  end.

(** [int(y)] *)
Definition int_of (y : number) : outcome Z :=
  match y with
  | PyInt n => Ok n
  | PyFloat x => int_of_float x
  end.

(** [modf] followed by the conversion of the integral part to an [int]:
    the fractional part, which has the sign of [x], and the integral
    part. *)
Definition modf (x : float) : outcome (float * Z) :=
  and_then (int_of_float x) (fun intpart =>
  and_then (float_of_int intpart) (fun whole =>
  Ok (SpecFloat.SFsub 53 1024 x whole, intpart))).

Definition is_zero (x : float) : bool :=
  match x with
  | SpecFloat.S754_zero _ => true
  | _ => false
  end.

(** 0.5 *)
Definition one_half : float := SpecFloat.S754_finite false 4503599627370496 (-53).

(** The whole microseconds that the constructor of [timedelta] adds for
    the fraction [leftover] of a microsecond, [x] being the microseconds so
    far: the nearest, and at one half the one that makes the sum even. *)
Definition round_leftover (x : Z) (leftover : float) : Z :=
  if is_zero leftover then 0
  else
    let away :=
      match leftover with
      | SpecFloat.S754_finite true _ _ => -1
      | _ => 1
      end in
    match SpecFloat.SFcompare (SpecFloat.SFabs leftover) one_half with
    | Some Lt => 0
    | Some Eq => if Z.even x then 0 else away
    | _ => away
    end.

(** A [timedelta] holds between -999999999 and 999999999 days. *)
Definition check_delta (us : Z) : outcome Z :=
  if Z.abs (us / usec_per_day) <=? timedelta_max_days then Ok us
  else Raise OverflowError.

(** [timedelta(days=d)], in microseconds.  For a [float] the whole days are
    converted exactly; their fraction is multiplied by the microseconds of
    a day in floating point, and what is left of a microsecond is
    rounded. *)
Definition timedelta_of (d : number) : outcome Z :=
  match d with
  | PyInt n => check_delta (n * usec_per_day)
  | PyFloat x =>
      and_then (modf x) (fun '(fracpart, intpart) =>
      let sum := intpart * usec_per_day in
      if is_zero fracpart then check_delta sum
      else
        and_then (float_of_int usec_per_day) (fun factor =>
        and_then (modf (float_mul factor fracpart)) (fun '(leftover, intpart') =>
        let us := sum + intpart' in
        check_delta (us + round_leftover us leftover))))
  end.

(** [t + delta]: "date value out of range" outside the years 1 to 9999. *)
Definition add_timedelta (t : datetime) (us : Z) : outcome datetime :=
  if (0 <=? t + us) && (t + us <=? datetime_max) then Ok (t + us)
  else Raise OverflowError.

(** ** Persistence *)

Definition empty_syllabi : SyllabiDoc := mkSyllabiDoc "" ∅.

Definition load_syllabi : M SyllabiDoc :=
  fun w => (Ok (default empty_syllabi (syllabi_json w)), w).

Definition save_syllabi (data : SyllabiDoc) : M unit :=
  fun w => (Ok tt,
            mkWorld (Some data) (progress_json w) (clock w) (ticks w) (sent w)).

Definition default_settings (t : datetime) : GlobalSettings :=
  mkSettings (Some 7) (Some true) (Some t) None.

Definition load_progress : M ProgressDoc :=
  fun w =>
    match progress_json w with
    | Some data =>
        match pd_global_settings data with
        | Some _ => ret data w
        | None =>
            (t <- now ;;
             ret (mkProgressDoc (Some (default_settings t))
                                (pd_syllabi_progress data))) w
        end
    | None =>
        (t <- now ;;
         ret (mkProgressDoc (Some (default_settings t)) (Some ∅))) w
    end.

Definition save_progress (data : ProgressDoc) : M unit :=
  fun w => (Ok tt,
            mkWorld (syllabi_json w) (Some data) (clock w) (ticks w) (sent w)).

(** ** Progress records

    In the source [syllabus_progress] is a reference into [progress]: a
    write through it is a write to the document.  Here the document is
    threaded, a write is [with_record], and a read through the reference
    after a write is [deref]. *)

Definition record_of (progress : ProgressDoc) (name : string)
  : option SyllabusProgress :=
  pd_syllabi_progress progress ≫= (fun table => table !! name).

Definition with_record (f : SyllabusProgress -> SyllabusProgress)
    (name : string) (progress : ProgressDoc) : ProgressDoc :=
  mkProgressDoc (pd_global_settings progress)
                (alter f name <$> pd_syllabi_progress progress).

Definition deref (progress : ProgressDoc) (name : string) : M SyllabusProgress :=
  get_key (record_of progress name).

Definition set_current_week (v : Z) (r : SyllabusProgress) : SyllabusProgress :=
  mkProgress v (sp_completed_weeks r) (sp_completion_dates r)
             (sp_start_date r) (sp_due_date r).

Definition set_due_date (v : datetime) (r : SyllabusProgress) : SyllabusProgress :=
  mkProgress (sp_current_week r) (sp_completed_weeks r) (sp_completion_dates r)
             (sp_start_date r) (Some v).

(** [completed_weeks.append(i)] *)
Definition append_completed (i : Z) (r : SyllabusProgress) : SyllabusProgress :=
  mkProgress (sp_current_week r) (sp_completed_weeks r ++ [i])
             (sp_completion_dates r) (sp_start_date r) (sp_due_date r).

(** [completion_dates[str(i)] = t], creating the dict when it is missing *)
Definition record_completion_date (i : Z) (t : datetime) (r : SyllabusProgress)
  : SyllabusProgress :=
  mkProgress (sp_current_week r) (sp_completed_weeks r)
             (Some (<[i := t]> (default ∅ (sp_completion_dates r))))
             (sp_start_date r) (sp_due_date r).

Definition set_settings (f : GlobalSettings -> GlobalSettings)
    (progress : ProgressDoc) : ProgressDoc :=
  mkProgressDoc (f <$> pd_global_settings progress) (pd_syllabi_progress progress).

Definition set_reminder_interval_field (d : Z) (gs : GlobalSettings) : GlobalSettings :=
  mkSettings (Some d) (gs_reminders_enabled gs) (gs_last_check gs)
             (gs_last_reminder gs).

Definition set_reminders_enabled (b : bool) (gs : GlobalSettings) : GlobalSettings :=
  mkSettings (gs_reminder_interval gs) (Some b) (gs_last_check gs)
             (gs_last_reminder gs).

Definition set_last_reminder (t : datetime) (gs : GlobalSettings) : GlobalSettings :=
  mkSettings (gs_reminder_interval gs) (gs_reminders_enabled gs)
             (gs_last_check gs) (Some t).

(** The record a syllabus starts with (also written by the reset). *)
Definition fresh_record (start due : datetime) : SyllabusProgress :=
  mkProgress 1 [] None start (Some due).

Definition get_syllabus_progress (progress : ProgressDoc) (syllabus_name : string)
  : M (ProgressDoc * SyllabusProgress) :=
  let progress :=
    match pd_syllabi_progress progress with
    | Some _ => progress
    | None => mkProgressDoc (pd_global_settings progress) (Some ∅)
    end in
  match record_of progress syllabus_name with
  | Some r => ret (progress, r)
  | None =>
      start <- now ;;
      t <- now ;;
      gs <- get_key (pd_global_settings progress) ;;
      due <- add_days t (interval_of gs) ;;
      let r := fresh_record start due in
      ret (mkProgressDoc (pd_global_settings progress)
             (Some (<[syllabus_name := r]>
                      (default ∅ (pd_syllabi_progress progress)))), r)
  end.

Definition update_due_date (progress : ProgressDoc) (syllabus_name : string)
  : M ProgressDoc :=
  got <- get_syllabus_progress progress syllabus_name ;;
  let progress := fst got in
  gs <- get_key (pd_global_settings progress) ;;
  t <- now ;;
  due <- add_days t (interval_of gs) ;;
  ret (with_record (set_due_date due) syllabus_name progress).

(** The decorator.  A command update has [update.message]; for a button
    press it is [None], so the [reply_text] of the [except] clause raises
    in its turn. *)
Definition handle_errors (has_message : bool) (func : M unit) : M unit :=
  try_except func
    (fun e => if has_message then send (MsgError InDecorator e)
              else raise AttributeError).

(** [not syllabi["current_field"] or
     syllabi["syllabi"][syllabi["current_field"]].get("paused", False)] *)
Definition no_active_or_paused (syllabi : SyllabiDoc) : M bool :=
  if bool_decide (cat_current_field syllabi = "") then ret true
  else
    s <- getitem (cat_syllabi syllabi) (cat_current_field syllabi) ;;
    ret (is_paused s).

Definition fresh (current_week : Z) (r : SyllabusProgress) : bool :=
  (current_week =? 1) && bool_decide (sp_completed_weeks r = []).

Definition status_text (current_week : Z) (r : SyllabusProgress) : StatusText :=
  if fresh current_week r then StartingWith else ContinuingWith.

(** ** Handlers

    [field_name] is what the transport extracted from the callback data;
    the menus, the help text and the echo are not part of the engine. *)

(** [(due_date - datetime.now()).days] when the record has a due date *)
Definition days_until (due : datetime) : M Z :=
  t <- now ;; ret (days (due - t)).

Definition due_status (d : Z) : DueStatus :=
  if d <? 0 then OverdueBy (Z.abs d) else DueIn d.

Definition start_syllabus_callback (field_name : string) : M unit :=
  handle_errors false (
    syllabi <- load_syllabi ;;
    progress <- load_progress ;;
    match cat_syllabi syllabi !! field_name with
    | Some syllabus =>
        if negb (is_paused syllabus) then
          save_syllabi (mkSyllabiDoc field_name (cat_syllabi syllabi)) ;;;
          (* Get or initialize progress for this syllabus *)
          got <- get_syllabus_progress progress field_name ;;
          let progress := fst got in
          let current_week := sp_current_week (snd got) in
          (* Update due date for new task if starting fresh *)
          progress <-
            (if fresh current_week (snd got) then
               progress <- update_due_date progress field_name ;;
               save_progress progress ;;;
               ret progress
             else ret progress) ;;
          let task_index := current_week - 1 in
          at_ <-
            (if len (syl_tasks syllabus) <=? task_index then
               (* Reset if we're beyond the end *)
               let progress := with_record (set_current_week 1) field_name progress in
               save_progress progress ;;;
               ret (progress, 0)
             else ret (progress, task_index)) ;;
          let progress := fst at_ in
          let task_index := snd at_ in
          syllabus_progress <- deref progress field_name ;;
          days_remaining <-
            match sp_due_date syllabus_progress with
            | Some due => d <- days_until due ;; ret (Some d)
            | None => ret None
            end ;;
          let st := status_text current_week syllabus_progress in
          task <- index (syl_tasks syllabus) task_index ;;
          send (MsgSelected field_name st task days_remaining)
        else send (MsgIsPaused field_name)
    | None => send (MsgIsPaused field_name)
    end).

Definition switch_syllabus_callback (field_name : string) : M unit :=
  handle_errors false (
    syllabi <- load_syllabi ;;
    progress <- load_progress ;;
    match cat_syllabi syllabi !! field_name with
    | Some syllabus =>
        if negb (is_paused syllabus) then
          save_syllabi (mkSyllabiDoc field_name (cat_syllabi syllabi)) ;;;
          got <- get_syllabus_progress progress field_name ;;
          let progress := fst got in
          let current_week := sp_current_week (snd got) in
          (* Update due date for this syllabus *)
          progress <- update_due_date progress field_name ;;
          save_progress progress ;;;
          syllabus_progress <- deref progress field_name ;;
          let st := status_text current_week syllabus_progress in
          let task_index := current_week - 1 in
          (* Make sure the task index is valid *)
          at_ <-
            (if len (syl_tasks syllabus) <=? task_index then
               let progress := with_record (set_current_week 1) field_name progress in
               save_progress progress ;;;
               ret (progress, 0)
             else ret (progress, task_index)) ;;
          let progress := fst at_ in
          let task_index := snd at_ in
          task <- index (syl_tasks syllabus) task_index ;;
          gs <- get_key (pd_global_settings progress) ;;
          send (MsgSwitched field_name st task (interval_of gs))
        else send (MsgIsPaused field_name)
    | None => send (MsgIsPaused field_name)
    end).

Definition current_week : M unit :=
  handle_errors true (
    syllabi <- load_syllabi ;;
    progress <- load_progress ;;
    stop <- no_active_or_paused syllabi ;;
    if stop : bool then send MsgNoActiveOrPaused
    else
      let current_field := cat_current_field syllabi in
      got <- get_syllabus_progress progress current_field ;;
      let syllabus_progress := snd got in
      let current_week := sp_current_week syllabus_progress in
      try_except (
        syllabus <- getitem (cat_syllabi syllabi) current_field ;;
        if (0 <? current_week) && (current_week <=? len (syl_tasks syllabus)) then
          status <-
            match sp_due_date syllabus_progress with
            | Some due => d <- days_until due ;; ret (due_status d)
            | None => ret NoDueInfo
            end ;;
          task <- index (syl_tasks syllabus) (current_week - 1) ;;
          send (MsgCurrentTask current_field task status)
        else send MsgNoCurrentTask)
      (fun e => send (MsgError InCurrent e))).

Definition check_progress : M unit :=
  handle_errors true (
    syllabi <- load_syllabi ;;
    progress <- load_progress ;;
    stop <- no_active_or_paused syllabi ;;
    if stop : bool then send MsgNoActiveOrPaused
    else
      try_except (
        let current_field := cat_current_field syllabi in
        got <- get_syllabus_progress progress current_field ;;
        let syllabus_progress := snd got in
        let current_week := sp_current_week syllabus_progress in
        syllabus <- getitem (cat_syllabi syllabi) current_field ;;
        if (0 <? current_week) && (current_week <=? len (syl_tasks syllabus)) then
          due_info <-
            match sp_due_date syllabus_progress with
            | Some due => d <- days_until due ;; ret (due_status d)
            | None => ret NoDueInfo
            end ;;
          task <- index (syl_tasks syllabus) (current_week - 1) ;;
          send (MsgCheckPrompt current_field task due_info)
        else send MsgNoTaskToCheck)
      (fun e => send (MsgError InCheck e))).

(** Make sure indices are valid *)
Definition valid_or_first (i n : Z) : Z :=
  if (i <? 0) || (n <=? i) then 0 else i.

Definition handle_yes_response : M unit :=
  syllabi <- load_syllabi ;;
  progress <- load_progress ;;
  if bool_decide (cat_current_field syllabi = "") then send MsgNoActive
  else
    let current_field := cat_current_field syllabi in
    got <- get_syllabus_progress progress current_field ;;
    let progress := fst got in
    let syllabus_progress := snd got in
    try_except (
      (* Get the current week index (0-based for array access) *)
      let current_week := sp_current_week syllabus_progress in
      let current_week_index := current_week - 1 in
      (* Add current week INDEX to completed weeks *)
      let progress :=
        if mem current_week_index (sp_completed_weeks syllabus_progress)
        then progress
        else with_record (append_completed current_week_index) current_field progress in
      (* Record completion date and time *)
      t <- now ;;
      let progress :=
        with_record (record_completion_date current_week_index t)
                    current_field progress in
      (* Move to next week *)
      let progress :=
        with_record (fun r => set_current_week (sp_current_week r + 1) r)
                    current_field progress in
      (* Update due date for next task *)
      progress <- update_due_date progress current_field ;;
      save_progress progress ;;;
      syllabus_progress <- deref progress current_field ;;
      syllabus <- getitem (cat_syllabi syllabi) current_field ;;
      let n := len (syl_tasks syllabus) in
      (* Check if this was the final task *)
      if n <? sp_current_week syllabus_progress then
        send (MsgCongratulations current_field)
      else
        let completed_task_index := valid_or_first current_week_index n in
        let next_task_index :=
          valid_or_first (sp_current_week syllabus_progress - 1) n in
        completed_task <- index (syl_tasks syllabus) completed_task_index ;;
        next_task <- index (syl_tasks syllabus) next_task_index ;;
        gs <- get_key (pd_global_settings progress) ;;
        send (MsgGreatJob completed_task next_task (interval_of gs)))
    (fun e => send (MsgError InUpdatingProgress e)).

Definition handle_no_response : M unit :=
  syllabi <- load_syllabi ;;
  progress <- load_progress ;;
  if bool_decide (cat_current_field syllabi = "") then send MsgNoActive
  else
    let current_field := cat_current_field syllabi in
    got <- get_syllabus_progress progress current_field ;;
    let progress := fst got in
    let syllabus_progress := snd got in
    let current_week := sp_current_week syllabus_progress in
    try_except (
      (* Extend the due date by half the original interval *)
      gs <- get_key (pd_global_settings progress) ;;
      let interval := interval_of gs in
      let extension := Z.max 3 (interval / 2) in
      match sp_due_date syllabus_progress with
      | Some due_date =>
          extended_date <- add_days due_date extension ;;
          let progress := with_record (set_due_date extended_date) current_field progress in
          save_progress progress ;;;
          d <- days_until extended_date ;;
          syllabus <- getitem (cat_syllabi syllabi) current_field ;;
          task <- index (syl_tasks syllabus) (current_week - 1) ;;
          send (MsgKeepWorkingExtended task extension d)
      | None =>
          syllabus <- getitem (cat_syllabi syllabi) current_field ;;
          task <- index (syl_tasks syllabus) (current_week - 1) ;;
          send (MsgKeepWorking task)
      end)
    (fun e => send (MsgError InUpdatingDueDate e)).

Definition handle_reset_yes : M unit :=
  syllabi <- load_syllabi ;;
  progress <- load_progress ;;
  if bool_decide (cat_current_field syllabi = "") then send MsgNoActive
  else
    let current_field := cat_current_field syllabi in
    try_except (
      (* Reset progress for this syllabus *)
      match record_of progress current_field with
      | Some _ =>
          start <- now ;;
          t <- now ;;
          gs <- get_key (pd_global_settings progress) ;;
          due <- add_days t (interval_of gs) ;;
          let progress :=
            mkProgressDoc (pd_global_settings progress)
              (insert current_field (fresh_record start due)
                 <$> pd_syllabi_progress progress) in
          save_progress progress ;;;
          syllabus <- getitem (cat_syllabi syllabi) current_field ;;
          task <- index (syl_tasks syllabus) 0 ;;
          send (MsgProgressReset current_field task (interval_of gs))
      | None => send MsgNoProgressFound
      end)
    (fun e => send (MsgError InResetting e)).

Definition set_paused (b : bool) (s : Syllabus) : Syllabus :=
  mkSyllabus (syl_tasks s) (Some b).

Definition pause_syllabus_callback (field_name : string) : M unit :=
  handle_errors false (
    syllabi <- load_syllabi ;;
    match cat_syllabi syllabi !! field_name with
    | Some syllabus =>
        try_except (
          let table := <[field_name := set_paused true syllabus]> (cat_syllabi syllabi) in
          let current :=
            if bool_decide (cat_current_field syllabi = field_name) then ""
            else cat_current_field syllabi in
          save_syllabi (mkSyllabiDoc current table) ;;;
          send (MsgTrackingPaused field_name))
        (fun e => send (MsgError InPausing e))
    | None => send MsgSyllabusNotFound
    end).

Definition resume_syllabus_callback (field_name : string) : M unit :=
  handle_errors false (
    syllabi <- load_syllabi ;;
    match cat_syllabi syllabi !! field_name with
    | Some syllabus =>
        try_except (
          let table := <[field_name := set_paused false syllabus]> (cat_syllabi syllabi) in
          save_syllabi (mkSyllabiDoc (cat_current_field syllabi) table) ;;;
          send (MsgTrackingResumed field_name))
        (fun e => send (MsgError InResuming e))
    | None => send MsgSyllabusNotFound
    end).

Definition toggle_reminders : M unit :=
  handle_errors true (
    progress <- load_progress ;;
    gs <- get_key (pd_global_settings progress) ;;
    let current_status := enabled_of gs in
    let progress := set_settings (set_reminders_enabled (negb current_status)) progress in
    save_progress progress ;;;
    send (MsgRemindersNow (negb current_status))).

(** [context.args]: nothing, a first word that [int()] rejects, or an
    integer. *)
Inductive IntervalArg := NoArgs | NotAnInteger | Days (d : Z).

Definition set_reminder_interval (args : IntervalArg) : M unit :=
  handle_errors true (
    match args with
    | NoArgs => send MsgIntervalUsage
    | NotAnInteger => send MsgValidNumber
    | Days d =>
        if d <? 1 then send MsgPositiveNumber
        else
          progress <- load_progress ;;
          let progress := set_settings (set_reminder_interval_field d) progress in
          (* Update due date for current syllabus if one is active *)
          syllabi <- load_syllabi ;;
          progress <-
            (if bool_decide (cat_current_field syllabi = "") then ret progress
             else update_due_date progress (cat_current_field syllabi)) ;;
          save_progress progress ;;;
          send (MsgIntervalSet d)
    end).

(** [days_active / completed_tasks if completed_tasks > 0 else
     progress["global_settings"].get("reminder_interval", 7)] *)
Definition avg_days_per_task (progress : ProgressDoc)
    (days_active completed_tasks : Z) : M number :=
  if 0 <? completed_tasks
  then x <- lift (int_true_divide days_active completed_tasks) ;; ret (PyFloat x)
  else gs <- get_key (pd_global_settings progress) ;; ret (PyInt (interval_of gs)).

(** [remaining_tasks * avg_days_per_task] *)
Definition estimated_days_left (remaining_tasks : Z) (avg : number) : M number :=
  lift (int_mul remaining_tasks avg).

(** The estimate under [try: ... except Exception: pass]: the date
    [datetime.now() + timedelta(days=estimated_days_left)] and
    [int(estimated_days_left)] as the line prints them, and no line when
    one of the steps raises. *)
Definition estimate (progress : ProgressDoc)
    (remaining_tasks days_active completed_tasks : Z)
  : M (option (datetime * Z)) :=
  try_except (
    avg <- avg_days_per_task progress days_active completed_tasks ;;
    e <- estimated_days_left remaining_tasks avg ;;
    t <- now ;;
    delta <- lift (timedelta_of e) ;;
    estimated_completion_date <- lift (add_timedelta t delta) ;;
    in_days <- lift (int_of e) ;;
    ret (Some (estimated_completion_date, in_days)))
  (fun _ => ret None).

Definition show_statistics : M unit :=
  handle_errors true (
    syllabi <- load_syllabi ;;
    progress <- load_progress ;;
    if bool_decide (cat_current_field syllabi = "") then send MsgNoActive
    else
      let current_field := cat_current_field syllabi in
      match cat_syllabi syllabi !! current_field with
      | None => send MsgCurrentNotFound
      | Some syllabus =>
          got <- get_syllabus_progress progress current_field ;;
          let syllabus_progress := snd got in
          (* Gather statistics *)
          let total_tasks := len (syl_tasks syllabus) in
          let completed_tasks := len (sp_completed_weeks syllabus_progress) in
          let current_week := sp_current_week syllabus_progress in
          let completion_pct :=
            if 0 <? total_tasks
            then (inject_Z completed_tasks / inject_Z total_tasks * 100)%Q
            else 0%Q in
          (* Calculate days since started *)
          t <- now ;;
          let days_active := days (t - sp_start_date syllabus_progress) in
          (* Calculate days left for current task *)
          days_left <-
            match sp_due_date syllabus_progress with
            | Some due => d <- days_until due ;; ret (Some d)
            | None => ret None
            end ;;
          (* Add remaining tasks *)
          tail <-
            (if current_week <=? total_tasks then
               let remaining_tasks := total_tasks - current_week + 1 in
               (* Estimate completion date *)
               est <-
                 (if (0 <? days_active) && (0 <? completed_tasks)
                  then
                    estimate (fst got) remaining_tasks days_active
                             completed_tasks
                  else ret None) ;;
               ret (Some remaining_tasks, est)
             else ret (None, None)) ;;
          send (MsgStatistics
                  (mkStatistics current_field completed_tasks total_tasks
                     completion_pct (Z.min current_week total_tasks)
                     days_active days_left (fst tail) (snd tail)))
      end).

(** The daily job; [chat_id] is [context.job.data]. *)
Definition check_due_dates (chat_id : Z) : M unit :=
  progress <- load_progress ;;
  syllabi <- load_syllabi ;;
  gs <- get_key (pd_global_settings progress) ;;
  (* Skip if reminders are disabled *)
  if negb (enabled_of gs) then ret tt
  else
    (* Skip if no active syllabus *)
    stop <- no_active_or_paused syllabi ;;
    if stop : bool then ret tt
    else
      let current_field := cat_current_field syllabi in
      got <- get_syllabus_progress progress current_field ;;
      let progress := fst got in
      let syllabus_progress := snd got in
      (* Check if we have a due date *)
      match sp_due_date syllabus_progress with
      | None => ret tt
      | Some due_date =>
          now_ <- now ;;
          (* Calculate days remaining *)
          let days_remaining := days (due_date - now_) in
          let current_week := sp_current_week syllabus_progress in
          if (0 <=? days_remaining) && (days_remaining <=? 1) then
            (* If due today or tomorrow, send a reminder *)
            syllabus <- getitem (cat_syllabi syllabi) current_field ;;
            if current_week <=? len (syl_tasks syllabus) then
              current_task <- index (syl_tasks syllabus) (current_week - 1) ;;
              send (MsgReminder chat_id
                      (if days_remaining =? 0 then due_today else due_tomorrow)
                      current_field current_task days_remaining)
            else ret tt
          else if days_remaining <? 0 then
            (* If overdue, send a reminder every 3 days *)
            gs <- get_key (pd_global_settings progress) ;;
            let last_reminder :=
              default last_reminder_default (gs_last_reminder gs) in
            if 3 <=? days (now_ - last_reminder) then
              syllabus <- getitem (cat_syllabi syllabi) current_field ;;
              if current_week <=? len (syl_tasks syllabus) then
                current_task <- index (syl_tasks syllabus) (current_week - 1) ;;
                send (MsgReminder chat_id overdue current_field current_task
                        (Z.abs days_remaining)) ;;;
                (* Update last reminder time *)
                let progress := set_settings (set_last_reminder now_) progress in
                save_progress progress
              else ret tt
            else ret tt
          else ret tt
      end.

(** ** Dispatch

    The operations of the engine, as [main] registers them and
    [button_handler] routes them.  The remaining commands and buttons
    ([/start], [/help], [/completed], [/reset], [/show_all_syllabi] and the
    three menus, [show_], [reset_no], the echo) answer from what they read
    and save nothing. *)
Inductive Operation :=
| Select (name : string)          (* button [start_<name>] *)
| Switch (name : string)          (* button [switch_<name>] *)
| Current                         (* /current *)
| Check                           (* /check *)
| Yes                             (* button [yes] *)
| No                              (* button [no] *)
| ResetYes                        (* button [reset_yes] *)
| Pause (name : string)           (* button [pause_<name>] *)
| Resume (name : string)          (* button [resume_<name>] *)
| ToggleReminders                 (* /toggle_reminders *)
| SetInterval (args : IntervalArg) (* /set_interval *)
| ShowStatistics                  (* /statistics *)
| DailyCheck (chat_id : Z).       (* the job queue *)

Definition handler_of (op : Operation) : M unit :=
  match op with
  | Select name => start_syllabus_callback name
  | Switch name => switch_syllabus_callback name
  | Current => current_week
  | Check => check_progress
  | Yes => handle_yes_response
  | No => handle_no_response
  | ResetYes => handle_reset_yes
  | Pause name => pause_syllabus_callback name
  | Resume name => resume_syllabus_callback name
  | ToggleReminders => toggle_reminders
  | SetInterval args => set_reminder_interval args
  | ShowStatistics => show_statistics
  | DailyCheck chat_id => check_due_dates chat_id
  end.

(** ** The handlers that only answer

    The menus, [/completed], the details of a syllabus, the reset prompt,
    the help and the echo read the documents and answer; they save nothing.
    Their answer is the value of the computation ([None]: no answer), where
    the handlers above append theirs to [sent]. *)

Inductive MenuKind :=
| StartMenu | ShowAllMenu | SwitchMenu | PauseMenu | ResumeMenu.

(** The [except] clause that answered. *)
Inductive ViewSite := AtDecorator | AtCompleted | AtDisplaying.

(** What [show_syllabus_callback] displays; [sd_progress] is the completed
    count, the total and the current week -- [None] where the text says
    "Completed" -- when the syllabus has a progress record. *)
Record SyllabusDetails := mkDetails {
  sd_field : string;
  sd_paused : bool;
  sd_total_weeks : Z;
  sd_progress : option (Z * Z * option Z);
  sd_tasks : list (Z * string)
}.

Inductive View :=
| ViewNoSyllabi (k : MenuKind)
(* one button per syllabus, labelled paused or active; the order of the
   buttons, that of the JSON object, is not represented *)
| ViewMenu (k : MenuKind) (buttons : gmap string bool)
| ViewNoActiveOrPaused
(* each completed task with the day of its completion date (days since
   0001-01-01, printed as ['%Y-%m-%d']) when one is recorded *)
| ViewCompleted (field : string) (lines : list (string * option Z))
| ViewNothingCompleted
| ViewSyllabus (d : SyllabusDetails)
| ViewResetPrompt
| ViewResetCancelled
| ViewHelp
| ViewEcho (text : string)
| ViewError (site : ViewSite) (e : exn)
| ViewSorry.

(** [handle_errors] around a handler that answers by its value. *)
Definition handle_errors_view (has_message : bool) (func : M (option View))
  : M (option View) :=
  try_except func
    (fun e => if has_message then ret (Some (ViewError AtDecorator e))
              else raise AttributeError).

(** [/start], [/show_all_syllabi], [/switch_syllabus], [/pause_syllabus] and
    [/resume_syllabus]: the same menu under five headings. *)
Definition menu (k : MenuKind) : M (option View) :=
  handle_errors_view true (
    syllabi <- load_syllabi ;;
    if bool_decide (size (cat_syllabi syllabi) = 0%nat)
    then ret (Some (ViewNoSyllabi k))
    else ret (Some (ViewMenu k (is_paused <$> cat_syllabi syllabi)))).

Definition start : M (option View) := menu StartMenu.
Definition show_all_syllabi : M (option View) := menu ShowAllMenu.
Definition switch_syllabus : M (option View) := menu SwitchMenu.
Definition pause_syllabus : M (option View) := menu PauseMenu.
Definition resume_syllabus : M (option View) := menu ResumeMenu.

Definition help_command : M (option View) :=
  handle_errors_view true (ret (Some ViewHelp)).

(** The loop of [show_completed] over [completed_weeks]. *)
Fixpoint completed_lines (tasks : list string)
    (completion_dates : option (gmap Z datetime)) (weeks : list Z)
  : M (list (string * option Z)) :=
  match weeks with
  | [] => ret []
  | i :: rest =>
      if i <? len tasks then
        task <- index tasks i ;;
        (* Add completion date if available *)
        let date_info := days <$> (completion_dates ≫= (fun d => d !! i)) in
        lines <- completed_lines tasks completion_dates rest ;;
        ret ((task, date_info) :: lines)
      else completed_lines tasks completion_dates rest
  end.

Definition show_completed : M (option View) :=
  handle_errors_view true (
    syllabi <- load_syllabi ;;
    progress <- load_progress ;;
    stop <- no_active_or_paused syllabi ;;
    if stop : bool then ret (Some ViewNoActiveOrPaused)
    else
      let current_field := cat_current_field syllabi in
      got <- get_syllabus_progress progress current_field ;;
      let syllabus_progress := snd got in
      try_except (
        syllabus <- getitem (cat_syllabi syllabi) current_field ;;
        completed <-
          completed_lines (syl_tasks syllabus)
            (sp_completion_dates syllabus_progress)
            (sp_completed_weeks syllabus_progress) ;;
        match completed with
        | [] => ret (Some ViewNothingCompleted)
        | _ :: _ => ret (Some (ViewCompleted current_field completed))
        end)
      (fun e => ret (Some (ViewError AtCompleted e)))).

Definition reset_progress : M (option View) :=
  handle_errors_view true (
    syllabi <- load_syllabi ;;
    stop <- no_active_or_paused syllabi ;;
    if stop : bool then ret (Some ViewNoActiveOrPaused)
    else ret (Some ViewResetPrompt)).

(** [f"{i+1}. {task}" for i, task in enumerate(tasks)] *)
Definition numbered (tasks : list string) : list (Z * string) :=
  imap (fun i task => (Z.of_nat i + 1, task)) tasks.

Definition show_syllabus_callback (field_name : string) : M (option View) :=
  handle_errors_view false (
    syllabi <- load_syllabi ;;
    progress <- load_progress ;;
    match cat_syllabi syllabi !! field_name with
    | Some syllabus =>
        try_except (
          let tasks := numbered (syl_tasks syllabus) in
          let status := is_paused syllabus in
          (* Get progress info if available *)
          let progress_info :=
            match record_of progress field_name with
            | Some syllabus_progress =>
                let completed := len (sp_completed_weeks syllabus_progress) in
                let total := len (syl_tasks syllabus) in
                let current := sp_current_week syllabus_progress in
                (* Prevent showing current week beyond total tasks *)
                Some (completed, total,
                      if total <? current then None else Some current)
            | None => None
            end in
          ret (Some (ViewSyllabus
                       (mkDetails field_name status (len (syl_tasks syllabus))
                                  progress_info tasks))))
        (fun e => ret (Some (ViewError AtDisplaying e)))
    | None => ret None
    end).

Definition handle_reset_no : M (option View) := ret (Some ViewResetCancelled).

Definition echo (text : string) : M (option View) := ret (Some (ViewEcho text)).

(** ** Updates

    [button_handler] on the callback data, the commands [main] registers,
    and [error_handler] for what a handler lets escape. *)

(** [s.startswith(pre)] *)
Fixpoint startswith (s pre : string) {struct pre} : bool :=
  match pre with
  | EmptyString => true
  | String a pre' =>
      match s with
      | EmptyString => false
      | String b s' => Ascii.eqb a b && startswith s' pre'
      end
  end.

(** [s.replace(old, "")], from the left and without overlap, with [skip]
    characters of a match still to drop. *)
Fixpoint remove_from (skip : nat) (old s : string) : string :=
  match s with
  | EmptyString => EmptyString
  | String c s' =>
      match skip with
      | S k => remove_from k old s'
      | O =>
          if startswith s old
          then remove_from (String.length old - 1) old s'
          else String c (remove_from 0 old s')
      end
  end.

Definition remove_all (old s : string) : string :=
  match old with
  | EmptyString => s
  | String _ _ => remove_from 0 old s
  end.

(** An engine handler: what it answers is in [sent]. *)
Definition engine (h : M unit) : M (option View) := h ;;; ret None.

(** Each callback takes its name from the data with
    [query.data.replace(prefix, "")]. *)
Definition button_handler (data : string) : M (option View) :=
  if startswith data "start_" then
    engine (start_syllabus_callback (remove_all "start_" data))
  else if startswith data "show_" then
    show_syllabus_callback (remove_all "show_" data)
  else if startswith data "switch_" then
    engine (switch_syllabus_callback (remove_all "switch_" data))
  else if startswith data "pause_" then
    engine (pause_syllabus_callback (remove_all "pause_" data))
  else if startswith data "resume_" then
    engine (resume_syllabus_callback (remove_all "resume_" data))
  else if bool_decide (data = "yes") then engine handle_yes_response
  else if bool_decide (data = "no") then engine handle_no_response
  else if bool_decide (data = "reset_yes") then engine handle_reset_yes
  else if bool_decide (data = "reset_no") then handle_reset_no
  else ret None.

Inductive Command :=
| CmdStart | CmdHelp | CmdCurrent | CmdCompleted | CmdCheck | CmdReset
| CmdShowAllSyllabi | CmdSwitchSyllabus | CmdPauseSyllabus
| CmdResumeSyllabus | CmdToggleReminders
| CmdSetInterval (args : IntervalArg) | CmdStatistics.

Definition command_handler (c : Command) : M (option View) :=
  match c with
  | CmdStart => start
  | CmdHelp => help_command
  | CmdCurrent => engine current_week
  | CmdCompleted => show_completed
  | CmdCheck => engine check_progress
  | CmdReset => reset_progress
  | CmdShowAllSyllabi => show_all_syllabi
  | CmdSwitchSyllabus => switch_syllabus
  | CmdPauseSyllabus => pause_syllabus
  | CmdResumeSyllabus => resume_syllabus
  | CmdToggleReminders => engine toggle_reminders
  | CmdSetInterval args => engine (set_reminder_interval args)
  | CmdStatistics => engine show_statistics
  end.

(** A command, a button press, or a text that is not a command. *)
Inductive Update :=
| OnCommand (c : Command)
| OnButton (data : string)
| OnText (text : string).

(** The update has a message to reply to: "Sorry, an error occurred". *)
Definition error_handler (e : exn) : M (option View) := ret (Some ViewSorry).

(** What the application does with an update: the handler registered for
    it, and [error_handler] when that raises. *)
Definition process_update (u : Update) : M (option View) :=
  try_except
    match u with
    | OnCommand c => command_handler c
    | OnButton data => button_handler data
    | OnText text => echo text
    end
    error_handler.

(** * Properties *)

(** ** Example worlds *)

Module Examples.

Definition day (n : Z) : datetime := timedelta n.

(** 2024-01-01T00:00:00; [date(2024, 1, 1).toordinal() = 738886]. *)
Definition T0 : datetime := day 738885.

Definition math : Syllabus :=
  mkSyllabus ["Algebra"; "Geometry"; "Calculus"] (Some false).

Definition catalog (current : string) : SyllabiDoc :=
  mkSyllabiDoc current {[ "Math" := math ]}.

Definition settings : GlobalSettings :=
  mkSettings (Some 7) (Some true) (Some T0) None.

Definition document (r : SyllabusProgress) : ProgressDoc :=
  mkProgressDoc (Some settings) (Some {[ "Math" := r ]}).

(** All three tasks done on days 1, 2 and 3. *)
Definition math_completed : SyllabusProgress :=
  mkProgress 4 [0; 1; 2]
    (Some (<[0 := T0 + day 1]> (<[1 := T0 + day 2]> {[ 2 := T0 + day 3 ]})))
    T0 (Some (T0 + day 10)).

(** The first task done on day 1; the second is due on day 7. *)
Definition math_in_progress : SyllabusProgress :=
  mkProgress 2 [0] (Some {[ 0 := T0 + day 1 ]}) T0 (Some (T0 + day 7)).

(** Nothing done yet. *)
Definition math_fresh : SyllabusProgress :=
  mkProgress 1 [] None T0 (Some (T0 + day 7)).

(** A clock that reads [t], then one second later at each reading. *)
Definition clock_from (t : datetime) : nat -> datetime :=
  fun k => t + Z.of_nat k * 1000000.

Definition world (current : string) (r : SyllabusProgress) (t : datetime) : World :=
  mkWorld (Some (catalog current)) (Some (document r)) (clock_from t) 0 [].

Definition half_day : Z := 43200000000.

(** [context.job.data] as [main] sets it. *)
Definition chat : Z := 123456789.

(** "Math" is active, "Chemistry" is paused, nothing is selected. *)
Definition two_syllabi : World :=
  mkWorld
    (Some (mkSyllabiDoc ""
             (<[ "Chemistry" := mkSyllabus ["Atoms"; "Bonds"] (Some true) ]>
                {[ "Math" := math ]})))
    (Some (mkProgressDoc (Some settings) (Some ∅)))
    (clock_from T0) 0 [].

(** A course of eighteen units, the first three done; the fourth is due
    on day 56. *)
Definition course : Syllabus := mkSyllabus (replicate 18 "Unit") (Some false).

Definition course_three_done : SyllabusProgress :=
  mkProgress 4 [0; 1; 2] None T0 (Some (T0 + day 56)).

Definition course_world (t : datetime) : World :=
  mkWorld (Some (mkSyllabiDoc "Course" {[ "Course" := course ]}))
          (Some (mkProgressDoc (Some settings)
                   (Some {[ "Course" := course_three_done ]})))
          (clock_from t) 0 [].

(** The first run: a catalog, no [progress.json] yet. *)
Definition first_run : World :=
  mkWorld (Some (catalog "")) None (clock_from T0) 0 [].

(** The documents of [w] at a later time, with nothing sent yet. *)
Definition at_time (t : datetime) (w : World) : World :=
  mkWorld (syllabi_json w) (progress_json w) (clock_from t) 0 [].

End Examples.

(** ** Vocabulary of the statements *)

(** What [progress.json] holds for a syllabus. *)
Definition stored (w : World) (name : string) : option SyllabusProgress :=
  progress_json w ≫= (fun d => record_of d name).

(** The settings [progress.json] holds. *)
Definition stored_settings (w : World) : option GlobalSettings :=
  progress_json w ≫= pd_global_settings.

(** The interval the next handler will work with: the stored one, 7 when
    the key, the settings or the file are missing. *)
Definition current_interval (w : World) : Z :=
  match stored_settings w with
  | Some gs => interval_of gs
  | None => 7
  end.

(** The catalog as [load_syllabi] returns it. *)
Definition catalog_of (w : World) : SyllabiDoc :=
  default empty_syllabi (syllabi_json w).

(** The syllabus a name stands for. *)
Definition syllabus_of (w : World) (name : string) : option Syllabus :=
  cat_syllabi (catalog_of w) !! name.

(** The selected syllabus, when there is one. *)
Definition selected (w : World) (name : string) : Prop :=
  name <> "" /\ cat_current_field (catalog_of w) = name.

(** [now + timedelta(days = remaining_tasks * (days_active /
    completed_tasks))] and the whole days of the product, in Python's
    arithmetic: the quotient and the product are [float]s. *)
Definition python_estimate (now_ : datetime)
    (remaining_tasks days_active completed_tasks : Z)
  : outcome (datetime * Z) :=
  and_then (int_true_divide days_active completed_tasks) (fun avg =>
  and_then (float_of_int remaining_tasks) (fun remaining =>
  let e := float_mul remaining avg in
  and_then (timedelta_of (PyFloat e)) (fun delta =>
  and_then (add_timedelta now_ delta) (fun date =>
  and_then (int_of_float e) (fun in_days => Ok (date, in_days)))))).

(** The estimate line: left out when the computation raises. *)
Definition estimate_line {A} (o : outcome A) : option A :=
  match o with
  | Ok a => Some a
  | Raise _ => None
  end.

(** Weakest precondition of a handler: [Q] holds of how it ends and of the
    world it leaves. *)
Definition wp {A} (m : M A) (w : World) (Q : outcome A -> World -> Prop) : Prop :=
  Q (m w).1 (m w).2.

(** The handler [h], [n] times in a row. *)
Fixpoint repeatedly (n : nat) (h : M unit) : M unit :=
  match n with
  | O => ret tt
  | S n' => h ;;; repeatedly n' h
  end.

(** The document [load_progress] returns: the stored one, with default
    settings when they, or the file, are missing. *)
Definition loaded_settings (w : World) : GlobalSettings :=
  default (default_settings (clock w (ticks w))) (stored_settings w).

Definition loaded_table (w : World) : option (gmap string SyllabusProgress) :=
  match progress_json w with
  | Some d => pd_syllabi_progress d
  | None => Some ∅
  end.

Definition loaded (w : World) : ProgressDoc :=
  mkProgressDoc (Some (loaded_settings w)) (loaded_table w).

(** Readings of the clock [load_progress] takes. *)
Definition load_ticks (w : World) : nat :=
  match stored_settings w with Some _ => 0 | None => 1 end.

(** A record as it is created: week 1, nothing completed. *)
Definition is_fresh (r : SyllabusProgress) : Prop :=
  sp_current_week r = 1 /\ sp_completed_weeks r = [].

(** In [w'] the record of [name] is due one interval after a reading of
    the clock taken between [w] and [w']. *)
Definition due_recomputed (w w' : World) (name : string) : Prop :=
  exists k : nat,
    (ticks w <= k < ticks w')%nat
    /\ (sp_due_date <$> stored w' name)
       = Some (Some (clock w k + timedelta (current_interval w))).

(** The next [n] readings of the clock plus the interval are dates that
    [datetime] can hold (no [OverflowError] past the year 9999). *)
Definition dates_in_range (w : World) (n : nat) : bool :=
  forallb (fun k => representable (clock w k) (current_interval w))
          (seq (ticks w) n).

(** Whether the daily job will find reminders enabled. *)
Definition reminders_on (w : World) : bool :=
  match stored_settings w with
  | Some gs => enabled_of gs
  | None => true
  end.

(** The last reminder as the daily job reads it: 2000-01-01 when unset. *)
Definition last_reminder_of (w : World) : datetime :=
  default last_reminder_default (stored_settings w ≫= gs_last_reminder).





(** What the "yes" button answers while the tasks [todo] are completed one
    after the other: the task done and the next one, and at the last task
    the congratulations. *)
Fixpoint completion_messages (name : string) (interval : Z)
    (todo : list string) : list Message :=
  match todo with
  | [] => []
  | t :: rest =>
      match rest with
      | [] => MsgCongratulations name
      | next :: _ => MsgGreatJob t next interval
      end :: completion_messages name interval rest
  end.

(** The invariant of a progress record against the tasks of its syllabus:
    every completed index is below the number of tasks, and every
    completion date belongs to a completed index. *)
Definition record_ok (tasks : list string) (r : SyllabusProgress) : Prop :=
  (forall i, i ∈ sp_completed_weeks r -> i < len tasks)
  /\ (forall i, is_Some (default ∅ (sp_completion_dates r) !! i) ->
                i ∈ sp_completed_weeks r).

(** ... for every record of [progress.json] whose syllabus the catalog has. *)
Definition progress_invariant (w : World) : Prop :=
  forall name syl r,
    syllabus_of w name = Some syl ->
    stored w name = Some r ->
    record_ok (syl_tasks syl) r.

(** The week a handler will find for a syllabus: 1 for the record it
    creates. *)
Definition week_of (w : World) (name : string) : Z :=
  match stored w name with
  | Some r => sp_current_week r
  | None => 1
  end.

(** What completing the current task requires: an active, unpaused
    syllabus with [0 < current_week <= len(tasks)] -- the test [/check]
    makes before it offers the buttons. *)
Definition complete_current_requires (w : World) : Prop :=
  exists name syl,
    selected w name
    /\ syllabus_of w name = Some syl
    /\ is_paused syl = false
    /\ 0 < week_of w name <= len (syl_tasks syl).

(** The invariant of a table of records against the catalog of [w]. *)
Definition table_ok (w : World) (t : gmap string SyllabusProgress) : Prop :=
  forall name syl r,
    syllabus_of w name = Some syl -> t !! name = Some r ->
    record_ok (syl_tasks syl) r.

(** A change of a record that keeps it in order. *)
Definition harmless (f : SyllabusProgress -> SyllabusProgress) : Prop :=
  forall tasks r, record_ok tasks r -> record_ok tasks (f r).

(** ** Vocabulary of the further properties *)

(** The argument [/set_interval] turns down. *)
Definition rejected (args : IntervalArg) : Prop :=
  match args with
  | NoArgs | NotAnInteger => True
  | Days d => d < 1
  end.

Definition rejection (args : IntervalArg) : Message :=
  match args with
  | NoArgs => MsgIntervalUsage
  | NotAnInteger => MsgValidNumber
  | Days _ => MsgPositiveNumber
  end.

(** The handler ends normally, has answered with [answer] and has left
    both documents as they were. *)
Definition answers_only (h : M unit) (w : World) (answer : Message) : Prop :=
  result h w = Ok tt
  /\ syllabi_json (run h w) = syllabi_json w
  /\ progress_json (run h w) = progress_json w
  /\ sent (run h w) = sent w ++ [answer].

(** The daily job ends normally without a notice and without a write. *)
Definition job_silent (chat_id : Z) (w : World) : Prop :=
  result (check_due_dates chat_id) w = Ok tt
  /\ sent (run (check_due_dates chat_id) w) = sent w
  /\ syllabi_json (run (check_due_dates chat_id) w) = syllabi_json w
  /\ progress_json (run (check_due_dates chat_id) w) = progress_json w.

(** What every handler leaves in a record, whatever it found: a week from
    1 on, no index completed twice, and a due date. *)
Definition record_sane (r : SyllabusProgress) : Prop :=
  1 <= sp_current_week r
  /\ NoDup (sp_completed_weeks r)
  /\ is_Some (sp_due_date r).

Definition progress_sane (w : World) : Prop :=
  forall name r, stored w name = Some r -> record_sane r.

Definition table_sane (t : gmap string SyllabusProgress) : Prop :=
  forall name r, t !! name = Some r -> record_sane r.

(** A change of a record that keeps it sane. *)
Definition keeps_sane (f : SyllabusProgress -> SyllabusProgress) : Prop :=
  forall r, record_sane r -> record_sane (f r).

(** The line [/completed] prints for the completed index [i]: the task at
    that index, and the day of its completion date when one is recorded. *)
Definition line_of (tasks : list string) (dates : option (gmap Z datetime))
    (i : Z) (line : string * option Z) : Prop :=
  tasks !! Z.to_nat i = Some (fst line)
  /\ snd line = days <$> (dates ≫= (fun d => d !! i)).

(** [old in s]: the string [old] occurs in [s]. *)
Fixpoint occurs (old s : string) : bool :=
  startswith s old
  || match s with
     | EmptyString => false
     | String _ s' => occurs old s'
     end.

(** An update was answered once: by the value of the handler, or by one
    message. *)
Definition answered_once (w w' : World) (v : option View) : Prop :=
  match v with
  | Some _ => sent w' = sent w
  | None => exists m, sent w' = sent w ++ [m]
  end.

(** An engine handler that ends normally has answered with one message;
    one that raises has not answered. *)
Definition replies_once (h : M unit) : Prop :=
  forall w, wp h w (fun o w' =>
    match o with
    | Ok _ => exists m, sent w' = sent w ++ [m]
    | Raise _ => sent w' = sent w
    end).

(** A handler that sends nothing and writes no document. *)
Definition only_reads {A} (m : M A) : Prop :=
  forall w, wp m w (fun _ w' =>
    sent w' = sent w
    /\ syllabi_json w' = syllabi_json w
    /\ progress_json w' = progress_json w).

(** An engine handler that writes no document. *)
Definition saves_nothing (h : M unit) : Prop :=
  forall w, wp h w (fun _ w' =>
    syllabi_json w' = syllabi_json w /\ progress_json w' = progress_json w).

(** The updates whose handler has no [save_...] on any path: every command
    but [/toggle_reminders] and [/set_interval], the texts, and the buttons
    other than those of the select, switch, pause and resume menus and
    "yes", "no" and "reset_yes". *)
Definition read_only (u : Update) : bool :=
  match u with
  | OnCommand CmdToggleReminders | OnCommand (CmdSetInterval _) => false
  | OnCommand _ => true
  | OnButton data =>
      negb (startswith data "start_" || startswith data "switch_"
            || startswith data "pause_" || startswith data "resume_"
            || bool_decide (data = "yes") || bool_decide (data = "no")
            || bool_decide (data = "reset_yes"))
  | OnText _ => true
  end.

(** What a handler that answers by its value leaves: nothing sent, no
    document written; [strict]: it has an answer whenever it ends
    normally. *)
Definition shows (strict : bool) (m : M (option View)) : Prop :=
  forall w, wp m w (fun o w' =>
    sent w' = sent w
    /\ syllabi_json w' = syllabi_json w
    /\ progress_json w' = progress_json w
    /\ (strict = true -> o <> Ok None)).

(** * Proofs *)

(** ** Rules of the handler monad *)

Section Rules.
Context {A B : Type}.

Lemma wp_ret (a : A) w (Q : outcome A -> World -> Prop) :
  Q (Ok a) w -> wp (ret a) w Q.
Proof. exact id. Qed.

Lemma wp_raise (e : exn) w (Q : outcome A -> World -> Prop) :
  Q (Raise e) w -> wp (raise e) w Q.
Proof. exact id. Qed.

Lemma wp_bind (m : M A) (k : A -> M B) w (Q : outcome B -> World -> Prop) :
  wp m w (fun o w' =>
            match o with
            | Ok a => wp (k a) w' Q
            | Raise e => Q (Raise e) w'
            end) ->
  wp (bind m k) w Q.
Proof.
  unfold wp, bind. destruct (m w) as [[a|e] w']; simpl; auto.
Qed.

Lemma wp_try_except (body : M A) (h : exn -> M A) w
    (Q : outcome A -> World -> Prop) :
  wp body w (fun o w' =>
               match o with
               | Ok a => Q (Ok a) w'
               | Raise e => wp (h e) w' Q
               end) ->
  wp (try_except body h) w Q.
Proof.
  unfold wp, try_except. destruct (body w) as [[a|e] w']; simpl; auto.
Qed.

Lemma wp_mono (m : M A) w (P Q : outcome A -> World -> Prop) :
  wp m w P -> (forall o w', P o w' -> Q o w') -> wp m w Q.
Proof. unfold wp. auto. Qed.

Lemma wp_get_key (o : option A) w (Q : outcome A -> World -> Prop) :
  match o with Some v => Q (Ok v) w | None => Q (Raise KeyError) w end ->
  wp (get_key o) w Q.
Proof. destruct o; exact id. Qed.

Lemma wp_index (l : list A) i w (Q : outcome A -> World -> Prop) :
  match py_index l i with
  | Some v => Q (Ok v) w
  | None => Q (Raise IndexError) w
  end ->
  wp (index l i) w Q.
Proof. unfold index. destruct (py_index l i); exact id. Qed.
End Rules.

Lemma wp_getitem {K V} `{Countable K} (d : gmap K V) k w
    (Q : outcome V -> World -> Prop) :
  match d !! k with Some v => Q (Ok v) w | None => Q (Raise KeyError) w end ->
  wp (getitem d k) w Q.
Proof. unfold getitem. destruct (d !! k); exact id. Qed.

Lemma wp_now w (Q : outcome datetime -> World -> Prop) :
  Q (Ok (clock w (ticks w)))
    (mkWorld (syllabi_json w) (progress_json w) (clock w) (S (ticks w)) (sent w)) ->
  wp now w Q.
Proof. exact id. Qed.

Lemma wp_send msg w (Q : outcome unit -> World -> Prop) :
  Q (Ok tt)
    (mkWorld (syllabi_json w) (progress_json w) (clock w) (ticks w)
             (sent w ++ [msg])) ->
  wp (send msg) w Q.
Proof. exact id. Qed.

Lemma wp_load_syllabi w (Q : outcome SyllabiDoc -> World -> Prop) :
  Q (Ok (catalog_of w)) w -> wp load_syllabi w Q.
Proof. exact id. Qed.

Lemma wp_save_syllabi data w (Q : outcome unit -> World -> Prop) :
  Q (Ok tt) (mkWorld (Some data) (progress_json w) (clock w) (ticks w) (sent w)) ->
  wp (save_syllabi data) w Q.
Proof. exact id. Qed.

Lemma wp_save_progress data w (Q : outcome unit -> World -> Prop) :
  Q (Ok tt) (mkWorld (syllabi_json w) (Some data) (clock w) (ticks w) (sent w)) ->
  wp (save_progress data) w Q.
Proof. exact id. Qed.

Lemma wp_add_days t n w (Q : outcome datetime -> World -> Prop) :
  (if representable t n then Q (Ok (t + timedelta n)) w
   else Q (Raise OverflowError) w) ->
  wp (add_days t n) w Q.
Proof. unfold add_days. destruct (representable t n); exact id. Qed.

Lemma wp_days_until due w (Q : outcome Z -> World -> Prop) :
  Q (Ok (days (due - clock w (ticks w))))
    (mkWorld (syllabi_json w) (progress_json w) (clock w) (S (ticks w)) (sent w)) ->
  wp (days_until due) w Q.
Proof. exact id. Qed.

Lemma wp_load_progress w (Q : outcome ProgressDoc -> World -> Prop) :
  Q (Ok (loaded w))
    (mkWorld (syllabi_json w) (progress_json w) (clock w)
             (load_ticks w + ticks w) (sent w)) ->
  wp load_progress w Q.
Proof.
  destruct w as [sj [[[gs|] tbl]|] clk tk out]; exact id.
Qed.

Lemma wp_get_syllabus_progress gs tbl name w
    (Q : outcome (ProgressDoc * SyllabusProgress) -> World -> Prop) :
  match default ∅ tbl !! name with
  | Some r => Q (Ok (mkProgressDoc (Some gs) (Some (default ∅ tbl)), r)) w
  | None =>
      let w2 := mkWorld (syllabi_json w) (progress_json w) (clock w)
                        (S (S (ticks w))) (sent w) in
      if representable (clock w (S (ticks w))) (interval_of gs) then
        let r := fresh_record (clock w (ticks w))
                   (clock w (S (ticks w)) + timedelta (interval_of gs)) in
        Q (Ok (mkProgressDoc (Some gs) (Some (<[name := r]> (default ∅ tbl))), r)) w2
      else Q (Raise OverflowError) w2
  end ->
  wp (get_syllabus_progress (mkProgressDoc (Some gs) tbl) name) w Q.
Proof.
  unfold wp, get_syllabus_progress, record_of.
  destruct tbl as [t|]; simpl.
  - destruct (t !! name) as [r|] eqn:E; simpl; [exact id|].
    unfold bind, add_days; simpl.
    destruct (representable _ _); exact id.
  - rewrite lookup_empty. simpl.
    unfold bind, add_days; simpl.
    destruct (representable _ _); exact id.
Qed.

Lemma wp_no_active_or_paused cat w (Q : outcome bool -> World -> Prop) :
  (if bool_decide (cat_current_field cat = "") then Q (Ok true) w
   else match cat_syllabi cat !! cat_current_field cat with
        | Some s => Q (Ok (is_paused s)) w
        | None => Q (Raise KeyError) w
        end) ->
  wp (no_active_or_paused cat) w Q.
Proof.
  unfold no_active_or_paused. destruct (bool_decide _); [exact id|].
  intros H. apply wp_bind, wp_getitem.
  destruct (cat_syllabi cat !! cat_current_field cat); exact H.
Qed.

Lemma wp_lift {A} (o : outcome A) w (Q : outcome A -> World -> Prop) :
  Q o w -> wp (lift o) w Q.
Proof. exact id. Qed.

Lemma wp_run {A} (m : M A) w (Q : outcome A -> World -> Prop) :
  wp m w Q -> Q (result m w) (run m w).
Proof. exact id. Qed.

(** ** Stepping through a handler *)

Ltac wp_simpl :=
  cbn [fst snd syllabi_json progress_json clock ticks sent
       pd_global_settings pd_syllabi_progress];
  repeat match goal with
         | |- context [default ?d (Some ?t)] =>
             change (default d (Some t)) with t
         | |- context [catalog_of (mkWorld (syllabi_json ?w) ?pj ?c ?t ?s)] =>
             change (catalog_of (mkWorld (syllabi_json w) pj c t s))
               with (catalog_of w)
         | |- context [set_settings ?f (mkProgressDoc (Some ?gs) ?t)] =>
             change (set_settings f (mkProgressDoc (Some gs) t))
               with (mkProgressDoc (Some (f gs)) t)
         | |- context [with_record ?f ?n (mkProgressDoc ?gs (Some ?t))] =>
             change (with_record f n (mkProgressDoc gs (Some t)))
               with (mkProgressDoc gs (Some (alter f n t)))
         end.

Ltac wp_rule :=
  lazymatch goal with
  | |- wp (bind _ _) _ _ => apply wp_bind
  | |- wp (ret _) _ _ => apply wp_ret
  | |- wp (raise _) _ _ => apply wp_raise
  | |- wp (try_except _ _) _ _ => apply wp_try_except
  | |- wp (handle_errors _ _) _ _ => unfold handle_errors; apply wp_try_except
  | |- wp now _ _ => apply wp_now
  | |- wp (send _) _ _ => apply wp_send
  | |- wp load_syllabi _ _ => apply wp_load_syllabi
  | |- wp load_progress _ _ => apply wp_load_progress; unfold loaded
  | |- wp (save_syllabi _) _ _ => apply wp_save_syllabi
  | |- wp (save_progress _) _ _ => apply wp_save_progress
  | |- wp (add_days _ _) _ _ => apply wp_add_days
  | |- wp (days_until _) _ _ => apply wp_days_until
  | |- wp (get_key _) _ _ => apply wp_get_key
  | |- wp (getitem _ _) _ _ => apply wp_getitem
  | |- wp (index _ _) _ _ => apply wp_index
  | |- wp (deref _ _) _ _ => unfold deref; apply wp_get_key
  | |- wp (get_syllabus_progress (mkProgressDoc (Some _) _) _) _ _ =>
      apply wp_get_syllabus_progress
  | |- wp (update_due_date _ _) _ _ => unfold update_due_date
  | |- wp (estimate _ _ _ _) _ _ => unfold estimate
  | |- wp (avg_days_per_task _ _ _) _ _ => unfold avg_days_per_task
  | |- wp (estimated_days_left _ _) _ _ => unfold estimated_days_left
  | |- wp (lift _) _ _ => apply wp_lift
  | |- wp (no_active_or_paused _) _ _ => apply wp_no_active_or_paused
  end.

Ltac wp_go := wp_simpl; repeat (wp_rule; wp_simpl).

(** Split on what the handler branches on. *)
Ltac wp_case :=
  lazymatch goal with
  | |- wp (match ?x with _ => _ end) _ _ => destruct x eqn:?
  | |- match ?x with _ => _ end => destruct x eqn:?
  end.

Ltac wp_auto := wp_go; repeat (wp_case; wp_go).

(** ** Reading the documents *)

Lemma loaded_lookup w name : default ∅ (loaded_table w) !! name = stored w name.
Proof.
  unfold loaded_table, stored, record_of.
  destruct (progress_json w) as [[gs [t|]]|]; simpl; try reflexivity;
    apply lookup_empty.
Qed.

Lemma interval_loaded w : interval_of (loaded_settings w) = current_interval w.
Proof.
  unfold loaded_settings, current_interval.
  destruct (stored_settings w); reflexivity.
Qed.

Lemma with_record_table gs f name (t : gmap string SyllabusProgress) :
  with_record f name (mkProgressDoc gs (Some t))
  = mkProgressDoc gs (Some (alter f name t)).
Proof. reflexivity. Qed.

(** What a world holds for a syllabus, once the documents are explicit. *)
Lemma stored_same sj w c t s name :
  stored (mkWorld sj (progress_json w) c t s) name = stored w name.
Proof. reflexivity. Qed.

Lemma stored_saved sj d c t s name :
  stored (mkWorld sj (Some d) c t s) name = record_of d name.
Proof. reflexivity. Qed.

Lemma record_of_table gs (t : gmap string SyllabusProgress) name :
  record_of (mkProgressDoc gs (Some t)) name = t !! name.
Proof. reflexivity. Qed.

Ltac stored_simpl :=
  rewrite ?stored_same, ?stored_saved, ?with_record_table, ?record_of_table,
          ?lookup_alter_eq, ?lookup_insert_eq, ?loaded_lookup.

Lemma not_selected_empty w name :
  selected w name -> bool_decide (cat_current_field (catalog_of w) = "") = false.
Proof. intros [Hne Heq]. apply bool_decide_eq_false_2. congruence. Qed.

Lemma fresh_true r : is_fresh r -> fresh (sp_current_week r) r = true.
Proof. intros [H1 H2]. unfold fresh. rewrite H1, H2. reflexivity. Qed.

Lemma fresh_false r : ~ is_fresh r -> fresh (sp_current_week r) r = false.
Proof.
  intros H. unfold fresh, is_fresh in *.
  destruct (Z.eqb_spec (sp_current_week r) 1); [|reflexivity].
  simpl. apply bool_decide_eq_false_2. tauto.
Qed.

Lemma len_cons {A} (x : A) l : len (x :: l) = len l + 1.
Proof. unfold len. simpl length. lia. Qed.

Lemma len_nonneg {A} (l : list A) : 0 <= len l.
Proof. unfold len. lia. Qed.

Lemma py_index_nat {A} (l : list A) (i : nat) :
  py_index l (Z.of_nat i) = l !! i.
Proof.
  unfold py_index. rewrite (proj2 (Z.leb_le _ _)) by lia.
  by rewrite Nat2Z.id.
Qed.

Lemma py_index_in_range {A} (l : list A) (i : Z) :
  0 <= i < len l -> py_index l i = l !! Z.to_nat i.
Proof. intros. unfold py_index. by rewrite (proj2 (Z.leb_le _ _)) by lia. Qed.

(** ** Selecting a syllabus *)

Section Select.
Variables (w : World) (name : string) (syl : Syllabus) (r : SyllabusProgress).
Hypothesis Hexists : syllabus_of w name = Some syl.
Hypothesis Hunpaused : is_paused syl = false.
Hypothesis Hrecord : stored w name = Some r.

(** A record past its last task is put back on the first one. *)
Lemma select_beyond_the_end first rest :
  syl_tasks syl = first :: rest ->
  len (syl_tasks syl) <= sp_current_week r - 1 ->
  fresh (sp_current_week r) r = false ->
  wp (start_syllabus_callback name) w (fun o w' =>
    o = Ok tt
    /\ stored w' name = Some (set_current_week 1 r)
    /\ syllabi_json w'
       = Some (mkSyllabiDoc name (cat_syllabi (catalog_of w)))
    /\ sent w'
       = sent w ++
         [MsgSelected name ContinuingWith first
            ((fun due => days (due - clock w (load_ticks w + ticks w)%nat))
               <$> sp_due_date r)]).
Proof using Hexists Hunpaused Hrecord.
  intros Htasks Hbeyond Hfresh.
  unfold start_syllabus_callback, syllabus_of in *.
  wp_go. rewrite Hexists, Hunpaused. cbn [negb]. wp_go.
  rewrite loaded_lookup, Hrecord. wp_go.
  rewrite Hfresh. wp_go.
  rewrite (proj2 (Z.leb_le _ _)) by lia.
  wp_go. rewrite record_of_table, lookup_alter_eq, loaded_lookup, Hrecord.
  cbn [fmap option_fmap option_map]. wp_simpl.
  assert (Hst : status_text (sp_current_week r) (set_current_week 1 r)
                = ContinuingWith).
  { unfold status_text. unfold fresh in *. simpl. by rewrite Hfresh. }
  rewrite Hst, Htasks.
  unfold stored.
  destruct (sp_due_date (set_current_week 1 r)) as [due|] eqn:Hdue;
    simpl in Hdue; rewrite Hdue; wp_go;
    change (py_index (first :: rest) 0) with (Some first); wp_go;
    cbn [mbind option_bind];
    rewrite record_of_table, lookup_alter_eq, loaded_lookup, Hrecord; auto.
Qed.
End Select.

(** C1, as the code has it: selecting a syllabus whose record stands one
    past the last task ([current_week = len(tasks) + 1]) does not report
    completion.  For a syllabus with at least one task it ends normally,
    makes the syllabus current, writes [current_week = 1] (the rest of the
    record -- completed weeks, dates -- as it was) and shows the first task
    under "Continuing with". *)
Theorem select_completed_restarts (w : World) (name : string) (syl : Syllabus)
    (r : SyllabusProgress) (first : string) (rest : list string) :
  syllabus_of w name = Some syl ->
  is_paused syl = false ->
  syl_tasks syl = first :: rest ->
  stored w name = Some r ->
  sp_current_week r = len (syl_tasks syl) + 1 ->
  let w' := run (start_syllabus_callback name) w in
  result (start_syllabus_callback name) w = Ok tt
  /\ stored w' name = Some (set_current_week 1 r)
  /\ cat_current_field (catalog_of w') = name
  /\ sent w'
     = sent w ++
       [MsgSelected name ContinuingWith first
          ((fun due => days (due - clock w (load_ticks w + ticks w)%nat))
             <$> sp_due_date r)].
Proof.
  intros Hex Hp Htasks Hr Hcw w'.
  assert (Hpos : 0 < len (syl_tasks syl)).
  { rewrite Htasks, len_cons. pose proof (len_nonneg rest). lia. }
  pose proof (select_beyond_the_end w name syl r Hex Hp Hr first rest Htasks)
    as H.
  apply wp_run in H.
  - destruct H as (H1 & H2 & H3 & H4). subst w'.
    repeat split; auto.
    unfold catalog_of. by rewrite H3.
  - lia.
  - unfold fresh. apply andb_false_intro1. lia.
Qed.

Lemma select_completed_restarts_witness :
  let w := Examples.world "" Examples.math_completed
                          (Examples.T0 + Examples.day 5) in
  stored (run (start_syllabus_callback "Math") w) "Math"
  = Some (set_current_week 1 Examples.math_completed).
Proof.
  intros w.
  refine (proj1 (proj2 (select_completed_restarts w "Math" Examples.math
            Examples.math_completed "Algebra" ["Geometry"; "Calculus"]
            _ _ _ _ _))).
  - vm_compute. reflexivity.
  - reflexivity.
  - reflexivity.
  - vm_compute. reflexivity.
  - vm_compute. reflexivity.
Defined.

(** C1 as stated fails: the record with all three tasks done has
    [current_week = 4]; after the selection it has [current_week = 1] and
    "Algebra" is shown as the task to continue with. *)
Lemma select_completed_counterexample :
  let w := Examples.world "" Examples.math_completed
                          (Examples.T0 + Examples.day 5) in
  let w' := run (start_syllabus_callback "Math") w in
  (syllabus_of w "Math" = Some Examples.math
   /\ is_paused Examples.math = false
   /\ (sp_current_week <$> stored w "Math")
      = Some (len (syl_tasks Examples.math) + 1))
  /\ (sp_current_week <$> stored w' "Math") = Some 1
  /\ (sp_current_week <$> stored w' "Math")
     <> (sp_current_week <$> stored w "Math")
  /\ sent w' = [MsgSelected "Math" ContinuingWith "Algebra" (Some 5)].
Proof.
  vm_compute. repeat split; discriminate.
Qed.

(** ** Due dates on selection and on switching *)

Lemma load_ticks_le w : (load_ticks w <= 1)%nat.
Proof. unfold load_ticks. destruct (stored_settings w); lia. Qed.

Lemma dates_in_range_spec w n :
  dates_in_range w n = true ->
  forall k, (ticks w <= k < ticks w + n)%nat ->
            representable (clock w k) (current_interval w) = true.
Proof.
  unfold dates_in_range. rewrite forallb_forall. intros H k Hk.
  apply H, in_seq. lia.
Qed.

Section Due.
Variables (w : World) (name : string) (syl : Syllabus).
Hypothesis Hexists : syllabus_of w name = Some syl.
Hypothesis Hunpaused : is_paused syl = false.
Hypothesis Hrange : dates_in_range w 4 = true.

Ltac in_range :=
  rewrite interval_loaded;
  rewrite (dates_in_range_spec w 4 Hrange)
    by (pose proof (load_ticks_le w); lia).

Ltac recomputed_at k r Hr :=
  exists k; split; [simpl; lia|];
  stored_simpl; try rewrite Hr; reflexivity.

Lemma switch_recomputes :
  due_recomputed w (run (switch_syllabus_callback name) w) name.
Proof using Hexists Hunpaused Hrange.
  apply (wp_run (switch_syllabus_callback name) w
           (fun _ w' => due_recomputed w w' name)).
  unfold switch_syllabus_callback, syllabus_of in *.
  wp_go. rewrite Hexists, Hunpaused. cbn [negb]. wp_go.
  rewrite loaded_lookup.
  destruct (stored w name) as [r|] eqn:Hr; wp_go.
  - rewrite loaded_lookup, Hr. wp_go. in_range.
    wp_auto; recomputed_at (load_ticks w + ticks w)%nat r Hr.
  - in_range. wp_go.
    rewrite lookup_insert_eq. wp_go. in_range.
    wp_auto; recomputed_at (S (S (load_ticks w + ticks w))) r Hr.
Qed.

Lemma select_fresh_recomputes :
  match stored w name with Some r => is_fresh r | None => True end ->
  due_recomputed w (run (start_syllabus_callback name) w) name.
Proof using Hexists Hunpaused Hrange.
  intros Hfresh.
  apply (wp_run (start_syllabus_callback name) w
           (fun _ w' => due_recomputed w w' name)).
  unfold start_syllabus_callback, syllabus_of in *.
  wp_go. rewrite Hexists, Hunpaused. cbn [negb]. wp_go.
  rewrite loaded_lookup.
  destruct (stored w name) as [r|] eqn:Hr; wp_go.
  - rewrite (fresh_true r Hfresh). wp_go.
    rewrite loaded_lookup, Hr. wp_go. in_range.
    wp_auto; recomputed_at (load_ticks w + ticks w)%nat r Hr.
  - in_range. wp_go.
    change (fresh _ _) with true. wp_go.
    rewrite lookup_insert_eq. wp_go. in_range.
    wp_auto; recomputed_at (S (S (load_ticks w + ticks w))) r Hr.
Qed.

Lemma select_keeps_due_date r :
  stored w name = Some r ->
  ~ is_fresh r ->
  (sp_due_date <$> stored (run (start_syllabus_callback name) w) name)
  = Some (sp_due_date r).
Proof using Hexists Hunpaused.
  intros Hr Hnot.
  apply (wp_run (start_syllabus_callback name) w
           (fun _ w' => (sp_due_date <$> stored w' name) = _)).
  unfold start_syllabus_callback, syllabus_of in *.
  wp_go. rewrite Hexists, Hunpaused. cbn [negb]. wp_go.
  rewrite loaded_lookup, Hr. wp_go.
  rewrite (fresh_false r Hnot).
  wp_auto; stored_simpl; rewrite Hr; reflexivity.
Qed.
End Due.

(** C5: for an existing, unpaused syllabus, switching to it always stores
    [due_date = now + reminder_interval] days, whatever its record holds;
    selecting it does so only for a fresh record (week 1, nothing
    completed -- also the record created on the spot), and leaves the due
    date of any other record as it was.  [now] is a reading of the clock
    taken during the call; the dates are assumed to fit a [datetime]. *)
Theorem switch_always_select_only_fresh (w : World) (name : string)
    (syl : Syllabus) :
  syllabus_of w name = Some syl ->
  is_paused syl = false ->
  (dates_in_range w 4 = true ->
   due_recomputed w (run (switch_syllabus_callback name) w) name
   /\ (match stored w name with Some r => is_fresh r | None => True end ->
       due_recomputed w (run (start_syllabus_callback name) w) name))
  /\ (forall r, stored w name = Some r -> ~ is_fresh r ->
       (sp_due_date <$> stored (run (start_syllabus_callback name) w) name)
       = Some (sp_due_date r)).
Proof.
  intros Hex Hp. split.
  - intros Hrange. split.
    + by apply switch_recomputes with syl.
    + by apply select_fresh_recomputes with syl.
  - intros r. by apply select_keeps_due_date with syl.
Qed.

Lemma switch_always_select_only_fresh_witness :
  let w := Examples.world "" Examples.math_completed
                          (Examples.T0 + Examples.day 5) in
  due_recomputed w (run (switch_syllabus_callback "Math") w) "Math"
  /\ (sp_due_date <$> stored (run (start_syllabus_callback "Math") w) "Math")
     = Some (sp_due_date Examples.math_completed).
Proof.
  intros w.
  assert (H1 : syllabus_of w "Math" = Some Examples.math)
    by (vm_compute; reflexivity).
  assert (H2 : is_paused Examples.math = false) by reflexivity.
  destruct (switch_always_select_only_fresh w "Math" Examples.math H1 H2)
    as [Hswitch Hselect].
  split.
  - apply Hswitch. vm_compute. reflexivity.
  - apply Hselect.
    + vm_compute. reflexivity.
    + intros [Hweek _]. vm_compute in Hweek. discriminate.
Defined.

(** ** Deferring the current task *)

(** C4: with a syllabus selected whose record has a due date, the "no"
    button stores the previous due date plus
    [max(3, reminder_interval // 2)] days and changes nothing else in the
    record: [current_week] and [completed_weeks] are as before.  The new
    date is assumed to fit a [datetime]. *)
Theorem defer_extends_due_date (w : World) (name : string)
    (r : SyllabusProgress) (due : datetime) :
  selected w name ->
  stored w name = Some r ->
  sp_due_date r = Some due ->
  let extension := Z.max 3 (current_interval w / 2) in
  representable due extension = true ->
  exists r',
    stored (run handle_no_response w) name = Some r'
    /\ r' = set_due_date (due + timedelta extension) r
    /\ sp_due_date r' = Some (due + timedelta extension)
    /\ sp_current_week r' = sp_current_week r
    /\ sp_completed_weeks r' = sp_completed_weeks r.
Proof.
  intros Hsel Hr Hdue extension Hrep.
  exists (set_due_date (due + timedelta extension) r).
  split; [|by repeat split].
  apply (wp_run handle_no_response w (fun _ w' => stored w' name = _)).
  unfold handle_no_response.
  wp_go. rewrite (not_selected_empty w name Hsel).
  destruct Hsel as [_ ->].
  wp_go. rewrite loaded_lookup, Hr. wp_go.
  rewrite Hdue, interval_loaded. wp_go. fold extension. rewrite Hrep.
  wp_auto; stored_simpl; rewrite Hr; reflexivity.
Qed.

Lemma defer_extends_due_date_witness :
  let w := Examples.world "Math" Examples.math_in_progress
                          (Examples.T0 + Examples.day 5) in
  exists r',
    stored (run handle_no_response w) "Math" = Some r'
    /\ r' = set_due_date (Examples.T0 + Examples.day 7 + timedelta 3)
                         Examples.math_in_progress
    /\ sp_due_date r' = Some (Examples.T0 + Examples.day 7 + timedelta 3)
    /\ sp_current_week r' = 2
    /\ sp_completed_weeks r' = [0].
Proof.
  intros w.
  refine (defer_extends_due_date w "Math" Examples.math_in_progress
            (Examples.T0 + Examples.day 7) _ _ _ _).
  - split; [discriminate | vm_compute; reflexivity].
  - vm_compute. reflexivity.
  - reflexivity.
  - vm_compute. reflexivity.
Defined.

(** ** Unknown names *)

(** Selecting a name -- unknown to the catalog or paused -- that the
    handler turns down: nothing is stored and the answer is the "is
    paused" text in both cases. *)
Lemma select_refused (w : World) (name : string) :
  match syllabus_of w name with
  | Some syl => is_paused syl = true
  | None => True
  end ->
  result (start_syllabus_callback name) w = Ok tt
  /\ run (start_syllabus_callback name) w
     = mkWorld (syllabi_json w) (progress_json w) (clock w)
               (load_ticks w + ticks w) (sent w ++ [MsgIsPaused name]).
Proof.
  intros H.
  apply (wp_run (start_syllabus_callback name) w
           (fun o w' => o = Ok tt /\ w' = _)).
  unfold syllabus_of in H.
  unfold start_syllabus_callback.
  wp_go. destruct (cat_syllabi (catalog_of w) !! name) as [syl|].
  - rewrite H. cbn [negb]. wp_go. auto.
  - wp_go. auto.
Qed.

(** C6, at a name the catalog does not have: the catalog holds "Math"
    (active) and "Chemistry" (paused).  Selecting "Physics", which it does
    not hold, is answered like selecting the paused "Chemistry" -- with the
    "is paused" text -- and so is switching to it, whereas pausing or
    resuming "Physics" answers "Syllabus not found". *)
Theorem select_unknown_answers_paused :
  let w := Examples.two_syllabi in
  syllabus_of w "Physics" = None
  /\ (is_paused <$> syllabus_of w "Chemistry") = Some true
  /\ sent (run (start_syllabus_callback "Physics") w) = [MsgIsPaused "Physics"]
  /\ sent (run (start_syllabus_callback "Chemistry") w) = [MsgIsPaused "Chemistry"]
  /\ sent (run (switch_syllabus_callback "Physics") w) = [MsgIsPaused "Physics"]
  /\ sent (run (pause_syllabus_callback "Physics") w) = [MsgSyllabusNotFound]
  /\ sent (run (resume_syllabus_callback "Physics") w) = [MsgSyllabusNotFound].
Proof. vm_compute. repeat split. Qed.

(** ** The daily job *)

Lemma enabled_loaded w : enabled_of (loaded_settings w) = reminders_on w.
Proof.
  unfold loaded_settings, reminders_on. destruct (stored_settings w); reflexivity.
Qed.

Lemma last_reminder_loaded w :
  default last_reminder_default (gs_last_reminder (loaded_settings w))
  = last_reminder_of w.
Proof.
  unfold loaded_settings, last_reminder_of.
  destruct (stored_settings w); reflexivity.
Qed.

Lemma usec_per_day_pos : 0 < usec_per_day.
Proof. reflexivity. Qed.

(** [.days] is the floor of the difference in days. *)
Lemma days_floor delta :
  timedelta (days delta) <= delta < timedelta (days delta + 1).
Proof.
  unfold timedelta, days. pose proof usec_per_day_pos.
  pose proof (Z.mul_div_le delta usec_per_day).
  pose proof (Z.mul_succ_div_gt delta usec_per_day). lia.
Qed.

Lemma days_at_least n delta : n <= days delta <-> timedelta n <= delta.
Proof.
  pose proof (days_floor delta). pose proof usec_per_day_pos.
  unfold timedelta in *. split; intros; nia.
Qed.


Section Daily.
Variables (w : World) (chat_id : Z) (name : string) (syl : Syllabus)
          (r : SyllabusProgress) (due : datetime) (task : string).
Hypothesis Hon : reminders_on w = true.
Hypothesis Hsel : selected w name.
Hypothesis Hsyl : syllabus_of w name = Some syl.
Hypothesis Hunpaused : is_paused syl = false.
Hypothesis Hrec : stored w name = Some r.
Hypothesis Hdue : sp_due_date r = Some due.
Hypothesis Hweek : 1 <= sp_current_week r <= len (syl_tasks syl).
Hypothesis Htask :
  syl_tasks syl !! Z.to_nat (sp_current_week r - 1) = Some task.

(** The one reading of the clock the job takes for its decision. *)
Let now_ := clock w (load_ticks w + ticks w).
Let d := days (due - now_).

(** Up to the decision on [days_remaining]. *)
Ltac to_the_decision :=
  pose proof Hsyl as Hsyl'; unfold syllabus_of in Hsyl';
  unfold check_due_dates; wp_go; rewrite enabled_loaded, Hon; cbn [negb];
  wp_go; rewrite (not_selected_empty w name Hsel);
  pose proof Hsel as [_ Hcur]; rewrite Hcur, Hsyl', Hunpaused;
  wp_go; rewrite loaded_lookup, Hrec; wp_go; rewrite Hdue; wp_go;
  fold now_; fold d.

Lemma daily_due_soon :
  0 <= d <= 1 ->
  let w' := run (check_due_dates chat_id) w in
  sent w'
  = sent w ++ [MsgReminder chat_id (if d =? 0 then due_today else due_tomorrow)
                           name task d]
  /\ progress_json w' = progress_json w.
Proof using All.
  intros Hd.
  apply (wp_run (check_due_dates chat_id) w
           (fun _ w' => sent w' = _ /\ progress_json w' = _)).
  to_the_decision.
  rewrite (proj2 (Z.leb_le 0 d)), (proj2 (Z.leb_le d 1)) by lia.
  cbn [andb]. wp_go. rewrite Hsyl'.
  rewrite (proj2 (Z.leb_le _ _)) by lia.
  wp_go. rewrite py_index_in_range, Htask by lia. wp_go. auto.
Qed.

Lemma daily_overdue_sent :
  d < 0 ->
  timedelta 3 <= now_ - last_reminder_of w ->
  let w' := run (check_due_dates chat_id) w in
  sent w' = sent w ++ [MsgReminder chat_id overdue name task (Z.abs d)]
  /\ progress_json w'
     = Some (set_settings (set_last_reminder now_)
               (mkProgressDoc (Some (loaded_settings w))
                              (Some (default ∅ (loaded_table w))))).
Proof using All.
  intros Hd Hlast.
  apply (wp_run (check_due_dates chat_id) w
           (fun _ w' => sent w' = _ /\ progress_json w' = _)).
  to_the_decision.
  rewrite (proj2 (Z.leb_gt 0 d)) by lia. cbn [andb].
  rewrite (proj2 (Z.ltb_lt d 0)) by lia.
  wp_go. rewrite last_reminder_loaded.
  rewrite (proj2 (Z.leb_le 3 _)) by (by apply days_at_least).
  wp_go. rewrite Hsyl'.
  rewrite (proj2 (Z.leb_le _ _)) by lia.
  wp_go. rewrite py_index_in_range, Htask by lia. wp_go. auto.
Qed.

Lemma daily_overdue_throttled :
  d < 0 ->
  now_ - last_reminder_of w < timedelta 3 ->
  let w' := run (check_due_dates chat_id) w in
  sent w' = sent w /\ progress_json w' = progress_json w.
Proof using All.
  intros Hd Hlast.
  apply (wp_run (check_due_dates chat_id) w
           (fun _ w' => sent w' = _ /\ progress_json w' = _)).
  to_the_decision.
  rewrite (proj2 (Z.leb_gt 0 d)) by lia. cbn [andb].
  rewrite (proj2 (Z.ltb_lt d 0)) by lia.
  wp_go. rewrite last_reminder_loaded.
  rewrite (proj2 (Z.leb_gt 3 _)).
  - wp_go. auto.
  - pose proof (proj1 (days_at_least 3 (now_ - last_reminder_of w))). lia.
Qed.
End Daily.

(** C8: with reminders enabled and the selected syllabus active, unpaused
    and on one of its tasks, the daily job decides on
    [days_remaining = (due_date - now).days].  Overdue
    ([days_remaining < 0]): the overdue notice is sent when at least three
    days have passed since [last_reminder] (2000-01-01 when unset), and then
    [last_reminder] becomes [now]; when fewer have passed nothing is sent
    and [progress.json] is as it was.  Due today or tomorrow
    ([0 <= days_remaining <= 1]): the notice is sent whatever
    [last_reminder] is, and [progress.json] is as it was. *)
Theorem daily_reminders (w : World) (chat_id : Z) (name : string)
    (syl : Syllabus) (r : SyllabusProgress) (due : datetime) (task : string) :
  reminders_on w = true ->
  selected w name ->
  syllabus_of w name = Some syl ->
  is_paused syl = false ->
  stored w name = Some r ->
  sp_due_date r = Some due ->
  1 <= sp_current_week r <= len (syl_tasks syl) ->
  syl_tasks syl !! Z.to_nat (sp_current_week r - 1) = Some task ->
  let now_ := clock w (load_ticks w + ticks w) in
  let days_remaining := days (due - now_) in
  let w' := run (check_due_dates chat_id) w in
  (days_remaining < 0 ->
     (timedelta 3 <= now_ - last_reminder_of w ->
        sent w' = sent w ++ [MsgReminder chat_id overdue name task
                                         (Z.abs days_remaining)]
        /\ (stored_settings w' ≫= gs_last_reminder) = Some now_)
     /\ (now_ - last_reminder_of w < timedelta 3 ->
          sent w' = sent w /\ progress_json w' = progress_json w))
  /\ (0 <= days_remaining <= 1 ->
      sent w' = sent w ++ [MsgReminder chat_id
                             (if days_remaining =? 0 then due_today
                              else due_tomorrow)
                             name task days_remaining]
      /\ progress_json w' = progress_json w).
Proof.
  intros Hon Hsel Hsyl Hp Hr Hdue Hweek Htask now_ d w'.
  split; [intros Hd; split|].
  - intros Hlast.
    destruct (daily_overdue_sent w chat_id name syl r due task
                Hon Hsel Hsyl Hp Hr Hdue Hweek Htask Hd Hlast) as [H1 H2].
    split; [exact H1|].
    unfold stored_settings. subst w'. by rewrite H2.
  - by apply (daily_overdue_throttled w chat_id name syl r due task).
  - by apply (daily_due_soon w chat_id name syl r due task).
Qed.

(** The second task was due on day 7; the job runs on day 9, and again
    half a day before the due date. *)
Lemma daily_reminders_witness :
  let late := Examples.world "Math" Examples.math_in_progress
                (Examples.T0 + Examples.day 9) in
  let soon := Examples.world "Math" Examples.math_in_progress
                (Examples.T0 + Examples.day 7 - Examples.half_day) in
  sent (run (check_due_dates Examples.chat) late)
  = [MsgReminder Examples.chat overdue "Math" "Geometry" 2]
  /\ sent (run (check_due_dates Examples.chat) soon)
     = [MsgReminder Examples.chat due_today "Math" "Geometry" 0].
Proof.
  intros late soon. split.
  - refine (proj1 (proj1 (proj1 (daily_reminders late Examples.chat "Math"
              Examples.math Examples.math_in_progress
              (Examples.T0 + Examples.day 7) "Geometry" _ _ _ _ _ _ _ _) _) _)).
    + reflexivity.
    + split; [discriminate | vm_compute; reflexivity].
    + vm_compute. reflexivity.
    + reflexivity.
    + vm_compute. reflexivity.
    + reflexivity.
    + vm_compute. split; discriminate.
    + reflexivity.
    + vm_compute. reflexivity.
    + vm_compute. discriminate.
  - refine (proj1 (proj2 (daily_reminders soon Examples.chat "Math"
              Examples.math Examples.math_in_progress
              (Examples.T0 + Examples.day 7) "Geometry" _ _ _ _ _ _ _ _) _)).
    + reflexivity.
    + split; [discriminate | vm_compute; reflexivity].
    + vm_compute. reflexivity.
    + reflexivity.
    + vm_compute. reflexivity.
    + reflexivity.
    + vm_compute. split; discriminate.
    + reflexivity.
    + vm_compute. split; discriminate.
Defined.





(** ** The estimate of the statistics *)

(** The steps of [estimate] are those of [python_estimate] at the reading
    of the clock it takes; when the quotient or the product raises, the
    clock is not read. *)
Lemma wp_estimate progress remaining_tasks days_active completed_tasks w
    (Q : outcome (option (datetime * Z)) -> World -> Prop) :
  0 < completed_tasks ->
  (forall k,
     Q (Ok (estimate_line
              (python_estimate (clock w (ticks w)) remaining_tasks
                               days_active completed_tasks)))
       (mkWorld (syllabi_json w) (progress_json w) (clock w) k (sent w))) ->
  wp (estimate progress remaining_tasks days_active completed_tasks) w Q.
Proof.
  intros Hc.
  unfold estimate, avg_days_per_task, estimated_days_left, python_estimate.
  rewrite (proj2 (Z.ltb_lt 0 completed_tasks) Hc).
  destruct w as [sj pj clk tk out].
  cbn [syllabi_json progress_json clock ticks sent].
  destruct (int_true_divide days_active completed_tasks) as [avg|e];
    cbn [and_then]; intros HQ;
    apply wp_try_except, wp_bind, wp_bind, wp_lift; [|apply HQ].
  apply wp_ret, wp_bind, wp_lift. cbn [int_mul]. revert HQ.
  destruct (float_of_int remaining_tasks) as [remaining|e];
    cbn [and_then]; intros HQ; [|apply HQ].
  apply wp_bind, wp_now, wp_bind, wp_lift.
  cbn [syllabi_json progress_json clock ticks sent]. revert HQ.
  destruct (timedelta_of _) as [delta|e]; cbn [and_then]; intros HQ;
    [|apply HQ].
  apply wp_bind, wp_lift. revert HQ.
  destruct (add_timedelta _ _) as [date|e]; cbn [and_then]; intros HQ;
    [|apply HQ].
  apply wp_bind, wp_lift. cbn [int_of]. revert HQ.
  destruct (int_of_float _) as [in_days|e]; cbn [and_then]; intros HQ;
    apply HQ.
Qed.

(** ** What the handlers report *)

Section Reports.
Variables (w : World) (name : string) (syl : Syllabus)
          (r : SyllabusProgress).
Hypothesis Hsel : selected w name.
Hypothesis Hsyl : syllabus_of w name = Some syl.
Hypothesis Hrec : stored w name = Some r.

Let first_reading := (load_ticks w + ticks w)%nat.

Section Task.
Variables (due : datetime) (task : string).
Hypothesis Hunpaused : is_paused syl = false.
Hypothesis Hdue : sp_due_date r = Some due.
Hypothesis Hweek : 1 <= sp_current_week r <= len (syl_tasks syl).
Hypothesis Htask :
  syl_tasks syl !! Z.to_nat (sp_current_week r - 1) = Some task.

Lemma current_reports :
  sent (run current_week w)
  = sent w ++ [MsgCurrentTask name task
                 (due_status (days (due - clock w first_reading)))].
Proof using All.
  apply (wp_run current_week w (fun _ w' => sent w' = _)).
  pose proof Hsyl as Hsyl'. unfold syllabus_of in Hsyl'.
  unfold current_week. wp_go.
  rewrite (not_selected_empty w name Hsel).
  pose proof Hsel as [_ Hcur]. rewrite Hcur, Hsyl', Hunpaused.
  wp_go. rewrite loaded_lookup, Hrec. wp_go.
  rewrite Hsyl'.
  rewrite (proj2 (Z.ltb_lt 0 _)), (proj2 (Z.leb_le _ _)) by lia.
  cbn [andb]. wp_go. rewrite Hdue. wp_go.
  rewrite py_index_in_range, Htask by lia. wp_go. reflexivity.
Qed.

Lemma check_reports :
  sent (run check_progress w)
  = sent w ++ [MsgCheckPrompt name task
                 (due_status (days (due - clock w first_reading)))].
Proof using All.
  apply (wp_run check_progress w (fun _ w' => sent w' = _)).
  pose proof Hsyl as Hsyl'. unfold syllabus_of in Hsyl'.
  unfold check_progress. wp_go.
  rewrite (not_selected_empty w name Hsel).
  pose proof Hsel as [_ Hcur]. rewrite Hcur, Hsyl', Hunpaused.
  wp_go. rewrite loaded_lookup, Hrec. wp_go.
  rewrite Hsyl'.
  rewrite (proj2 (Z.ltb_lt 0 _)), (proj2 (Z.leb_le _ _)) by lia.
  cbn [andb]. wp_go. rewrite Hdue. wp_go.
  rewrite py_index_in_range, Htask by lia. wp_go. reflexivity.
Qed.
End Task.

Lemma statistics_reports :
  let total_tasks := len (syl_tasks syl) in
  let completed_tasks := len (sp_completed_weeks r) in
  let current_week := sp_current_week r in
  let days_active := days (clock w first_reading - sp_start_date r) in
  let estimate_reading :=
    match sp_due_date r with
    | Some _ => S (S first_reading)
    | None => S first_reading
    end in
  let remaining_tasks := total_tasks - current_week + 1 in
  exists s,
    sent (run show_statistics w) = sent w ++ [MsgStatistics s]
    /\ st_completed_tasks s = completed_tasks
    /\ st_total_tasks s = total_tasks
    /\ st_days_active s = days_active
    /\ st_days_left s
       = (fun due => days (due - clock w (S first_reading))) <$> sp_due_date r
    /\ (current_week <= total_tasks ->
        st_remaining_tasks s = Some remaining_tasks
        /\ st_estimate s
           = if (0 <? days_active) && (0 <? completed_tasks)
             then estimate_line
                    (python_estimate (clock w estimate_reading)
                       remaining_tasks days_active completed_tasks)
             else None).
Proof using All.
  intros total_tasks completed_tasks cw days_active estimate_reading
         remaining_tasks.
  apply (wp_run show_statistics w
           (fun _ w' => exists s, sent w' = sent w ++ [MsgStatistics s] /\ _)).
  unfold show_statistics. wp_go.
  rewrite (not_selected_empty w name Hsel).
  pose proof Hsel as [_ Hcur]. rewrite Hcur.
  unfold syllabus_of in Hsyl. rewrite Hsyl.
  wp_go. rewrite loaded_lookup, Hrec. wp_go.
  fold first_reading total_tasks completed_tasks cw days_active.
  destruct (sp_due_date r) as [due|]; wp_go;
    (destruct (Z.leb_spec cw total_tasks); wp_go;
     [destruct ((0 <? days_active) && (0 <? completed_tasks)) eqn:Hg;
      [apply wp_estimate;
       [apply andb_prop in Hg as [_ Hc]; by apply Z.ltb_lt|intros k]|];
      wp_go|]);
    eexists; (split; [reflexivity|]); cbn; repeat split; lia.
Qed.
End Reports.

(** C7, as the code has it: the days remaining that [/current], [/check],
    [/statistics] and the daily job work with are [(due_date - now).days],
    the difference in whole days rounded towards minus infinity (the floor),
    for [now] the reading of the clock the handler takes: [/current] and
    [/check] print it as "due in" or, negated, as "overdue by";
    [/statistics] reports it; the daily job sends the due-today or
    due-tomorrow notice for 0 and 1 and counts the overdue days from it. *)
Theorem days_remaining_is_floor (w : World) (chat_id : Z) (name : string)
    (syl : Syllabus) (r : SyllabusProgress) (due : datetime) (task : string) :
  selected w name ->
  syllabus_of w name = Some syl ->
  is_paused syl = false ->
  stored w name = Some r ->
  sp_due_date r = Some due ->
  1 <= sp_current_week r <= len (syl_tasks syl) ->
  syl_tasks syl !! Z.to_nat (sp_current_week r - 1) = Some task ->
  let now_ := clock w (load_ticks w + ticks w) in
  let later := clock w (S (load_ticks w + ticks w)) in
  let d := days (due - now_) in
  (forall delta, timedelta (days delta) <= delta < timedelta (days delta + 1))
  /\ sent (run current_week w)
     = sent w ++ [MsgCurrentTask name task
                    (if d <? 0 then OverdueBy (Z.abs d) else DueIn d)]
  /\ sent (run check_progress w)
     = sent w ++ [MsgCheckPrompt name task
                    (if d <? 0 then OverdueBy (Z.abs d) else DueIn d)]
  /\ (exists s, sent (run show_statistics w) = sent w ++ [MsgStatistics s]
                /\ st_days_left s = Some (days (due - later)))
  /\ (reminders_on w = true ->
      (0 <= d <= 1 ->
       sent (run (check_due_dates chat_id) w)
       = sent w ++ [MsgReminder chat_id
                      (if d =? 0 then due_today else due_tomorrow)
                      name task d])
      /\ (d < 0 -> timedelta 3 <= now_ - last_reminder_of w ->
          sent (run (check_due_dates chat_id) w)
          = sent w ++ [MsgReminder chat_id overdue name task (Z.abs d)])).
Proof.
  intros Hsel Hsyl Hp Hr Hdue Hweek Htask now_ later d.
  split; [exact days_floor|].
  split; [by apply (current_reports w name syl r Hsel Hsyl Hr due task)|].
  split; [by apply (check_reports w name syl r Hsel Hsyl Hr due task)|].
  split.
  - destruct (statistics_reports w name syl r Hsel Hsyl Hr)
      as (s & Hs & _ & _ & _ & Hleft & _).
    exists s. split; [exact Hs|]. by rewrite Hleft, Hdue.
  - intros Hon. split.
    + intros Hd.
      by apply (daily_due_soon w chat_id name syl r due task).
    + intros Hd Hlast.
      by apply (daily_overdue_sent w chat_id name syl r due task).
Qed.

(** Twelve hours past the due date. *)
Lemma days_remaining_is_floor_witness :
  let w := Examples.world "Math" Examples.math_in_progress
             (Examples.T0 + Examples.day 7 + Examples.half_day) in
  sent (run current_week w) = [MsgCurrentTask "Math" "Geometry" (OverdueBy 1)].
Proof.
  intros w.
  refine (proj1 (proj2 (days_remaining_is_floor w Examples.chat "Math"
            Examples.math Examples.math_in_progress
            (Examples.T0 + Examples.day 7) "Geometry" _ _ _ _ _ _ _))).
  - split; [discriminate | vm_compute; reflexivity].
  - vm_compute. reflexivity.
  - reflexivity.
  - vm_compute. reflexivity.
  - reflexivity.
  - vm_compute. split; discriminate.
  - reflexivity.
Defined.

(** C7 as stated fails: twelve hours after the due date the difference
    truncated towards zero is 0 days, but every handler works with -1:
    [/current] and [/check] say "overdue by 1", [/statistics] has -1 days
    left, and the daily job sends the overdue notice, not "due today". *)
Lemma days_remaining_counterexample :
  let due := Examples.T0 + Examples.day 7 in
  let w := Examples.world "Math" Examples.math_in_progress
             (due + Examples.half_day) in
  (sp_due_date <$> stored w "Math") = Some (Some due)
  /\ due - clock w (ticks w) = - Examples.half_day
  /\ Z.quot (due - clock w (ticks w)) usec_per_day = 0
  /\ days (due - clock w (ticks w)) = -1
  /\ sent (run current_week w)
     = [MsgCurrentTask "Math" "Geometry" (OverdueBy 1)]
  /\ sent (run check_progress w)
     = [MsgCheckPrompt "Math" "Geometry" (OverdueBy 1)]
  /\ (exists s, sent (run show_statistics w) = [MsgStatistics s]
                /\ st_days_left s = Some (-1))
  /\ sent (run (check_due_dates Examples.chat) w)
     = [MsgReminder Examples.chat overdue "Math" "Geometry" 1].
Proof.
  vm_compute. repeat split. eexists. split; reflexivity.
Qed.

(** C9, as the code has it: for a selected syllabus that is not past its
    last task, [/statistics] reports the remaining tasks and gives an
    estimated completion only when [days_active > 0] and at least one task
    is completed.  The estimate is then
    [now + timedelta(days = remaining_tasks * (days_active / completed_tasks))]
    with the quotient and the product computed as Python computes them, in
    binary floating point, together with the whole days of the product; it
    is left out when a step of that computation raises (the date is past
    [datetime.max]).  With no completed task, or on the first day, there is
    no estimate; the configured interval is not used. *)
Theorem statistics_estimate (w : World) (name : string) (syl : Syllabus)
    (r : SyllabusProgress) :
  selected w name ->
  syllabus_of w name = Some syl ->
  stored w name = Some r ->
  sp_current_week r <= len (syl_tasks syl) ->
  let first_reading := (load_ticks w + ticks w)%nat in
  let completed_tasks := len (sp_completed_weeks r) in
  let days_active := days (clock w first_reading - sp_start_date r) in
  let now_ :=
    clock w (match sp_due_date r with
             | Some _ => S (S first_reading)
             | None => S first_reading
             end) in
  let remaining_tasks := len (syl_tasks syl) - sp_current_week r + 1 in
  exists s,
    sent (run show_statistics w) = sent w ++ [MsgStatistics s]
    /\ st_remaining_tasks s = Some remaining_tasks
    /\ (0 < days_active -> 0 < completed_tasks ->
        st_estimate s
        = estimate_line (python_estimate now_ remaining_tasks days_active
                                         completed_tasks))
    /\ (days_active <= 0 \/ completed_tasks = 0 -> st_estimate s = None).
Proof.
  intros Hsel Hsyl Hr Hweek first_reading completed_tasks days_active now_
         remaining_tasks.
  destruct (statistics_reports w name syl r Hsel Hsyl Hr)
    as (s & Hs & _ & _ & _ & _ & Hrest).
  destruct (Hrest Hweek) as [Hrem Hest].
  exists s. split; [exact Hs|]. split; [exact Hrem|]. split.
  - intros Hda Hc. rewrite Hest.
    fold first_reading days_active completed_tasks.
    by rewrite (proj2 (Z.ltb_lt 0 days_active) Hda),
               (proj2 (Z.ltb_lt 0 completed_tasks) Hc).
  - intros Hno. rewrite Hest.
    fold first_reading days_active completed_tasks.
    destruct Hno as [Hda | Hc].
    + by rewrite (proj2 (Z.ltb_ge 0 days_active) Hda).
    + rewrite Hc. by rewrite andb_false_r.
Qed.

(** Three of eighteen tasks done in 49 days: the quotient [49 / 3] is
    16.333333333333332 and fifteen times that 244.99999999999997, so the
    line says "in 244 days"; the [timedelta] of that many days rounds to the
    microsecond, which makes it 245 days, and the date is 245 days after the
    reading of the clock. *)
Lemma statistics_estimate_witness :
  let w := Examples.course_world (Examples.T0 + Examples.day 49) in
  exists s,
    sent (run show_statistics w) = [MsgStatistics s]
    /\ st_remaining_tasks s = Some 15
    /\ st_estimate s
       = Some (Examples.T0 + Examples.day 49 + 2000000 + timedelta 245, 244).
Proof.
  intros w.
  destruct (statistics_estimate w "Course" Examples.course
              Examples.course_three_done) as (s & Hs & Hrem & Hest & _).
  - split; [discriminate | vm_compute; reflexivity].
  - vm_compute. reflexivity.
  - vm_compute. reflexivity.
  - vm_compute. discriminate.
  - exists s. split; [exact Hs|]. split; [exact Hrem|].
    rewrite Hest by (vm_compute; reflexivity).
    vm_compute. reflexivity.
Defined.

(** C9 as stated fails: on day 2 of a syllabus of three tasks with none
    completed, the average the claim prescribes is the interval, 7 days, and
    the estimate [now + 3 * 7] days is a date [datetime] can hold; the
    statistics carry no estimate. *)
Lemma statistics_estimate_counterexample :
  let w := Examples.world "Math" Examples.math_fresh
             (Examples.T0 + Examples.day 2) in
  exists s,
    sent (run show_statistics w) = [MsgStatistics s]
    /\ st_completed_tasks s = 0
    /\ st_days_active s = 2
    /\ st_remaining_tasks s = Some 3
    /\ current_interval w = 7
    /\ representable (Examples.T0 + Examples.day 2) (3 * current_interval w)
       = true
    /\ st_estimate s = None.
Proof.
  vm_compute. eexists. repeat split.
Qed.

(** ** Completing tasks *)

Lemma mem_seqZ k : 0 <= k -> mem k (seqZ 0 k) = false.
Proof.
  intros. unfold mem. apply bool_decide_eq_false_2.
  rewrite elem_of_seqZ. lia.
Qed.

Lemma valid_or_first_in_range i n : 0 <= i < n -> valid_or_first i n = i.
Proof.
  intros. unfold valid_or_first.
  rewrite (proj2 (Z.ltb_ge i 0)), (proj2 (Z.leb_gt n i)) by lia. reflexivity.
Qed.

Lemma len_app {A} (l1 l2 : list A) : len (l1 ++ l2) = len l1 + len l2.
Proof. unfold len. rewrite length_app. lia. Qed.

Lemma py_index_middle {A} (l1 : list A) x l2 :
  py_index (l1 ++ x :: l2) (len l1) = Some x.
Proof.
  unfold len. rewrite py_index_nat. by apply list_lookup_middle.
Qed.

Lemma py_index_next {A} (l1 : list A) x y l2 :
  py_index (l1 ++ x :: y :: l2) (len l1 + 1) = Some y.
Proof.
  replace (l1 ++ x :: y :: l2) with ((l1 ++ [x]) ++ y :: l2)
    by (by rewrite <- app_assoc).
  replace (len l1 + 1) with (len (l1 ++ [x])); [apply py_index_middle|].
  rewrite len_app. reflexivity.
Qed.

Section Yes.
Variables (w : World) (name : string) (syl : Syllabus) (r : SyllabusProgress)
          (done : list string) (t : string) (rest : list string).
Hypothesis Hsel : selected w name.
Hypothesis Hsyl : syllabus_of w name = Some syl.
Hypothesis Htasks : syl_tasks syl = done ++ t :: rest.
Hypothesis Hrec : stored w name = Some r.
Hypothesis Hweek : sp_current_week r = len done + 1.
Hypothesis Hcompleted : sp_completed_weeks r = seqZ 0 (len done).
Hypothesis Hrange :
  representable (clock w (S (load_ticks w + ticks w))) (current_interval w)
  = true.

Lemma yes_step :
  wp handle_yes_response w (fun o w' =>
    o = Ok tt
    /\ syllabi_json w' = syllabi_json w
    /\ stored_settings w' = Some (loaded_settings w)
    /\ stored w' name
       = Some (mkProgress (len done + 2) (seqZ 0 (len done + 1))
                 (Some (<[len done := clock w (load_ticks w + ticks w)]>
                          (default ∅ (sp_completion_dates r))))
                 (sp_start_date r)
                 (Some (clock w (S (load_ticks w + ticks w))
                        + timedelta (current_interval w))))
    /\ clock w' = clock w
    /\ ticks w' = S (S (load_ticks w + ticks w))
    /\ sent w'
       = sent w ++ [match rest with
                    | [] => MsgCongratulations name
                    | next :: _ => MsgGreatJob t next (current_interval w)
                    end]).
Proof using All.
  unfold handle_yes_response. wp_go.
  rewrite (not_selected_empty w name Hsel).
  pose proof Hsel as [_ Hcur]. rewrite Hcur.
  wp_go. rewrite loaded_lookup, Hrec. wp_go.
  rewrite Hweek, Hcompleted.
  replace (len done + 1 - 1) with (len done) by lia.
  rewrite mem_seqZ by apply len_nonneg.
  wp_go. rewrite !lookup_alter_eq, loaded_lookup, Hrec.
  cbn [fmap option_fmap option_map]. wp_go.
  rewrite interval_loaded, Hrange. wp_go.
  rewrite record_of_table, !lookup_alter_eq, loaded_lookup, Hrec.
  cbn [fmap option_fmap option_map]. wp_go.
  unfold syllabus_of in Hsyl. rewrite Hsyl. wp_go.
  cbn [set_due_date set_current_week record_completion_date
       append_completed sp_current_week sp_completed_weeks
       sp_completion_dates sp_start_date sp_due_date].
  rewrite Hweek, Htasks, len_app, len_cons.
  pose proof (len_nonneg done). pose proof (len_nonneg rest).
  assert (Hseq : seqZ 0 (len done) ++ [len done] = seqZ 0 (len done + 1)).
  { unfold len.
    replace (Z.of_nat (length done) + 1) with (Z.of_nat (S (length done)))
      by lia.
    by rewrite seqZ_S, Z.add_0_l. }
  destruct rest as [|next rest'].
  - change (len []) with 0.
    rewrite (proj2 (Z.ltb_lt _ _)) by lia. wp_go.
    stored_simpl. rewrite Hrec. cbn [fmap option_fmap option_map].
    unfold set_due_date, set_current_week, record_completion_date,
      append_completed;
    cbn [sp_current_week sp_completed_weeks
       sp_completion_dates sp_start_date sp_due_date].
    rewrite Hweek, Hcompleted, Hseq.
    replace (len done + 1 + 1) with (len done + 2) by lia.
    repeat split.
  - rewrite len_cons. pose proof (len_nonneg rest').
    rewrite (proj2 (Z.ltb_ge _ _)) by lia. wp_go.
    rewrite !valid_or_first_in_range by (pose proof (len_nonneg rest'); lia).
    rewrite py_index_middle. wp_go.
    replace (len done + 1 + 1 - 1) with (len done + 1) by lia.
    rewrite py_index_next. wp_go. rewrite interval_loaded.
    stored_simpl. rewrite Hrec. cbn [fmap option_fmap option_map].
    unfold set_due_date, set_current_week, record_completion_date,
      append_completed;
    cbn [sp_current_week sp_completed_weeks
       sp_completion_dates sp_start_date sp_due_date].
    rewrite Hweek, Hcompleted, Hseq.
    replace (len done + 1 + 1) with (len done + 2) by lia.
    repeat split.
Qed.
End Yes.

Section Completion.
Variables (name : string) (syl : Syllabus).

Lemma yes_all (todo : list string) :
  forall (done : list string) (w : World) (r : SyllabusProgress),
    selected w name ->
    syllabus_of w name = Some syl ->
    syl_tasks syl = done ++ todo ->
    stored w name = Some r ->
    sp_current_week r = len done + 1 ->
    sp_completed_weeks r = seqZ 0 (len done) ->
    (forall k, (ticks w <= k < ticks w + load_ticks w + 2 * length todo)%nat ->
               representable (clock w k) (current_interval w) = true) ->
    wp (repeatedly (length todo) handle_yes_response) w (fun o w' =>
      o = Ok tt
      /\ sent w' = sent w ++ completion_messages name (current_interval w) todo
      /\ exists r',
          stored w' name = Some r'
          /\ sp_current_week r' = len (syl_tasks syl) + 1
          /\ sp_completed_weeks r' = seqZ 0 (len (syl_tasks syl))).
Proof.
  induction todo as [|t rest IH];
    intros done w r Hsel Hsyl Htasks Hrec Hweek Hcompleted Hrange.
  - cbn [length repeatedly completion_messages]. apply wp_ret.
    rewrite app_nil_r in *. rewrite Htasks.
    split; [reflexivity|]. split; [reflexivity|]. by exists r.
  - cbn [length repeatedly]. apply wp_bind.
    eapply wp_mono.
    { apply (yes_step w name syl r done t rest); auto.
      apply Hrange. cbn [length]. pose proof (load_ticks_le w). lia. }
    intros o w1 (-> & Hsj & Hgs & Hst & Hclk & Htk & Hsent).
    assert (Hcat : catalog_of w1 = catalog_of w)
      by (unfold catalog_of; by rewrite Hsj).
    assert (Hint : current_interval w1 = current_interval w).
    { unfold current_interval. rewrite Hgs. apply interval_loaded. }
    assert (Hload : load_ticks w1 = 0%nat)
      by (unfold load_ticks; by rewrite Hgs).
    eapply wp_mono.
    { eapply (IH (done ++ [t]) w1); eauto.
      - unfold selected. by rewrite Hcat.
      - unfold syllabus_of. by rewrite Hcat.
      - by rewrite <- app_assoc.
      - cbn [sp_current_week]. rewrite len_app. change (len [t]) with 1. lia.
      - cbn [sp_completed_weeks]. rewrite len_app. by change (len [t]) with 1.
      - intros k Hk. rewrite Hclk, Hint. apply Hrange.
        cbn [length]. lia. }
    cbn beta. intros o w2 (-> & Hsent2 & Hr2).
    split; [reflexivity|]. split; [|exact Hr2].
    rewrite Hsent2, Hsent, Hint, <- app_assoc. reflexivity.
Qed.
End Completion.

(** C2: with a syllabus of [n] tasks selected and its record fresh
    (week 1, nothing completed), pressing "yes" [n] times in a row succeeds
    every time -- each press answers with the task done and the next one,
    the last with the congratulations -- and leaves the record with
    [current_week = n + 1] and [completed_weeks = [0, ..., n-1]]: the
    syllabus is completed.  The due dates computed on the way are assumed to
    fit a [datetime]. *)
Theorem complete_all_tasks (w : World) (name : string) (syl : Syllabus)
    (r : SyllabusProgress) (n : nat) :
  selected w name ->
  syllabus_of w name = Some syl ->
  length (syl_tasks syl) = n ->
  stored w name = Some r ->
  is_fresh r ->
  dates_in_range w (2 * n + 1) = true ->
  let w' := run (repeatedly n handle_yes_response) w in
  result (repeatedly n handle_yes_response) w = Ok tt
  /\ sent w'
     = sent w ++ completion_messages name (current_interval w) (syl_tasks syl)
  /\ exists r',
       stored w' name = Some r'
       /\ sp_current_week r' = Z.of_nat n + 1
       /\ sp_completed_weeks r' = seqZ 0 (Z.of_nat n).
Proof.
  intros Hsel Hsyl Hn Hrec [Hweek Hnone] Hrange w'. subst n.
  apply (wp_run (repeatedly (length (syl_tasks syl)) handle_yes_response) w
           (fun o w' => o = Ok tt /\ sent w' = _ /\ exists r', _)).
  apply (yes_all name syl (syl_tasks syl) [] w r); auto.
  intros k Hk. eapply dates_in_range_spec; eauto.
  pose proof (load_ticks_le w). lia.
Qed.

Lemma complete_all_tasks_witness :
  let w := Examples.world "Math" Examples.math_fresh Examples.T0 in
  let w' := run (repeatedly 3 handle_yes_response) w in
  sent w' = [MsgGreatJob "Algebra" "Geometry" 7;
             MsgGreatJob "Geometry" "Calculus" 7;
             MsgCongratulations "Math"]
  /\ exists r',
       stored w' "Math" = Some r'
       /\ sp_current_week r' = 4
       /\ sp_completed_weeks r' = [0; 1; 2].
Proof.
  intros w.
  refine (proj2 (complete_all_tasks w "Math" Examples.math
                   Examples.math_fresh 3 _ _ _ _ _ _)).
  - split; [discriminate | vm_compute; reflexivity].
  - vm_compute. reflexivity.
  - reflexivity.
  - vm_compute. reflexivity.
  - split; reflexivity.
  - vm_compute. reflexivity.
Defined.

(** ** The invariant of the progress records *)

Lemma harmless_set_current_week v : harmless (set_current_week v).
Proof. intros tasks r H. exact H. Qed.

Lemma harmless_set_due_date v : harmless (set_due_date v).
Proof. intros tasks r H. exact H. Qed.

Lemma record_ok_fresh tasks a b : record_ok tasks (fresh_record a b).
Proof.
  split; cbn.
  - intros i Hi. by apply elem_of_nil in Hi.
  - intros i [x Hx]. by rewrite lookup_empty in Hx.
Qed.

Lemma table_ok_loaded w :
  progress_invariant w -> table_ok w (default ∅ (loaded_table w)).
Proof.
  intros H name syl r Hs Hr. rewrite loaded_lookup in Hr. eauto.
Qed.

Lemma table_ok_alter w f n t :
  harmless f -> table_ok w t -> table_ok w (alter f n t).
Proof.
  intros Hf Ht name syl r Hs Hr.
  destruct (decide (n = name)) as [->|Hne].
  - rewrite lookup_alter_eq in Hr.
    destruct (t !! name) as [r0|] eqn:E; [|discriminate].
    injection Hr as <-. apply Hf. eauto.
  - rewrite lookup_alter_ne in Hr by done. eauto.
Qed.

Lemma table_ok_insert_fresh w n a b t :
  table_ok w t -> table_ok w (<[n := fresh_record a b]> t).
Proof.
  intros Ht name syl r Hs Hr.
  destruct (decide (n = name)) as [->|Hne].
  - rewrite lookup_insert_eq in Hr. injection Hr as <-. apply record_ok_fresh.
  - rewrite lookup_insert_ne in Hr by done. eauto.
Qed.

(** The invariant of a world whose catalog has the tasks of [w]'s. *)
Lemma invariant_saved w sj gs t c k s :
  (forall name, syl_tasks <$> (cat_syllabi (default empty_syllabi sj) !! name)
                = syl_tasks <$> syllabus_of w name) ->
  table_ok w t ->
  progress_invariant (mkWorld sj (Some (mkProgressDoc gs (Some t))) c k s).
Proof.
  intros Hcat Ht name syl r Hs Hr.
  unfold syllabus_of, catalog_of in Hs. cbn in Hs.
  specialize (Hcat name). rewrite Hs in Hcat. cbn in Hcat.
  destruct (syllabus_of w name) as [syl0|] eqn:E; [|discriminate].
  injection Hcat as ->. by apply (Ht name syl0 r).
Qed.

Lemma invariant_same w sj c k s :
  (forall name, syl_tasks <$> (cat_syllabi (default empty_syllabi sj) !! name)
                = syl_tasks <$> syllabus_of w name) ->
  progress_invariant w ->
  progress_invariant (mkWorld sj (progress_json w) c k s).
Proof.
  intros Hcat Hw name syl r Hs Hr.
  unfold syllabus_of, catalog_of in Hs. cbn in Hs.
  specialize (Hcat name). rewrite Hs in Hcat. cbn in Hcat.
  destruct (syllabus_of w name) as [syl0|] eqn:E; [|discriminate].
  injection Hcat as ->. by apply (Hw name syl0 r).
Qed.

Lemma tasks_paused w n b syl name :
  syllabus_of w n = Some syl ->
  syl_tasks <$> (<[n := set_paused b syl]> (cat_syllabi (catalog_of w)) !! name)
  = syl_tasks <$> syllabus_of w name.
Proof.
  intros Hs. destruct (decide (n = name)) as [->|Hne].
  - by rewrite lookup_insert_eq, Hs.
  - by rewrite lookup_insert_ne.
Qed.

Lemma table_ok_reset w gs n a b c k s sj :
  (forall name, syl_tasks <$> (cat_syllabi (default empty_syllabi sj) !! name)
                = syl_tasks <$> syllabus_of w name) ->
  progress_invariant w ->
  progress_invariant
    (mkWorld sj (Some (mkProgressDoc gs (insert n (fresh_record a b) <$> loaded_table w))) c k s).
Proof.
  intros Hcat Hw.
  destruct (loaded_table w) as [t|] eqn:E.
  - apply (invariant_saved w); [exact Hcat|]. apply table_ok_insert_fresh.
    pose proof (table_ok_loaded w Hw) as H. by rewrite E in H.
  - intros name syl r _ Hr. discriminate Hr.
Qed.

Lemma invariant_loaded w gs c k s sj :
  (forall name, syl_tasks <$> (cat_syllabi (default empty_syllabi sj) !! name)
                = syl_tasks <$> syllabus_of w name) ->
  progress_invariant w ->
  progress_invariant
    (mkWorld sj (Some (mkProgressDoc gs (loaded_table w))) c k s).
Proof.
  intros Hcat Hw.
  destruct (loaded_table w) as [t|] eqn:E.
  - apply (invariant_saved w); [exact Hcat|].
    pose proof (table_ok_loaded w Hw) as H. by rewrite E in H.
  - intros name syl r _ Hr. discriminate Hr.
Qed.

Ltac same_tasks :=
  first [ intros ?; reflexivity
        | intros ?; eapply tasks_paused; eassumption ].

Ltac keeps_invariant w Hinv :=
  lazymatch goal with
  | |- progress_invariant (mkWorld _ (progress_json _) _ _ _) =>
      apply invariant_same; [same_tasks | exact Hinv]
  | |- progress_invariant (mkWorld _ (Some (mkProgressDoc _ (Some _))) _ _ _) =>
      apply (invariant_saved w);
      [ same_tasks
      | repeat first [ apply table_ok_alter;
                       [first [apply harmless_set_current_week
                              |apply harmless_set_due_date]|]
                     | apply table_ok_insert_fresh ];
        by apply table_ok_loaded ]
  | |- progress_invariant
         (mkWorld _ (Some (mkProgressDoc _ (loaded_table _))) _ _ _) =>
      apply (invariant_loaded w); [same_tasks | exact Hinv]
  | |- progress_invariant (mkWorld _ (Some (mkProgressDoc _ (_ <$> _))) _ _ _) =>
      apply (table_ok_reset w); [same_tasks | exact Hinv]
  end.

Lemma table_ok_alter_at w f n t r :
  table_ok w t ->
  t !! n = Some r ->
  (forall syl, syllabus_of w n = Some syl ->
               record_ok (syl_tasks syl) r -> record_ok (syl_tasks syl) (f r)) ->
  table_ok w (alter f n t).
Proof.
  intros Ht Hn Hf name syl r' Hs Hr.
  destruct (decide (n = name)) as [->|Hne].
  - rewrite lookup_alter_eq, Hn in Hr. injection Hr as <-. eauto.
  - rewrite lookup_alter_ne in Hr by done. eauto.
Qed.

(** Recording a completion keeps a record in order when the index is in
    range, or was completed before. *)
Lemma record_ok_completion tasks r k t :
  record_ok tasks r ->
  k < len tasks ->
  record_ok tasks (record_completion_date k t (append_completed k r)).
Proof.
  intros [Hweeks Hdates] Hk. split; cbn.
  - intros i Hi. apply elem_of_app in Hi as [Hi|Hi]; [eauto|].
    apply list_elem_of_singleton in Hi. by subst.
  - intros i Hi. apply elem_of_app.
    destruct (decide (k = i)) as [->|Hne].
    + right. by apply list_elem_of_singleton.
    + left. apply Hdates. by rewrite lookup_insert_ne in Hi.
Qed.

Lemma record_ok_completion_again tasks r k t :
  record_ok tasks r ->
  k ∈ sp_completed_weeks r ->
  record_ok tasks (record_completion_date k t r).
Proof.
  intros [Hweeks Hdates] Hk. split; cbn; [exact Hweeks|].
  intros i Hi. destruct (decide (k = i)) as [->|Hne]; [exact Hk|].
  apply Hdates. by rewrite lookup_insert_ne in Hi.
Qed.

Ltac head_of t :=
  lazymatch t with
  | ?f _ => head_of f
  | _ => t
  end.

Section Preservation.
Variable w : World.
Hypothesis Hinv : progress_invariant w.

Ltac preserved h :=
  apply (wp_run h w (fun _ w' => progress_invariant w'));
  let hd := head_of h in unfold hd; wp_auto; keeps_invariant w Hinv.

Lemma select_preserves name :
  progress_invariant (run (start_syllabus_callback name) w).
Proof using Hinv. preserved (start_syllabus_callback name). Qed.

Lemma switch_preserves name :
  progress_invariant (run (switch_syllabus_callback name) w).
Proof using Hinv. preserved (switch_syllabus_callback name). Qed.

Lemma current_preserves : progress_invariant (run current_week w).
Proof using Hinv. preserved current_week. Qed.

Lemma check_preserves : progress_invariant (run check_progress w).
Proof using Hinv. preserved check_progress. Qed.

Lemma no_preserves : progress_invariant (run handle_no_response w).
Proof using Hinv. preserved handle_no_response. Qed.

Lemma reset_preserves : progress_invariant (run handle_reset_yes w).
Proof using Hinv. preserved handle_reset_yes. Qed.

Lemma pause_preserves name :
  progress_invariant (run (pause_syllabus_callback name) w).
Proof using Hinv. preserved (pause_syllabus_callback name). Qed.

Lemma resume_preserves name :
  progress_invariant (run (resume_syllabus_callback name) w).
Proof using Hinv. preserved (resume_syllabus_callback name). Qed.

Lemma toggle_preserves : progress_invariant (run toggle_reminders w).
Proof using Hinv. preserved toggle_reminders. Qed.

Lemma set_interval_preserves args :
  progress_invariant (run (set_reminder_interval args) w).
Proof using Hinv. preserved (set_reminder_interval args). Qed.

Lemma statistics_preserves : progress_invariant (run show_statistics w).
Proof using Hinv. preserved show_statistics. Qed.

Lemma daily_preserves chat_id :
  progress_invariant (run (check_due_dates chat_id) w).
Proof using Hinv. preserved (check_due_dates chat_id). Qed.
End Preservation.

Lemma alter_twice {A} (f g : A -> A) n (t : gmap string A) :
  alter f n (alter g n t) = alter (f ∘ g) n t.
Proof.
  apply map_eq. intros i. destruct (decide (n = i)) as [->|Hne].
  - rewrite !lookup_alter_eq. by destruct (t !! i).
  - by rewrite !lookup_alter_ne.
Qed.

Lemma harmless_next_week :
  harmless (fun r => set_current_week (sp_current_week r + 1) r).
Proof. intros tasks r H. exact H. Qed.

Lemma mem_true k l : mem k l = true -> k ∈ l.
Proof. unfold mem. apply bool_decide_eq_true_1. Qed.

Section Completing.
Variable w : World.
Hypothesis Hinv : progress_invariant w.

Let current_field := cat_current_field (catalog_of w).

Hypothesis Hweek :
  forall syl, syllabus_of w current_field = Some syl ->
              week_of w current_field <= len (syl_tasks syl).

(** The document the handler saves: the completion recorded in the
    record [r] that the table [t] has for the selected syllabus. *)
Ltac completion_recorded t r :=
  apply (invariant_saved w); [same_tasks|];
  apply table_ok_alter; [apply harmless_set_due_date|];
  apply table_ok_alter; [apply harmless_next_week|];
  try rewrite alter_twice;
  apply (table_ok_alter_at w _ _ t r).

Lemma yes_preserves : progress_invariant (run handle_yes_response w).
Proof using Hinv Hweek.
  apply (wp_run handle_yes_response w (fun _ w' => progress_invariant w')).
  unfold handle_yes_response. wp_go.
  destruct (bool_decide _); wp_go; [keeps_invariant w Hinv|].
  fold current_field. rewrite loaded_lookup.
  unfold week_of in Hweek.
  destruct (stored w current_field) as [r|] eqn:Hr; wp_go.
  - destruct (mem _ _) eqn:Hmem; wp_go;
      rewrite !lookup_alter_eq, loaded_lookup, Hr;
      cbn [fmap option_fmap option_map]; wp_auto;
      try keeps_invariant w Hinv;
      completion_recorded (default ∅ (loaded_table w)) r;
      try (by apply table_ok_loaded);
      try (by rewrite loaded_lookup);
      intros syl Hs Hok.
    all: first [ apply record_ok_completion_again;
                 [exact Hok | by apply mem_true]
               | apply record_ok_completion;
                 [exact Hok | specialize (Hweek syl Hs); lia] ].
  - destruct (representable _ _) eqn:Hrep; wp_go;
      [|keeps_invariant w Hinv].
    set (fresh_one := fresh_record _ _).
    destruct (mem _ _) eqn:Hmem; wp_go;
      rewrite !lookup_alter_eq, lookup_insert_eq;
      cbn [fmap option_fmap option_map]; wp_auto;
      try keeps_invariant w Hinv;
      completion_recorded
        (<[current_field := fresh_one]> (default ∅ (loaded_table w)))
        fresh_one;
      try (by apply table_ok_insert_fresh, table_ok_loaded);
      try (by rewrite lookup_insert_eq);
      intros syl Hs Hok.
    all: first [ apply record_ok_completion_again;
                 [exact Hok | by apply mem_true]
               | apply record_ok_completion;
                 [exact Hok | specialize (Hweek syl Hs); cbn; lia] ].
Qed.
End Completing.

(** The record of the example worlds is in order. *)
Lemma example_invariant current t :
  progress_invariant (Examples.world current Examples.math_in_progress t).
Proof.
  intros name syl r Hs Hr.
  change (({[ "Math" := Examples.math ]} : gmap string Syllabus) !! name
          = Some syl) in Hs.
  apply lookup_singleton_Some in Hs as [<- <-].
  assert (Hstored : stored (Examples.world current Examples.math_in_progress t)
                           "Math" = Some Examples.math_in_progress)
    by (vm_compute; reflexivity).
  rewrite Hstored in Hr. injection Hr as <-.
  split; unfold Examples.math_in_progress;
    cbn [sp_completed_weeks sp_completion_dates default].
  - intros i Hi. apply list_elem_of_singleton in Hi as ->. reflexivity.
  - intros i [x Hx]. unfold id in Hx.
    apply lookup_singleton_Some in Hx as [<- _].
    by apply list_elem_of_singleton.
Qed.

(** Under the precondition the specification gives for completing the
    current task -- an active, unpaused syllabus with
    [0 < current_week <= len(tasks)] -- every operation of the engine keeps
    the progress records in order: each completed index below the number of
    tasks of the syllabus, each completion date at a completed index.  The
    "yes" button does not test the precondition itself: pressed past the
    last task it breaks the invariant, as shown below. *)
Theorem engine_preserves_invariant (op : Operation) (w : World) :
  progress_invariant w ->
  (op = Yes -> complete_current_requires w) ->
  progress_invariant (run (handler_of op) w).
Proof.
  intros Hinv Hpre. destruct op; cbn [handler_of].
  - by apply select_preserves.
  - by apply switch_preserves.
  - by apply current_preserves.
  - by apply check_preserves.
  - destruct (Hpre eq_refl) as (name & syl & [_ Hcur] & Hs & _ & Hweek).
    apply yes_preserves; [exact Hinv|].
    rewrite Hcur. intros syl' Hs'. rewrite Hs in Hs'. injection Hs' as <-.
    lia.
  - by apply no_preserves.
  - by apply reset_preserves.
  - by apply pause_preserves.
  - by apply resume_preserves.
  - by apply toggle_preserves.
  - by apply set_interval_preserves.
  - by apply statistics_preserves.
  - by apply daily_preserves.
Qed.

Lemma engine_preserves_invariant_witness :
  let w := Examples.world "Math" Examples.math_in_progress
             (Examples.T0 + Examples.day 5) in
  progress_invariant (run handle_yes_response w).
Proof.
  intros w.
  refine (engine_preserves_invariant Yes w _ _).
  - apply example_invariant.
  - intros _. exists "Math", Examples.math.
    split; [split; [discriminate | vm_compute; reflexivity]|].
    split; [vm_compute; reflexivity|].
    split; [reflexivity|].
    vm_compute. split; [reflexivity | discriminate].
Defined.

(** The precondition is not checked by the "yes" button itself: pressed
    when all three tasks are done, it stores the index 3 among the
    completed ones. *)
Lemma yes_beyond_the_end :
  let w := Examples.world "Math" Examples.math_completed
             (Examples.T0 + Examples.day 5) in
  (sp_completed_weeks <$> stored (run handle_yes_response w) "Math")
  = Some [0; 1; 2; 3]
  /\ (sp_current_week <$> stored (run handle_yes_response w) "Math") = Some 5
  /\ ~ progress_invariant (run handle_yes_response w).
Proof.
  intros w.
  assert (Hweeks : (sp_completed_weeks <$> stored (run handle_yes_response w)
                                                  "Math")
                   = Some [0; 1; 2; 3]) by (vm_compute; reflexivity).
  split; [exact Hweeks|]. split; [vm_compute; reflexivity|].
  intros Hinv.
  destruct (stored (run handle_yes_response w) "Math") as [r|] eqn:Hr;
    [|discriminate].
  injection Hweeks as Hweeks.
  destruct (Hinv "Math" Examples.math r) as [Hbelow _].
  - vm_compute. reflexivity.
  - exact Hr.
  - specialize (Hbelow 3). rewrite Hweeks in Hbelow.
    assert (H : 3 < len (syl_tasks Examples.math)).
    { apply Hbelow. set_solver. }
    vm_compute in H. discriminate.
Qed.

(** The invariant of a world whose catalog holds one syllabus. *)
Lemma single_invariant w n syl r :
  cat_syllabi (catalog_of w) = {[ n := syl ]} ->
  stored w n = Some r ->
  record_ok (syl_tasks syl) r ->
  progress_invariant w.
Proof.
  intros Hcat Hr Hok name syl' r' Hs Hr'.
  unfold syllabus_of in Hs. rewrite Hcat in Hs.
  apply lookup_singleton_Some in Hs as [<- <-].
  rewrite Hr in Hr'. by injection Hr' as <-.
Qed.

(** C3, at the input where the code breaks it: "Math" has three tasks and
    is selected with a fresh record, which is in order.  The "yes" button is
    pressed four times (the keyboard of an earlier [/check] stays in the
    chat).  The first three presses complete the three tasks and leave the
    record in order; then the precondition of completing the current task
    fails ([current_week] is 4), yet the handler, which does not test it,
    ends normally, stores the index 3 -- the number of tasks -- among the
    completed ones and moves on to week 5: the record is no longer in
    order. *)
Theorem yes_stores_an_index_out_of_range :
  let w := Examples.world "Math" Examples.math_fresh Examples.T0 in
  let w3 := run (repeatedly 3 handle_yes_response) w in
  let w4 := run handle_yes_response w3 in
  progress_invariant w
  /\ progress_invariant w3
  /\ ~ complete_current_requires w3
  /\ result handle_yes_response w3 = Ok tt
  /\ len (syl_tasks Examples.math) = 3
  /\ (sp_completed_weeks <$> stored w4 "Math") = Some [0; 1; 2; 3]
  /\ (sp_current_week <$> stored w4 "Math") = Some 5
  /\ ~ progress_invariant w4.
Proof.
  intros w w3 w4.
  assert (Hcat : cat_syllabi (catalog_of w) = {[ "Math" := Examples.math ]})
    by (vm_compute; reflexivity).
  assert (Hr : stored w "Math" = Some Examples.math_fresh)
    by (vm_compute; reflexivity).
  assert (Hcat3 : cat_syllabi (catalog_of w3) = {[ "Math" := Examples.math ]})
    by (vm_compute; reflexivity).
  assert (Hcur3 : cat_current_field (catalog_of w3) = "Math")
    by (vm_compute; reflexivity).
  assert (Hr3 : stored w3 "Math"
                = Some (mkProgress 4 [0; 1; 2]
                          (Some (<[2 := Examples.T0 + 4000000]>
                                   (<[1 := Examples.T0 + 2000000]>
                                      {[ 0 := Examples.T0 ]})))
                          Examples.T0
                          (Some (Examples.T0 + 5000000 + timedelta 7))))
    by (vm_compute; reflexivity).
  assert (Hweek3 : week_of w3 "Math" = 4) by (vm_compute; reflexivity).
  assert (Hok : result handle_yes_response w3 = Ok tt)
    by (vm_compute; reflexivity).
  assert (Hcat4 : syllabus_of w4 "Math" = Some Examples.math)
    by (vm_compute; reflexivity).
  assert (Hweeks : (sp_completed_weeks <$> stored w4 "Math")
                   = Some [0; 1; 2; 3]) by (vm_compute; reflexivity).
  assert (Hweek4 : (sp_current_week <$> stored w4 "Math") = Some 5)
    by (vm_compute; reflexivity).
  assert (Hlen : len (syl_tasks Examples.math) = 3) by reflexivity.
  clearbody w4. clearbody w3. clearbody w.
  split; [|split; [|split; [|split; [|split; [|split; [|split]]]]]];
    [| | |exact Hok|exact Hlen|exact Hweeks|exact Hweek4|].
  - apply (single_invariant w "Math" Examples.math _ Hcat Hr).
    apply record_ok_fresh.
  - apply (single_invariant w3 "Math" Examples.math _ Hcat3 Hr3).
    split; cbn [sp_completed_weeks sp_completion_dates default].
    + intros i Hi. rewrite Hlen.
      repeat (apply elem_of_cons in Hi as [->|Hi]; [lia|]).
      by apply elem_of_nil in Hi.
    + intros i [x Hx]. unfold id in Hx.
      apply lookup_insert_Some in Hx as [[<- _]|[_ Hx]];
        [rewrite !elem_of_cons; auto|].
      apply lookup_insert_Some in Hx as [[<- _]|[_ Hx]];
        [rewrite !elem_of_cons; auto|].
      apply lookup_singleton_Some in Hx as [<- _]. rewrite !elem_of_cons. auto.
  - intros (name & syl & [_ Hsel] & Hsyl & _ & Hweek).
    rewrite Hcur3 in Hsel. subst name.
    unfold syllabus_of in Hsyl. rewrite Hcat3 in Hsyl.
    apply lookup_singleton_Some in Hsyl as [_ <-].
    rewrite Hweek3, Hlen in Hweek. lia.
  - intros Hinv.
    destruct (stored w4 "Math") as [r|] eqn:Hr4; [|discriminate].
    injection Hweeks as Hweeks.
    destruct (Hinv "Math" Examples.math r Hcat4 Hr4) as [Hbelow _].
    specialize (Hbelow 3). rewrite Hweeks, Hlen in Hbelow.
    assert (H : 3 < 3); [|lia].
    apply Hbelow.
    rewrite !elem_of_cons. auto.
Qed.

(** ** A week with the default interval

    "Math" is selected on the first run at [T0]: the record is created and
    due seven days after the reading of the clock that [update_due_date]
    takes (the fourth, three seconds after [T0]), and the answer says six
    days, the whole days left at the next reading.  Six days later the
    daily job sends the due-tomorrow notice; the "yes" button pressed then
    moves on to week 2 with index 0 completed and a new due date seven days
    ahead. *)
Example first_week :
  let w1 := run (start_syllabus_callback "Math") Examples.first_run in
  let w2 := run (check_due_dates Examples.chat)
                (Examples.at_time (Examples.T0 + Examples.day 6) w1) in
  let w3 := run handle_yes_response
                (Examples.at_time (Examples.T0 + Examples.day 6) w2) in
  sent w1 = [MsgSelected "Math" StartingWith "Algebra" (Some 6)]
  /\ (sp_due_date <$> stored w1 "Math")
     = Some (Some (Examples.T0 + Examples.day 7 + 3000000))
  /\ sent w2 = [MsgReminder Examples.chat due_tomorrow "Math" "Algebra" 1]
  /\ progress_json w2 = progress_json w1
  /\ sent w3 = [MsgGreatJob "Algebra" "Geometry" 7]
  /\ (sp_current_week <$> stored w3 "Math") = Some 2
  /\ (sp_completed_weeks <$> stored w3 "Math") = Some [0]
  /\ (sp_due_date <$> stored w3 "Math")
     = Some (Some (Examples.T0 + Examples.day 13 + 1000000)).
Proof. vm_compute. repeat split. Qed.

(** * Further properties of the handlers *)

(** ** Settings *)

Lemma loaded_table_lookup w name :
  (loaded_table w ≫= (fun t => t !! name)) = stored w name.
Proof.
  unfold loaded_table, stored, record_of.
  destruct (progress_json w) as [[gs [t|]]|]; reflexivity.
Qed.

Lemma stored_loaded_table sj gs w c k s name :
  stored (mkWorld sj (Some (mkProgressDoc gs (loaded_table w))) c k s) name
  = stored w name.
Proof. apply loaded_table_lookup. Qed.

Lemma stored_settings_saved sj gs t c k s :
  stored_settings (mkWorld sj (Some (mkProgressDoc gs t)) c k s) = gs.
Proof. reflexivity. Qed.

Lemma current_interval_saved sj gs t c k s :
  current_interval (mkWorld sj (Some (mkProgressDoc (Some gs) t)) c k s)
  = interval_of gs.
Proof. reflexivity. Qed.

Lemma reminders_on_saved sj gs t c k s :
  reminders_on (mkWorld sj (Some (mkProgressDoc (Some gs) t)) c k s)
  = enabled_of gs.
Proof. reflexivity. Qed.

Ltac settings_simpl :=
  rewrite ?current_interval_saved, ?reminders_on_saved;
  repeat match goal with
         | |- context [interval_of (set_reminder_interval_field ?d ?gs)] =>
             change (interval_of (set_reminder_interval_field d gs)) with d
         | |- context [enabled_of (set_reminder_interval_field ?d ?gs)] =>
             change (enabled_of (set_reminder_interval_field d gs))
               with (enabled_of gs)
         | |- context [interval_of (set_reminders_enabled ?b ?gs)] =>
             change (interval_of (set_reminders_enabled b gs))
               with (interval_of gs)
         | |- context [enabled_of (set_reminders_enabled ?b ?gs)] =>
             change (enabled_of (set_reminders_enabled b gs)) with b
         end;
  rewrite ?enabled_loaded, ?interval_loaded.

(** [/set_interval] without an argument, with a word that is not an
    integer, or with a number below 1 answers accordingly and does nothing
    else: it reads neither document nor the clock, and saves nothing. *)
Theorem set_interval_rejects (w : World) (args : IntervalArg) :
  rejected args ->
  result (set_reminder_interval args) w = Ok tt
  /\ run (set_reminder_interval args) w
     = mkWorld (syllabi_json w) (progress_json w) (clock w) (ticks w)
               (sent w ++ [rejection args]).
Proof.
  intros Hrej.
  apply (wp_run (set_reminder_interval args) w (fun o w' => o = Ok tt /\ w' = _)).
  unfold set_reminder_interval.
  destruct args as [| |d]; cbn [rejected rejection] in *; wp_go; auto.
  rewrite (proj2 (Z.ltb_lt d 1)) by lia. wp_go. auto.
Qed.

Lemma set_interval_rejects_witness :
  sent (run (set_reminder_interval (Days 0))
            (Examples.world "Math" Examples.math_in_progress Examples.T0))
  = [MsgPositiveNumber]
  /\ progress_json (run (set_reminder_interval (Days 0))
                        (Examples.world "Math" Examples.math_in_progress
                                        Examples.T0))
     = Some (Examples.document Examples.math_in_progress).
Proof.
  destruct (set_interval_rejects
              (Examples.world "Math" Examples.math_in_progress Examples.T0)
              (Days 0)) as [_ H]; [reflexivity|].
  rewrite H. split; reflexivity.
Defined.

(** [/set_interval d] with [d >= 1] stores [d] as the interval and moves
    the due date of the selected syllabus to [d] days after the reading of
    the clock it takes; the rest of that record, the other records and the
    reminder switch are as before, and [syllabi.json] is not written.  With
    nothing selected no record changes. The record of the selected syllabus
    is taken to exist and the new date to fit a [datetime]. *)
Theorem set_interval_accepts (w : World) (d : Z) :
  1 <= d ->
  let field := cat_current_field (catalog_of w) in
  let now_ := clock w (load_ticks w + ticks w) in
  (field <> "" -> is_Some (stored w field) /\ representable now_ d = true) ->
  let w' := run (set_reminder_interval (Days d)) w in
  sent w' = sent w ++ [MsgIntervalSet d]
  /\ current_interval w' = d
  /\ reminders_on w' = reminders_on w
  /\ syllabi_json w' = syllabi_json w
  /\ (field <> "" ->
      stored w' field = set_due_date (now_ + timedelta d) <$> stored w field)
  /\ (forall name, name <> field \/ field = "" ->
                   stored w' name = stored w name).
Proof.
  intros Hd field now_ Hsel.
  apply (wp_run (set_reminder_interval (Days d)) w
           (fun _ w' => sent w' = _ /\ current_interval w' = d
                        /\ reminders_on w' = _ /\ syllabi_json w' = _
                        /\ (field <> "" -> stored w' field = _)
                        /\ (forall name, name <> field \/ field = "" ->
                                         stored w' name = _))).
  unfold set_reminder_interval. wp_go.
  rewrite (proj2 (Z.ltb_ge d 1)) by lia. wp_go.
  fold field. destruct (bool_decide (field = "")) eqn:Hf.
  - apply bool_decide_eq_true_1 in Hf. wp_go.
    settings_simpl.
    repeat split; auto; try congruence.
    intros name _. apply stored_loaded_table.
  - apply bool_decide_eq_false_1 in Hf.
    destruct (Hsel Hf) as [[r Hr] Hrep].
    wp_go. rewrite loaded_lookup, Hr. wp_go.
    settings_simpl. fold now_. rewrite Hrep. wp_go. settings_simpl.
    repeat split; auto.
    + intros _. stored_simpl. by rewrite Hr.
    + intros name [Hne|He]; [|contradiction].
      rewrite stored_saved, record_of_table, lookup_alter_ne by congruence.
      apply loaded_lookup.
Qed.

Lemma set_interval_accepts_witness :
  let w := Examples.world "Math" Examples.math_in_progress
             (Examples.T0 + Examples.day 5) in
  let w' := run (set_reminder_interval (Days 10)) w in
  current_interval w' = 10
  /\ (sp_due_date <$> stored w' "Math")
     = Some (Some (Examples.T0 + Examples.day 15)).
Proof.
  intros w w'.
  destruct (set_interval_accepts w 10) as (_ & Hint & _ & _ & Hdue & _).
  - lia.
  - intros _. split; [vm_compute; eexists; reflexivity | vm_compute; reflexivity].
  - split; [exact Hint|].
    assert (Hfield : cat_current_field (catalog_of w) <> "")
      by (vm_compute; discriminate).
    specialize (Hdue Hfield).
    change (cat_current_field (catalog_of w)) with "Math" in Hdue.
    subst w'. rewrite Hdue. vm_compute. reflexivity.
Defined.

Lemma toggle_step w :
  wp toggle_reminders w (fun o w' =>
    o = Ok tt
    /\ reminders_on w' = negb (reminders_on w)
    /\ sent w' = sent w ++ [MsgRemindersNow (negb (reminders_on w))]
    /\ current_interval w' = current_interval w
    /\ (forall name, stored w' name = stored w name)
    /\ syllabi_json w' = syllabi_json w).
Proof.
  unfold toggle_reminders. wp_go.
  settings_simpl.
  repeat split; auto.
  intros name. apply stored_loaded_table.
Qed.

(** [/toggle_reminders] flips the reminder switch (on when it was never
    set) and says so; the interval and every progress record stay as they
    were, [syllabi.json] is not written, and a second toggle restores the
    switch. *)
Theorem toggle_flips (w : World) :
  let w' := run toggle_reminders w in
  reminders_on w' = negb (reminders_on w)
  /\ sent w' = sent w ++ [MsgRemindersNow (negb (reminders_on w))]
  /\ current_interval w' = current_interval w
  /\ (forall name, stored w' name = stored w name)
  /\ syllabi_json w' = syllabi_json w
  /\ reminders_on (run toggle_reminders w') = reminders_on w.
Proof.
  intros w'.
  destruct (wp_run _ _ _ (toggle_step w)) as (_ & H1 & H2 & H3 & H4 & H5).
  destruct (wp_run _ _ _ (toggle_step w')) as (_ & H1' & _).
  fold w' in H1, H2, H3, H4, H5.
  repeat split; auto.
  rewrite H1', H1. apply negb_involutive.
Qed.

(** ** Starting over *)

Lemma record_of_loaded w name : record_of (loaded w) name = stored w name.
Proof. apply loaded_table_lookup. Qed.


Section Reset.
Variables (w : World) (name : string).
Hypothesis Hsel : selected w name.

Let first_reading := (load_ticks w + ticks w)%nat.


End Reset.




(** ** Pausing and resuming *)

Section Pause.
Variables (w : World) (name : string) (syl : Syllabus).
Hypothesis Hsyl : syllabus_of w name = Some syl.

Let current := cat_current_field (catalog_of w).

Lemma pause_step :
  wp (pause_syllabus_callback name) w (fun o w' =>
    o = Ok tt
    /\ w' = mkWorld
              (Some (mkSyllabiDoc
                       (if bool_decide (current = name) then "" else current)
                       (<[name := set_paused true syl]>
                          (cat_syllabi (catalog_of w)))))
              (progress_json w) (clock w) (ticks w)
              (sent w ++ [MsgTrackingPaused name])).
Proof using Hsyl.
  unfold pause_syllabus_callback, syllabus_of in *.
  wp_go. rewrite Hsyl. wp_go. auto.
Qed.

Lemma resume_step :
  wp (resume_syllabus_callback name) w (fun o w' =>
    o = Ok tt
    /\ w' = mkWorld
              (Some (mkSyllabiDoc current
                       (<[name := set_paused false syl]>
                          (cat_syllabi (catalog_of w)))))
              (progress_json w) (clock w) (ticks w)
              (sent w ++ [MsgTrackingResumed name])).
Proof using Hsyl.
  unfold resume_syllabus_callback, syllabus_of in *.
  wp_go. rewrite Hsyl. wp_go. auto.
Qed.
End Pause.

(** Pausing a syllabus of the catalog marks it paused and keeps its tasks;
    it is deselected when it was the selected one, and another selection
    stays.  The other syllabi are untouched and [progress.json] is not
    written: the record of the paused syllabus survives. *)
Theorem pause_keeps_progress (w : World) (name : string) (syl : Syllabus) :
  syllabus_of w name = Some syl ->
  let w' := run (pause_syllabus_callback name) w in
  let current := cat_current_field (catalog_of w) in
  result (pause_syllabus_callback name) w = Ok tt
  /\ syllabus_of w' name = Some (mkSyllabus (syl_tasks syl) (Some true))
  /\ (forall other, other <> name -> syllabus_of w' other = syllabus_of w other)
  /\ cat_current_field (catalog_of w')
     = (if bool_decide (current = name) then "" else current)
  /\ progress_json w' = progress_json w
  /\ sent w' = sent w ++ [MsgTrackingPaused name].
Proof.
  intros Hsyl w' current.
  destruct (wp_run _ _ _ (pause_step w name syl Hsyl)) as [Hok Hw].
  subst w'. rewrite Hw. unfold syllabus_of, catalog_of. cbn.
  repeat split; auto.
  - apply lookup_insert_eq.
  - intros other Hne. by apply lookup_insert_ne.
Qed.

Lemma pause_keeps_progress_witness :
  let w := Examples.world "Math" Examples.math_in_progress Examples.T0 in
  let w' := run (pause_syllabus_callback "Math") w in
  cat_current_field (catalog_of w') = ""
  /\ stored w' "Math" = Some Examples.math_in_progress.
Proof.
  intros w w'.
  destruct (pause_keeps_progress w "Math" Examples.math)
    as (_ & _ & _ & Hcur & Hprog & _).
  - vm_compute. reflexivity.
  - split; [exact Hcur|]. unfold stored. subst w'. rewrite Hprog. reflexivity.
Defined.

(** After a pause and a resume of the selected syllabus it is active
    again but no longer selected: resuming does not restore the selection,
    so [/current] answers "No active syllabus or it's paused" until the
    syllabus is selected anew.  Its progress record is as it was. *)
Theorem resume_does_not_reselect (w : World) (name : string) (syl : Syllabus) :
  selected w name ->
  syllabus_of w name = Some syl ->
  let w1 := run (pause_syllabus_callback name) w in
  let w2 := run (resume_syllabus_callback name) w1 in
  syllabus_of w2 name = Some (mkSyllabus (syl_tasks syl) (Some false))
  /\ cat_current_field (catalog_of w2) = ""
  /\ progress_json w2 = progress_json w
  /\ sent w2 = sent w ++ [MsgTrackingPaused name; MsgTrackingResumed name]
  /\ sent (run current_week w2) = sent w2 ++ [MsgNoActiveOrPaused].
Proof.
  intros [Hne Hcur] Hsyl w1 w2.
  destruct (wp_run _ _ _ (pause_step w name syl Hsyl)) as [_ Hw1].
  fold w1 in Hw1.
  assert (Hsyl1 : syllabus_of w1 name = Some (set_paused true syl)).
  { rewrite Hw1. unfold syllabus_of, catalog_of. cbn. apply lookup_insert_eq. }
  destruct (wp_run _ _ _ (resume_step w1 name _ Hsyl1)) as [_ Hw2].
  fold w2 in Hw2.
  assert (Hcur2 : cat_current_field (catalog_of w2) = "").
  { rewrite Hw2, Hw1. unfold catalog_of. cbn. fold (catalog_of w).
    rewrite Hcur. by rewrite bool_decide_eq_true_2. }
  split; [|split; [exact Hcur2|split; [|split]]].
  - rewrite Hw2. unfold syllabus_of, catalog_of. cbn. apply lookup_insert_eq.
  - rewrite Hw2, Hw1. reflexivity.
  - rewrite Hw2, Hw1. cbn. by rewrite <- app_assoc.
  - apply (wp_run current_week w2 (fun _ w' => sent w' = _)).
    unfold current_week. wp_go. rewrite Hcur2.
    change (bool_decide ("" = "")) with true. wp_go. reflexivity.
Qed.

Lemma resume_does_not_reselect_witness :
  let w := Examples.world "Math" Examples.math_in_progress Examples.T0 in
  let w2 := run (resume_syllabus_callback "Math")
                (run (pause_syllabus_callback "Math") w) in
  (is_paused <$> syllabus_of w2 "Math") = Some false
  /\ sent (run current_week w2) = sent w2 ++ [MsgNoActiveOrPaused].
Proof.
  intros w w2.
  destruct (resume_does_not_reselect w "Math" Examples.math)
    as (Hs & _ & _ & _ & Hc).
  - split; [discriminate | vm_compute; reflexivity].
  - vm_compute. reflexivity.
  - split; [|exact Hc]. subst w2. by rewrite Hs.
Defined.

(** ** Names the catalog does not have *)

Lemma answers_only_wp h w answer :
  wp h w (fun o w' => o = Ok tt /\ syllabi_json w' = syllabi_json w
                      /\ progress_json w' = progress_json w
                      /\ sent w' = sent w ++ [answer]) ->
  answers_only h w answer.
Proof. exact id. Qed.

(** A button that carries a name the catalog does not have changes
    neither document: selecting and switching answer that the name "is
    paused", pausing and resuming that the syllabus was not found, and
    showing it answers nothing at all. *)
Theorem unknown_name_changes_nothing (w : World) (name : string) :
  syllabus_of w name = None ->
  answers_only (start_syllabus_callback name) w (MsgIsPaused name)
  /\ answers_only (switch_syllabus_callback name) w (MsgIsPaused name)
  /\ answers_only (pause_syllabus_callback name) w MsgSyllabusNotFound
  /\ answers_only (resume_syllabus_callback name) w MsgSyllabusNotFound
  /\ result (show_syllabus_callback name) w = Ok None
  /\ run (show_syllabus_callback name) w
     = mkWorld (syllabi_json w) (progress_json w) (clock w)
               (load_ticks w + ticks w) (sent w).
Proof.
  intros Hnone. unfold syllabus_of in Hnone.
  split; [|split; [|split; [|split]]].
  - apply answers_only_wp. unfold start_syllabus_callback.
    wp_go. rewrite Hnone. wp_go. auto.
  - apply answers_only_wp. unfold switch_syllabus_callback.
    wp_go. rewrite Hnone. wp_go. auto.
  - apply answers_only_wp. unfold pause_syllabus_callback.
    wp_go. rewrite Hnone. wp_go. auto.
  - apply answers_only_wp. unfold resume_syllabus_callback.
    wp_go. rewrite Hnone. wp_go. auto.
  - apply (wp_run (show_syllabus_callback name) w
             (fun o w' => o = Ok None /\ w' = _)).
    unfold show_syllabus_callback, handle_errors_view.
    wp_go. rewrite Hnone. wp_go. auto.
Qed.

Lemma unknown_name_changes_nothing_witness :
  answers_only (pause_syllabus_callback "Physics") Examples.two_syllabi
               MsgSyllabusNotFound
  /\ result (show_syllabus_callback "Physics") Examples.two_syllabi = Ok None.
Proof.
  destruct (unknown_name_changes_nothing Examples.two_syllabi "Physics")
    as (_ & _ & H3 & _ & H5 & _).
  - vm_compute. reflexivity.
  - split; [exact H3 | exact H5].
Defined.

(** ** Nothing selected *)

Lemma job_silent_wp chat_id w :
  wp (check_due_dates chat_id) w
     (fun o w' => o = Ok tt /\ sent w' = sent w
                  /\ syllabi_json w' = syllabi_json w
                  /\ progress_json w' = progress_json w) ->
  job_silent chat_id w.
Proof. exact id. Qed.

Ltac none_selected H :=
  wp_go; rewrite H; change (bool_decide ("" = "")) with true; wp_go; auto.

Section NoSelection.
Variable w : World.
Hypothesis Hnone : cat_current_field (catalog_of w) = "".

Lemma current_needs_a_selection : answers_only current_week w MsgNoActiveOrPaused.
Proof using Hnone.
  apply answers_only_wp. unfold current_week. none_selected Hnone.
Qed.

Lemma check_needs_a_selection : answers_only check_progress w MsgNoActiveOrPaused.
Proof using Hnone.
  apply answers_only_wp. unfold check_progress. none_selected Hnone.
Qed.

Lemma statistics_needs_a_selection : answers_only show_statistics w MsgNoActive.
Proof using Hnone.
  apply answers_only_wp. unfold show_statistics. none_selected Hnone.
Qed.

Lemma yes_needs_a_selection : answers_only handle_yes_response w MsgNoActive.
Proof using Hnone.
  apply answers_only_wp. unfold handle_yes_response. none_selected Hnone.
Qed.

Lemma no_needs_a_selection : answers_only handle_no_response w MsgNoActive.
Proof using Hnone.
  apply answers_only_wp. unfold handle_no_response. none_selected Hnone.
Qed.

Lemma reset_needs_a_selection : answers_only handle_reset_yes w MsgNoActive.
Proof using Hnone.
  apply answers_only_wp. unfold handle_reset_yes. none_selected Hnone.
Qed.

Lemma job_needs_a_selection chat_id : job_silent chat_id w.
Proof using Hnone.
  apply job_silent_wp. unfold check_due_dates. wp_go.
  destruct (negb _); [wp_go; auto|]. none_selected Hnone.
Qed.

Lemma completed_needs_a_selection :
  result show_completed w = Ok (Some ViewNoActiveOrPaused).
Proof using Hnone.
  apply (wp_run show_completed w (fun o _ => o = _)).
  unfold show_completed, handle_errors_view. none_selected Hnone.
Qed.

Lemma reset_prompt_needs_a_selection :
  result reset_progress w = Ok (Some ViewNoActiveOrPaused).
Proof using Hnone.
  apply (wp_run reset_progress w (fun o _ => o = _)).
  unfold reset_progress, handle_errors_view. none_selected Hnone.
Qed.
End NoSelection.

(** With no syllabus selected every handler that works on the selected
    syllabus only says so and leaves both documents as they are:
    [/current], [/check], [/completed] and [/reset] answer "No active
    syllabus or it's paused", [/statistics] and the buttons "yes", "no" and
    "reset_yes" answer "No active syllabus", and the daily job sends
    nothing. *)
Theorem nothing_selected (w : World) (chat_id : Z) :
  cat_current_field (catalog_of w) = "" ->
  answers_only current_week w MsgNoActiveOrPaused
  /\ answers_only check_progress w MsgNoActiveOrPaused
  /\ answers_only show_statistics w MsgNoActive
  /\ answers_only handle_yes_response w MsgNoActive
  /\ answers_only handle_no_response w MsgNoActive
  /\ answers_only handle_reset_yes w MsgNoActive
  /\ result show_completed w = Ok (Some ViewNoActiveOrPaused)
  /\ result reset_progress w = Ok (Some ViewNoActiveOrPaused)
  /\ job_silent chat_id w.
Proof.
  intros Hnone.
  split; [by apply current_needs_a_selection|].
  split; [by apply check_needs_a_selection|].
  split; [by apply statistics_needs_a_selection|].
  split; [by apply yes_needs_a_selection|].
  split; [by apply no_needs_a_selection|].
  split; [by apply reset_needs_a_selection|].
  split; [by apply completed_needs_a_selection|].
  split; [by apply reset_prompt_needs_a_selection|].
  by apply job_needs_a_selection.
Qed.

Lemma nothing_selected_witness :
  answers_only handle_yes_response Examples.two_syllabi MsgNoActive
  /\ job_silent Examples.chat Examples.two_syllabi.
Proof.
  destruct (nothing_selected Examples.two_syllabi Examples.chat)
    as (_ & _ & _ & H4 & _ & _ & _ & _ & H9).
  - reflexivity.
  - split; [exact H4 | exact H9].
Defined.

(** Once the selected syllabus is paused the bot is idle: [/current] and
    [/check] answer "No active syllabus or it's paused", the "yes" button
    "No active syllabus", and the daily job sends no reminder; the progress
    records stay as they were before the pause. *)
Theorem pause_silences (w : World) (name : string) (syl : Syllabus)
    (chat_id : Z) :
  selected w name ->
  syllabus_of w name = Some syl ->
  let w' := run (pause_syllabus_callback name) w in
  progress_json w' = progress_json w
  /\ answers_only current_week w' MsgNoActiveOrPaused
  /\ answers_only check_progress w' MsgNoActiveOrPaused
  /\ answers_only handle_yes_response w' MsgNoActive
  /\ job_silent chat_id w'.
Proof.
  intros [Hne Hcur] Hsyl w'.
  destruct (wp_run _ _ _ (pause_step w name syl Hsyl)) as [_ Hw].
  fold w' in Hw.
  assert (Hnone : cat_current_field (catalog_of w') = "").
  { rewrite Hw. unfold catalog_of. cbn. fold (catalog_of w).
    rewrite Hcur. by rewrite bool_decide_eq_true_2. }
  split; [by rewrite Hw|].
  split; [by apply current_needs_a_selection|].
  split; [by apply check_needs_a_selection|].
  split; [by apply yes_needs_a_selection|].
  by apply job_needs_a_selection.
Qed.

Lemma pause_silences_witness :
  let w := Examples.world "Math" Examples.math_in_progress
             (Examples.T0 + Examples.day 9) in
  job_silent Examples.chat (run (pause_syllabus_callback "Math") w).
Proof.
  intros w.
  refine (proj2 (proj2 (proj2 (proj2
            (pause_silences w "Math" Examples.math Examples.chat _ _))))).
  - split; [discriminate | vm_compute; reflexivity].
  - vm_compute. reflexivity.
Defined.

(** ** The daily job stays silent *)

Section Silent.
Variables (w : World) (chat_id : Z).

Lemma job_disabled : reminders_on w = false -> job_silent chat_id w.
Proof.
  intros Hoff. apply job_silent_wp. unfold check_due_dates. wp_go.
  rewrite enabled_loaded, Hoff. cbn [negb]. wp_go. auto.
Qed.

Variables (name : string) (syl : Syllabus).
Hypothesis Hsel : selected w name.
Hypothesis Hsyl : syllabus_of w name = Some syl.

Lemma job_paused : is_paused syl = true -> job_silent chat_id w.
Proof using Hsel Hsyl.
  intros Hp. apply job_silent_wp. unfold check_due_dates. wp_go.
  destruct (negb _); wp_go; [auto|].
  rewrite (not_selected_empty w name Hsel).
  pose proof Hsel as [_ Hcur]. unfold syllabus_of in Hsyl.
  rewrite Hcur, Hsyl, Hp. wp_go. auto.
Qed.

Variable r : SyllabusProgress.
Hypothesis Hrec : stored w name = Some r.

Let now_ := clock w (load_ticks w + ticks w).

Lemma job_waits :
  sp_due_date r = None
  \/ (exists due, sp_due_date r = Some due /\ 2 <= days (due - now_))
  \/ len (syl_tasks syl) < sp_current_week r ->
  job_silent chat_id w.
Proof using Hsel Hsyl Hrec.
  intros Hwhy. apply job_silent_wp. unfold check_due_dates. wp_go.
  destruct (negb _); wp_go; [auto|].
  rewrite (not_selected_empty w name Hsel).
  pose proof Hsel as [_ Hcur]. pose proof Hsyl as Hsyl'.
  unfold syllabus_of in Hsyl'. rewrite Hcur, Hsyl'.
  destruct (is_paused syl); wp_go; [auto|].
  rewrite loaded_lookup, Hrec. wp_go.
  destruct (sp_due_date r) as [due|] eqn:Hdue; wp_go; [|auto].
  fold now_.
  destruct Hwhy as [Hwhy | [(due' & Hd & Hdays) | Hweek]]; [discriminate| |].
  - injection Hd as <-.
    rewrite (proj2 (Z.leb_gt _ 1)), andb_false_r by lia.
    rewrite (proj2 (Z.ltb_ge _ 0)) by lia. wp_go. auto.
  - destruct ((0 <=? _) && (_ <=? 1)); wp_go.
    + rewrite Hsyl'. rewrite (proj2 (Z.leb_gt _ _)) by lia. wp_go. auto.
    + destruct (_ <? 0); wp_go; [|auto].
      destruct (3 <=? _); wp_go; [|auto].
      rewrite Hsyl'. rewrite (proj2 (Z.leb_gt _ _)) by lia. wp_go. auto.
Qed.
End Silent.

(** The daily job sends nothing and writes nothing when reminders are
    switched off or the selected syllabus is paused, and for a selected
    syllabus with a record when the record has no due date, when two or
    more whole days remain, or when the record is past the last task --
    however long the due date has passed. *)
Theorem daily_job_silent (w : World) (chat_id : Z) (name : string)
    (syl : Syllabus) :
  (reminders_on w = false -> job_silent chat_id w)
  /\ (selected w name -> syllabus_of w name = Some syl ->
      (is_paused syl = true -> job_silent chat_id w)
      /\ (forall r, stored w name = Some r ->
            sp_due_date r = None
            \/ (exists due, sp_due_date r = Some due
                  /\ 2 <= days (due - clock w (load_ticks w + ticks w)))
            \/ len (syl_tasks syl) < sp_current_week r ->
            job_silent chat_id w)).
Proof.
  split; [apply job_disabled|].
  intros Hsel Hsyl. split.
  - exact (job_paused w chat_id name syl Hsel Hsyl).
  - intros r Hr Hwhy. exact (job_waits w chat_id name syl Hsel Hsyl r Hr Hwhy).
Qed.

(** Ten days after the last task was completed, and long overdue. *)
Lemma daily_job_silent_witness :
  job_silent Examples.chat
    (Examples.world "Math" Examples.math_completed
                    (Examples.T0 + Examples.day 20)).
Proof.
  refine (proj2 (proj2 (daily_job_silent _ Examples.chat "Math" Examples.math)
                   _ _) Examples.math_completed _ _).
  - split; [discriminate | vm_compute; reflexivity].
  - vm_compute. reflexivity.
  - vm_compute. reflexivity.
  - right. right. vm_compute. reflexivity.
Defined.

(** ** A record that is not on one of the tasks *)

Section OutOfRange.
Variables (w : World) (name : string) (syl : Syllabus) (r : SyllabusProgress).
Hypothesis Hsel : selected w name.
Hypothesis Hsyl : syllabus_of w name = Some syl.
Hypothesis Hunpaused : is_paused syl = false.
Hypothesis Hrec : stored w name = Some r.
Hypothesis Hout :
  sp_current_week r <= 0 \/ len (syl_tasks syl) < sp_current_week r.

Lemma out_of_range :
  (0 <? sp_current_week r) && (sp_current_week r <=? len (syl_tasks syl))
  = false.
Proof using Hout.
  destruct Hout.
  - by rewrite (proj2 (Z.ltb_ge 0 _)) by lia.
  - rewrite (proj2 (Z.leb_gt _ _)) by lia. apply andb_false_r.
Qed.

Lemma current_out_of_range : answers_only current_week w MsgNoCurrentTask.
Proof using All.
  apply answers_only_wp.
  pose proof Hsyl as Hsyl'. unfold syllabus_of in Hsyl'.
  unfold current_week. wp_go.
  rewrite (not_selected_empty w name Hsel).
  pose proof Hsel as [_ Hcur]. rewrite Hcur, Hsyl', Hunpaused.
  wp_go. rewrite loaded_lookup, Hrec. wp_go.
  rewrite Hsyl', out_of_range. wp_go. auto.
Qed.

Lemma check_out_of_range : answers_only check_progress w MsgNoTaskToCheck.
Proof using All.
  apply answers_only_wp.
  pose proof Hsyl as Hsyl'. unfold syllabus_of in Hsyl'.
  unfold check_progress. wp_go.
  rewrite (not_selected_empty w name Hsel).
  pose proof Hsel as [_ Hcur]. rewrite Hcur, Hsyl', Hunpaused.
  wp_go. rewrite loaded_lookup, Hrec. wp_go.
  rewrite Hsyl', out_of_range. wp_go. auto.
Qed.
End OutOfRange.

(** When the record of the selected, unpaused syllabus is not on one of
    its tasks -- [current_week] below 1 or past the number of tasks, as
    after the last task was completed -- [/current] answers that there is no
    current task and [/check] that there is no task to check; the buttons
    "yes" and "no" are not offered, and both documents stay as they are. *)
Theorem week_out_of_range (w : World) (name : string) (syl : Syllabus)
    (r : SyllabusProgress) :
  selected w name ->
  syllabus_of w name = Some syl ->
  is_paused syl = false ->
  stored w name = Some r ->
  sp_current_week r <= 0 \/ len (syl_tasks syl) < sp_current_week r ->
  answers_only current_week w MsgNoCurrentTask
  /\ answers_only check_progress w MsgNoTaskToCheck.
Proof.
  intros Hsel Hsyl Hp Hr Hout. split.
  - by apply (current_out_of_range w name syl r).
  - by apply (check_out_of_range w name syl r).
Qed.

Lemma week_out_of_range_witness :
  answers_only check_progress
    (Examples.world "Math" Examples.math_completed
                    (Examples.T0 + Examples.day 5))
    MsgNoTaskToCheck.
Proof.
  refine (proj2 (week_out_of_range _ "Math" Examples.math
                   Examples.math_completed _ _ _ _ _)).
  - split; [discriminate | vm_compute; reflexivity].
  - vm_compute. reflexivity.
  - reflexivity.
  - vm_compute. reflexivity.
  - right. vm_compute. reflexivity.
Defined.

(** ** After the last task *)

Lemma yes_keeps_catalog w :
  wp handle_yes_response w (fun _ w' => syllabi_json w' = syllabi_json w).
Proof.
  unfold handle_yes_response. wp_go.
  destruct (bool_decide _); wp_go; [reflexivity|].
  wp_case; wp_go; [|wp_case; wp_go; [|reflexivity]].
  all: destruct (mem _ _); wp_auto; reflexivity.
Qed.

Lemma repeatedly_keeps_catalog h :
  (forall w, wp h w (fun _ w' => syllabi_json w' = syllabi_json w)) ->
  forall n w,
    wp (repeatedly n h) w (fun _ w' => syllabi_json w' = syllabi_json w).
Proof.
  intros Hh n. induction n as [|n IH]; intros w; cbn [repeatedly].
  - by apply wp_ret.
  - apply wp_bind. eapply wp_mono; [apply Hh|].
    intros [[]|e] w1 H1; [|exact H1].
    eapply wp_mono; [apply IH|].
    cbn beta. intros o w2 H2. by rewrite H2.
Qed.

(** Once every task of the selected syllabus has been completed with the
    "yes" button, starting from a fresh record, the bot has nothing more to
    ask: [/current] answers that there is no current task, [/check] that
    there is no task to check, and the daily job sends no reminder, however
    long ago the last due date passed.  The due dates computed on the way
    are assumed to fit a [datetime]. *)
Theorem completed_syllabus_is_idle (w : World) (name : string)
    (syl : Syllabus) (r : SyllabusProgress) (chat_id : Z) :
  selected w name ->
  syllabus_of w name = Some syl ->
  is_paused syl = false ->
  stored w name = Some r ->
  is_fresh r ->
  dates_in_range w (2 * length (syl_tasks syl) + 1) = true ->
  let w' := run (repeatedly (length (syl_tasks syl)) handle_yes_response) w in
  answers_only current_week w' MsgNoCurrentTask
  /\ answers_only check_progress w' MsgNoTaskToCheck
  /\ job_silent chat_id w'.
Proof.
  intros Hsel Hsyl Hp Hrec [Hweek Hnone] Hrange w'.
  assert (Hall : exists r', stored w' name = Some r'
                            /\ sp_current_week r' = len (syl_tasks syl) + 1).
  { apply (wp_run (repeatedly (length (syl_tasks syl)) handle_yes_response) w
             (fun _ w' => exists r', stored w' name = Some r' /\ _)).
    eapply wp_mono.
    - apply (yes_all name syl (syl_tasks syl) [] w r); auto.
      intros k Hk. eapply dates_in_range_spec; eauto.
      pose proof (load_ticks_le w). lia.
    - cbn beta. intros o w1 (_ & _ & r' & H1 & H2 & _). by exists r'. }
  destruct Hall as (r' & Hr' & Hweek').
  assert (Hcat : catalog_of w' = catalog_of w).
  { unfold catalog_of. f_equal.
    apply (wp_run (repeatedly (length (syl_tasks syl)) handle_yes_response) w
             (fun _ w' => syllabi_json w' = syllabi_json w)).
    apply repeatedly_keeps_catalog, yes_keeps_catalog. }
  assert (Hsel' : selected w' name) by (unfold selected; by rewrite Hcat).
  assert (Hsyl' : syllabus_of w' name = Some syl)
    by (unfold syllabus_of; by rewrite Hcat).
  assert (Hout : sp_current_week r' <= 0
                 \/ len (syl_tasks syl) < sp_current_week r') by lia.
  split; [by apply (current_out_of_range w' name syl r')|].
  split; [by apply (check_out_of_range w' name syl r')|].
  apply (job_waits w' chat_id name syl Hsel' Hsyl' r' Hr').
  right. right. lia.
Qed.

Lemma completed_syllabus_is_idle_witness :
  let w := Examples.world "Math" Examples.math_fresh Examples.T0 in
  job_silent Examples.chat (run (repeatedly 3 handle_yes_response) w).
Proof.
  intros w.
  refine (proj2 (proj2 (completed_syllabus_is_idle w "Math" Examples.math
                          Examples.math_fresh Examples.chat _ _ _ _ _ _))).
  - split; [discriminate | vm_compute; reflexivity].
  - vm_compute. reflexivity.
  - reflexivity.
  - vm_compute. reflexivity.
  - split; reflexivity.
  - vm_compute. reflexivity.
Defined.

(** ** Deferring *)

Section Defer.
Variables (w : World) (name : string) (r : SyllabusProgress).
Hypothesis Hsel : selected w name.
Hypothesis Hrec : stored w name = Some r.

Lemma defer_without_due_date syl task :
  sp_due_date r = None ->
  syllabus_of w name = Some syl ->
  py_index (syl_tasks syl) (sp_current_week r - 1) = Some task ->
  answers_only handle_no_response w (MsgKeepWorking task).
Proof using Hsel Hrec.
  intros Hdue Hsyl Htask. apply answers_only_wp.
  unfold handle_no_response. wp_go.
  rewrite (not_selected_empty w name Hsel).
  pose proof Hsel as [_ Hcur]. rewrite Hcur.
  wp_go. rewrite loaded_lookup, Hrec. wp_go. rewrite Hdue. wp_go.
  unfold syllabus_of in Hsyl. rewrite Hsyl. wp_go. rewrite Htask. wp_go. auto.
Qed.

Lemma defer_step due :
  sp_due_date r = Some due ->
  let extension := Z.max 3 (current_interval w / 2) in
  representable due extension = true ->
  wp handle_no_response w (fun o w' =>
    o = Ok tt
    /\ stored w' name = Some (set_due_date (due + timedelta extension) r)
    /\ syllabi_json w' = syllabi_json w
    /\ stored_settings w' = Some (loaded_settings w)).
Proof using Hsel Hrec.
  intros Hdue extension Hrep.
  unfold handle_no_response. wp_go.
  rewrite (not_selected_empty w name Hsel).
  pose proof Hsel as [_ Hcur]. rewrite Hcur.
  wp_go. rewrite loaded_lookup, Hrec. wp_go.
  rewrite Hdue, interval_loaded. wp_go. fold extension. rewrite Hrep.
  wp_auto; stored_simpl; rewrite Hrec; auto.
Qed.
End Defer.

Lemma set_due_date_same r due :
  sp_due_date r = Some due -> set_due_date due r = r.
Proof. destruct r. cbn. by intros ->. Qed.

Lemma defer_repeatedly (name : string) (n : nat) :
  forall (w : World) (r : SyllabusProgress) (due : datetime),
    selected w name ->
    stored w name = Some r ->
    sp_due_date r = Some due ->
    let extension := Z.max 3 (current_interval w / 2) in
    (forall k, (k < n)%nat ->
       representable (due + timedelta (Z.of_nat k * extension)) extension
       = true) ->
    wp (repeatedly n handle_no_response) w (fun o w' =>
      o = Ok tt
      /\ stored w' name
         = Some (set_due_date (due + timedelta (Z.of_nat n * extension)) r)).
Proof.
  induction n as [|n IH]; intros w r due Hsel Hrec Hdue extension Hrep.
  - cbn [repeatedly]. apply wp_ret. split; [reflexivity|].
    change (timedelta (Z.of_nat 0 * extension)) with 0.
    by rewrite Z.add_0_r, set_due_date_same.
  - cbn [repeatedly]. apply wp_bind.
    eapply wp_mono.
    { apply (defer_step w name r Hsel Hrec due Hdue).
      specialize (Hrep 0%nat ltac:(lia)).
      change (timedelta (Z.of_nat 0 * extension)) with 0 in Hrep.
      by rewrite Z.add_0_r in Hrep. }
    intros o w1 (-> & Hst & Hsj & Hgs).
    assert (Hint : current_interval w1 = current_interval w).
    { unfold current_interval. rewrite Hgs. apply interval_loaded. }
    assert (Hsel1 : selected w1 name)
      by (unfold selected, catalog_of; by rewrite Hsj).
    fold extension in Hst.
    eapply wp_mono.
    { apply (IH w1 _ (due + timedelta extension) Hsel1 Hst eq_refl).
      rewrite Hint. fold extension. intros k Hk.
      specialize (Hrep (S k) ltac:(lia)).
      replace (due + timedelta extension + timedelta (Z.of_nat k * extension))
        with (due + timedelta (Z.of_nat (S k) * extension))
        by (unfold timedelta; lia).
      exact Hrep. }
    cbn beta. intros o w2 (-> & Hst2). split; [reflexivity|].
    rewrite Hst2, Hint. fold extension. f_equal.
    unfold set_due_date. cbn. do 2 f_equal. unfold timedelta. lia.
Qed.

(** Deferrals add up: pressing "no" [n] times in a row leaves the due
    date of the selected syllabus [n * max(3, reminder_interval // 2)] days
    after the one it had, and the week and the completed tasks as they
    were; nothing caps the number of deferrals.  A record without a due
    date is left alone, and the answer then only names the task.  The dates
    on the way are assumed to fit a [datetime]. *)
Theorem deferrals_add_up (w : World) (name : string) (r : SyllabusProgress)
    (n : nat) :
  selected w name ->
  stored w name = Some r ->
  let extension := Z.max 3 (current_interval w / 2) in
  (forall due, sp_due_date r = Some due ->
     0 <= due ->
     due + timedelta (Z.of_nat n * extension) <= datetime_max ->
     extension <= timedelta_max_days ->
     result (repeatedly n handle_no_response) w = Ok tt
     /\ stored (run (repeatedly n handle_no_response) w) name
        = Some (set_due_date (due + timedelta (Z.of_nat n * extension)) r))
  /\ (forall syl task,
        sp_due_date r = None ->
        syllabus_of w name = Some syl ->
        py_index (syl_tasks syl) (sp_current_week r - 1) = Some task ->
        answers_only handle_no_response w (MsgKeepWorking task)).
Proof.
  intros Hsel Hrec extension. split.
  - intros due Hdue Hpos Hmax Hext.
    apply (wp_run (repeatedly n handle_no_response) w
             (fun o w' => o = Ok tt /\ stored w' name = _)).
    apply defer_repeatedly; auto.
    fold extension. intros k Hk.
    assert (3 <= extension) by (unfold extension; lia).
    unfold representable.
    rewrite (proj2 (Z.leb_le (Z.abs extension) _)) by lia.
    assert (Hstep : timedelta (Z.of_nat k * extension) + timedelta extension
                    <= timedelta (Z.of_nat n * extension)).
    { unfold timedelta. pose proof usec_per_day_pos. nia. }
    assert (0 <= timedelta (Z.of_nat k * extension)).
    { unfold timedelta. pose proof usec_per_day_pos. nia. }
    assert (0 <= timedelta extension).
    { unfold timedelta. pose proof usec_per_day_pos. nia. }
    rewrite (proj2 (Z.leb_le 0 _)), (proj2 (Z.leb_le _ datetime_max)) by lia.
    reflexivity.
  - intros syl task Hdue Hsyl Htask.
    by apply (defer_without_due_date w name r Hsel Hrec syl task).
Qed.

Lemma deferrals_add_up_witness :
  let w := Examples.world "Math" Examples.math_in_progress
             (Examples.T0 + Examples.day 5) in
  stored (run (repeatedly 4 handle_no_response) w) "Math"
  = Some (set_due_date (Examples.T0 + Examples.day 7 + timedelta 12)
                       Examples.math_in_progress).
Proof.
  intros w.
  refine (proj2 (proj1 (deferrals_add_up w "Math" Examples.math_in_progress 4
                          _ _) (Examples.T0 + Examples.day 7) _ _ _ _)).
  - split; [discriminate | vm_compute; reflexivity].
  - vm_compute. reflexivity.
  - reflexivity.
  - vm_compute. discriminate.
  - vm_compute. discriminate.
  - vm_compute. discriminate.
Defined.

(** ** What the records always satisfy *)

Lemma sane_set_current_week_1 : keeps_sane (set_current_week 1).
Proof. intros r (H1 & H2 & H3). split; [cbn; lia|]. by split. Qed.

Lemma sane_next_week :
  keeps_sane (fun r => set_current_week (sp_current_week r + 1) r).
Proof. intros r (H1 & H2 & H3). split; [cbn; lia|]. by split. Qed.

Lemma sane_set_due_date v : keeps_sane (set_due_date v).
Proof.
  intros r (H1 & H2 & H3). split; [exact H1|]. split; [exact H2|].
  by eexists.
Qed.

Lemma sane_record_completion_date k t : keeps_sane (record_completion_date k t).
Proof. intros r H. exact H. Qed.

Lemma sane_fresh a b : record_sane (fresh_record a b).
Proof.
  split; [cbn; lia|]. split; [apply NoDup_nil_2 | by eexists].
Qed.

Lemma sane_append k r :
  mem k (sp_completed_weeks r) = false ->
  record_sane r -> record_sane (append_completed k r).
Proof.
  intros Hk (H1 & H2 & H3). split; [exact H1|]. split; [|exact H3]. cbn.
  apply NoDup_app. split; [exact H2|]. split; [|apply NoDup_singleton].
  intros x Hx Hx'. apply list_elem_of_singleton in Hx'. subst x.
  unfold mem in Hk. by apply bool_decide_eq_false_1 in Hk.
Qed.

Lemma table_sane_loaded w :
  progress_sane w -> table_sane (default ∅ (loaded_table w)).
Proof. intros H name r Hr. rewrite loaded_lookup in Hr. eauto. Qed.

Lemma table_sane_alter f n t :
  keeps_sane f -> table_sane t -> table_sane (alter f n t).
Proof.
  intros Hf Ht name r Hr.
  destruct (decide (n = name)) as [->|Hne].
  - rewrite lookup_alter_eq in Hr.
    destruct (t !! name) as [r0|] eqn:E; [|discriminate].
    injection Hr as <-. apply Hf. eauto.
  - rewrite lookup_alter_ne in Hr by done. eauto.
Qed.

Lemma table_sane_alter_at f n t r :
  table_sane t ->
  t !! n = Some r ->
  (record_sane r -> record_sane (f r)) ->
  table_sane (alter f n t).
Proof.
  intros Ht Hn Hf name r' Hr.
  destruct (decide (n = name)) as [->|Hne].
  - rewrite lookup_alter_eq, Hn in Hr. injection Hr as <-. eauto.
  - rewrite lookup_alter_ne in Hr by done. eauto.
Qed.

Lemma table_sane_insert_fresh n a b t :
  table_sane t -> table_sane (<[n := fresh_record a b]> t).
Proof.
  intros Ht name r Hr.
  destruct (decide (n = name)) as [->|Hne].
  - rewrite lookup_insert_eq in Hr. injection Hr as <-. apply sane_fresh.
  - rewrite lookup_insert_ne in Hr by done. eauto.
Qed.

Lemma sane_saved sj gs t c k s :
  table_sane t ->
  progress_sane (mkWorld sj (Some (mkProgressDoc gs (Some t))) c k s).
Proof. intros Ht name r Hr. by apply (Ht name r). Qed.

Lemma sane_same w sj c k s :
  progress_sane w -> progress_sane (mkWorld sj (progress_json w) c k s).
Proof. intros Hw name r Hr. by apply (Hw name r). Qed.

Lemma sane_loaded w sj gs c k s :
  progress_sane w ->
  progress_sane (mkWorld sj (Some (mkProgressDoc gs (loaded_table w))) c k s).
Proof.
  intros Hw name r Hr. rewrite stored_loaded_table in Hr. eauto.
Qed.

Lemma sane_reset w sj gs n a b c k s :
  progress_sane w ->
  progress_sane
    (mkWorld sj (Some (mkProgressDoc gs (insert n (fresh_record a b)
                                           <$> loaded_table w))) c k s).
Proof.
  intros Hw.
  destruct (loaded_table w) as [t|] eqn:E.
  - apply sane_saved, table_sane_insert_fresh.
    pose proof (table_sane_loaded w Hw) as H. by rewrite E in H.
  - intros name r Hr. discriminate Hr.
Qed.

Ltac sane_change :=
  first [ apply sane_set_current_week_1
        | apply sane_next_week
        | apply sane_set_due_date
        | apply sane_record_completion_date ].

Ltac keeps_sane_table :=
  repeat first [ apply table_sane_alter; [sane_change|]
               | apply table_sane_insert_fresh ];
  try (by apply table_sane_loaded).

Ltac stays_sane Hsane :=
  lazymatch goal with
  | |- progress_sane (mkWorld _ (progress_json _) _ _ _) =>
      apply sane_same; exact Hsane
  | |- progress_sane (mkWorld _ (Some (mkProgressDoc _ (Some _))) _ _ _) =>
      apply sane_saved; keeps_sane_table
  | |- progress_sane
         (mkWorld _ (Some (mkProgressDoc _ (loaded_table _))) _ _ _) =>
      apply sane_loaded; exact Hsane
  | |- progress_sane (mkWorld _ (Some (mkProgressDoc _ (_ <$> _))) _ _ _) =>
      apply sane_reset; exact Hsane
  end.

Section Sane.
Variable w : World.
Hypothesis Hsane : progress_sane w.

Ltac sane h :=
  apply (wp_run h w (fun _ w' => progress_sane w'));
  let hd := head_of h in unfold hd; wp_auto; stays_sane Hsane.

Lemma select_sane name : progress_sane (run (start_syllabus_callback name) w).
Proof using Hsane. sane (start_syllabus_callback name). Qed.

Lemma switch_sane name : progress_sane (run (switch_syllabus_callback name) w).
Proof using Hsane. sane (switch_syllabus_callback name). Qed.

Lemma current_sane : progress_sane (run current_week w).
Proof using Hsane. sane current_week. Qed.

Lemma check_sane : progress_sane (run check_progress w).
Proof using Hsane. sane check_progress. Qed.

Lemma no_sane : progress_sane (run handle_no_response w).
Proof using Hsane. sane handle_no_response. Qed.

Lemma reset_sane : progress_sane (run handle_reset_yes w).
Proof using Hsane. sane handle_reset_yes. Qed.

Lemma pause_sane name : progress_sane (run (pause_syllabus_callback name) w).
Proof using Hsane. sane (pause_syllabus_callback name). Qed.

Lemma resume_sane name : progress_sane (run (resume_syllabus_callback name) w).
Proof using Hsane. sane (resume_syllabus_callback name). Qed.

Lemma toggle_sane : progress_sane (run toggle_reminders w).
Proof using Hsane. sane toggle_reminders. Qed.

Lemma set_interval_sane args :
  progress_sane (run (set_reminder_interval args) w).
Proof using Hsane. sane (set_reminder_interval args). Qed.

Lemma statistics_sane : progress_sane (run show_statistics w).
Proof using Hsane. sane show_statistics. Qed.

Lemma daily_sane chat_id : progress_sane (run (check_due_dates chat_id) w).
Proof using Hsane. sane (check_due_dates chat_id). Qed.

Lemma yes_sane : progress_sane (run handle_yes_response w).
Proof using Hsane.
  apply (wp_run handle_yes_response w (fun _ w' => progress_sane w')).
  unfold handle_yes_response. wp_go.
  destruct (bool_decide _); wp_go; [stays_sane Hsane|].
  set (field := cat_current_field (catalog_of w)).
  rewrite loaded_lookup.
  destruct (stored w field) as [r|] eqn:Hr; wp_go.
  - destruct (mem _ _) eqn:Hmem; wp_go;
      rewrite !lookup_alter_eq, loaded_lookup, Hr;
      cbn [fmap option_fmap option_map]; wp_auto;
      try stays_sane Hsane.
    all: apply (table_sane_alter_at _ _ _ r);
      [by apply table_sane_loaded | by rewrite loaded_lookup
      | by apply sane_append].
  - destruct (representable _ _) eqn:Hrep; wp_go; [|stays_sane Hsane].
    set (fresh_one := fresh_record _ _).
    destruct (mem _ _) eqn:Hmem; wp_go;
      rewrite !lookup_alter_eq, lookup_insert_eq;
      cbn [fmap option_fmap option_map]; wp_auto;
      try stays_sane Hsane.
    all: apply (table_sane_alter_at _ _ _ fresh_one);
      [by apply table_sane_insert_fresh, table_sane_loaded
      | by rewrite lookup_insert_eq
      | by apply sane_append].
Qed.
End Sane.

(** Every operation of the engine, the "yes" button included and with no
    condition on when it is pressed, keeps every progress record with a week
    from 1 on, without an index completed twice, and with a due date. *)
Theorem engine_keeps_records_sane (op : Operation) (w : World) :
  progress_sane w -> progress_sane (run (handler_of op) w).
Proof.
  intros Hsane. destruct op; cbn [handler_of].
  - by apply select_sane.
  - by apply switch_sane.
  - by apply current_sane.
  - by apply check_sane.
  - by apply yes_sane.
  - by apply no_sane.
  - by apply reset_sane.
  - by apply pause_sane.
  - by apply resume_sane.
  - by apply toggle_sane.
  - by apply set_interval_sane.
  - by apply statistics_sane.
  - by apply daily_sane.
Qed.

Lemma example_sane current r t :
  record_sane r -> progress_sane (Examples.world current r t).
Proof.
  intros Hr name r' Hr'.
  change (({[ "Math" := r ]} : gmap string SyllabusProgress) !! name = Some r')
    in Hr'.
  by apply lookup_singleton_Some in Hr' as [_ <-].
Qed.

Lemma engine_keeps_records_sane_witness :
  progress_sane
    (run handle_yes_response
         (Examples.world "Math" Examples.math_completed
                         (Examples.T0 + Examples.day 5))).
Proof.
  apply (engine_keeps_records_sane Yes).
  apply example_sane. repeat split.
  - vm_compute. discriminate.
  - apply (bool_decide_unpack (NoDup [0; 1; 2])). vm_compute. exact I.
  - by eexists.
Defined.

(** ** The handlers that only answer *)

Lemma wp_completed_lines tasks dates weeks w :
  Forall (fun i => 0 <= i) weeks ->
  wp (completed_lines tasks dates weeks) w (fun o w' =>
    w' = w
    /\ exists lines,
         o = Ok lines
         /\ Forall2 (line_of tasks dates)
                    (filter (fun i => i < len tasks) weeks) lines).
Proof.
  induction 1 as [|i rest Hi Hrest IH]; cbn [completed_lines].
  - apply wp_ret. split; [reflexivity|]. exists []. split; [reflexivity|].
    constructor.
  - rewrite filter_cons. destruct (Z.ltb_spec i (len tasks)) as [Hlt|Hge].
    + rewrite decide_True by done.
      apply wp_bind, wp_index. rewrite py_index_in_range by lia.
      destruct (tasks !! Z.to_nat i) as [task|] eqn:Htask.
      * apply wp_bind. eapply wp_mono; [exact IH|].
        cbn beta. intros o w' (-> & lines & -> & Hlines).
        apply wp_ret. split; [reflexivity|].
        eexists. split; [reflexivity|]. constructor; [|exact Hlines].
        split; [exact Htask | reflexivity].
      * apply lookup_ge_None in Htask. unfold len in Hlt. lia.
    + rewrite decide_False by lia. exact IH.
Qed.

Section Completed.
Variables (w : World) (name : string) (syl : Syllabus) (r : SyllabusProgress).
Hypothesis Hsel : selected w name.
Hypothesis Hsyl : syllabus_of w name = Some syl.
Hypothesis Hunpaused : is_paused syl = false.
Hypothesis Hrec : stored w name = Some r.
Hypothesis Hweeks : Forall (fun i => 0 <= i) (sp_completed_weeks r).

Lemma completed_listing :
  wp show_completed w (fun o w' =>
    syllabi_json w' = syllabi_json w
    /\ progress_json w' = progress_json w
    /\ sent w' = sent w
    /\ exists lines,
         Forall2 (line_of (syl_tasks syl) (sp_completion_dates r))
                 (filter (fun i => i < len (syl_tasks syl))
                         (sp_completed_weeks r)) lines
         /\ o = Ok (Some match lines with
                         | [] => ViewNothingCompleted
                         | _ :: _ => ViewCompleted name lines
                         end)).
Proof using All.
  pose proof Hsyl as Hsyl'. unfold syllabus_of in Hsyl'.
  unfold show_completed, handle_errors_view. wp_go.
  rewrite (not_selected_empty w name Hsel).
  pose proof Hsel as [_ Hcur]. rewrite Hcur, Hsyl', Hunpaused.
  wp_go. rewrite loaded_lookup, Hrec. wp_go. rewrite Hsyl'. wp_go.
  eapply wp_mono; [apply wp_completed_lines; exact Hweeks|].
  cbn beta. intros o w' (-> & lines & -> & Hlines).
  destruct lines as [|line lines]; wp_go; eauto 10.
Qed.
End Completed.

(** [/completed] for the selected, unpaused syllabus lists the completed
    indices in the order of completion, one line for each index below the
    number of tasks -- the task at that index and the day of its completion
    date when one is recorded -- and skips the others; with no line to show
    it says that nothing is completed yet.  It sends nothing else and writes
    no document.  The indices are taken to be non-negative. *)
Theorem completed_lists_the_tasks (w : World) (name : string) (syl : Syllabus)
    (r : SyllabusProgress) :
  selected w name ->
  syllabus_of w name = Some syl ->
  is_paused syl = false ->
  stored w name = Some r ->
  Forall (fun i => 0 <= i) (sp_completed_weeks r) ->
  let w' := run show_completed w in
  syllabi_json w' = syllabi_json w
  /\ progress_json w' = progress_json w
  /\ sent w' = sent w
  /\ exists lines,
       Forall2 (line_of (syl_tasks syl) (sp_completion_dates r))
               (filter (fun i => i < len (syl_tasks syl))
                       (sp_completed_weeks r)) lines
       /\ result show_completed w
          = Ok (Some match lines with
                     | [] => ViewNothingCompleted
                     | _ :: _ => ViewCompleted name lines
                     end).
Proof.
  intros Hsel Hsyl Hp Hr Hweeks.
  exact (wp_run _ _ _ (completed_listing w name syl r Hsel Hsyl Hp Hr Hweeks)).
Qed.

(** After "yes" was pressed once more when all three tasks were done: the
    index 3 is among the completed ones and has no line. *)
Lemma completed_lists_the_tasks_witness :
  let w := run handle_yes_response
               (Examples.world "Math" Examples.math_completed
                               (Examples.T0 + Examples.day 5)) in
  exists lines,
    Forall2 (line_of ["Algebra"; "Geometry"; "Calculus"]
               (Some (<[3 := Examples.T0 + Examples.day 5]>
                        (<[0 := Examples.T0 + Examples.day 1]>
                           (<[1 := Examples.T0 + Examples.day 2]>
                              {[ 2 := Examples.T0 + Examples.day 3 ]})))))
            [0; 1; 2] lines
    /\ result show_completed w
       = Ok (Some match lines with
                  | [] => ViewNothingCompleted
                  | _ :: _ => ViewCompleted "Math" lines
                  end).
Proof.
  intros w.
  refine (proj2 (proj2 (proj2
    (completed_lists_the_tasks w "Math" Examples.math
       (mkProgress 5 [0; 1; 2; 3]
          (Some (<[3 := Examples.T0 + Examples.day 5]>
                   (<[0 := Examples.T0 + Examples.day 1]>
                      (<[1 := Examples.T0 + Examples.day 2]>
                         {[ 2 := Examples.T0 + Examples.day 3 ]}))))
          Examples.T0 (Some (Examples.T0 + Examples.day 12 + 1000000)))
       _ _ _ _ _)))).
  - split; [discriminate | vm_compute; reflexivity].
  - vm_compute. reflexivity.
  - reflexivity.
  - vm_compute. reflexivity.
  - repeat constructor; vm_compute; discriminate.
Defined.

Lemma numbered_lookup tasks (i : nat) :
  numbered tasks !! i = (fun task => (Z.of_nat i + 1, task)) <$> tasks !! i.
Proof.
  exact (list_lookup_imap (fun i task => (Z.of_nat i + 1, task)) tasks i).
Qed.

(** The details of a syllabus of the catalog are shown whether or not it
    is selected or paused: its tasks numbered from 1, their number, and --
    only when it has a progress record -- the number of completed tasks and
    the current week, shown as "Completed" exactly when it is past the
    number of tasks.  Showing writes no document: unlike the other handlers
    it does not create a missing record. *)
Theorem syllabus_details (w : World) (name : string) (syl : Syllabus) :
  syllabus_of w name = Some syl ->
  let w' := run (show_syllabus_callback name) w in
  let total := len (syl_tasks syl) in
  syllabi_json w' = syllabi_json w
  /\ progress_json w' = progress_json w
  /\ sent w' = sent w
  /\ exists d,
       result (show_syllabus_callback name) w = Ok (Some (ViewSyllabus d))
       /\ sd_field d = name
       /\ sd_paused d = is_paused syl
       /\ sd_total_weeks d = total
       /\ (forall i : nat,
             sd_tasks d !! i
             = (fun task => (Z.of_nat i + 1, task)) <$> syl_tasks syl !! i)
       /\ sd_progress d
          = (fun r => (len (sp_completed_weeks r), total,
                       if total <? sp_current_week r then None
                       else Some (sp_current_week r)))
            <$> stored w name.
Proof.
  intros Hsyl w' total. unfold syllabus_of in Hsyl.
  apply (wp_run (show_syllabus_callback name) w
           (fun o w' => syllabi_json w' = _ /\ progress_json w' = _
                        /\ sent w' = _ /\ exists d, o = _ /\ _)).
  unfold show_syllabus_callback, handle_errors_view.
  wp_go. rewrite Hsyl. wp_go. fold (loaded w). rewrite record_of_loaded.
  repeat split; auto.
  eexists. split; [reflexivity|]. cbn [sd_field sd_paused sd_total_weeks
                                       sd_tasks sd_progress].
  split; [reflexivity|]. split; [reflexivity|]. split; [reflexivity|].
  split; [intros i; apply numbered_lookup|].
  by destruct (stored w name).
Qed.

Lemma syllabus_details_witness :
  let w := Examples.world "" Examples.math_completed Examples.T0 in
  exists d,
    result (show_syllabus_callback "Math") w = Ok (Some (ViewSyllabus d))
    /\ sd_progress d = Some (3, 3, None).
Proof.
  intros w.
  destruct (syllabus_details w "Math" Examples.math)
    as (_ & _ & _ & d & Hd & _ & _ & _ & _ & Hp).
  - vm_compute. reflexivity.
  - exists d. split; [exact Hd|]. rewrite Hp. vm_compute. reflexivity.
Defined.

(** ** From the callback data to the callback *)

Lemma remove_from_without old s :
  occurs old s = false -> remove_from 0 old s = s.
Proof.
  induction s as [|c s IH]; [reflexivity|].
  cbn [occurs remove_from]. intros H.
  apply orb_false_elim in H as [-> H]. by rewrite IH.
Qed.

Lemma remove_from_shorter old s :
  forall skip, (String.length (remove_from skip old s) <= String.length s)%nat.
Proof.
  induction s as [|c s IH]; intros skip; cbn [remove_from String.length];
    [lia|].
  destruct skip as [|k].
  - destruct (startswith _ _); [specialize (IH (String.length old - 1)%nat)|];
      cbn [String.length]; [lia|]. specialize (IH 0%nat). lia.
  - specialize (IH k). lia.
Qed.

Lemma remove_from_cut a old s :
  occurs (String a old) s = true ->
  (String.length (remove_from 0 (String a old) s) < String.length s)%nat.
Proof.
  induction s as [|c s IH]; [discriminate|].
  cbn [occurs remove_from]. intros H.
  destruct (startswith (String c s) (String a old)) eqn:Hs.
  - pose proof (remove_from_shorter (String a old) s
                  (String.length (String a old) - 1)).
    cbn [String.length] in *. lia.
  - cbn [orb] in H. specialize (IH H). cbn [String.length]. lia.
Qed.

(** The data of a menu button is the prefix of its menu followed by the
    name of the syllabus; [button_handler] passes it to the callback of that
    menu, which takes the name to be the data with every occurrence of the
    prefix removed.  For a name in which the prefix does not occur that is
    the name: each of the five kinds of button reaches its callback with
    the name its menu put on it. *)
Theorem buttons_reach_their_callback (name : string) :
  (occurs "start_" name = false ->
   button_handler ("start_" ++ name) = engine (start_syllabus_callback name))
  /\ (occurs "show_" name = false ->
      button_handler ("show_" ++ name) = show_syllabus_callback name)
  /\ (occurs "switch_" name = false ->
      button_handler ("switch_" ++ name)
      = engine (switch_syllabus_callback name))
  /\ (occurs "pause_" name = false ->
      button_handler ("pause_" ++ name)
      = engine (pause_syllabus_callback name))
  /\ (occurs "resume_" name = false ->
      button_handler ("resume_" ++ name)
      = engine (resume_syllabus_callback name)).
Proof.
  repeat split; intros H.
  - change (button_handler ("start_" ++ name))
      with (engine (start_syllabus_callback (remove_from 0 "start_" name))).
    by rewrite remove_from_without.
  - change (button_handler ("show_" ++ name))
      with (show_syllabus_callback (remove_from 0 "show_" name)).
    by rewrite remove_from_without.
  - change (button_handler ("switch_" ++ name))
      with (engine (switch_syllabus_callback (remove_from 0 "switch_" name))).
    by rewrite remove_from_without.
  - change (button_handler ("pause_" ++ name))
      with (engine (pause_syllabus_callback (remove_from 0 "pause_" name))).
    by rewrite remove_from_without.
  - change (button_handler ("resume_" ++ name))
      with (engine (resume_syllabus_callback (remove_from 0 "resume_" name))).
    by rewrite remove_from_without.
Qed.

Lemma buttons_reach_their_callback_witness :
  button_handler "switch_Math" = engine (switch_syllabus_callback "Math").
Proof.
  apply (proj1 (proj2 (proj2 (buttons_reach_their_callback "Math")))).
  reflexivity.
Defined.

(** A syllabus whose name contains the prefix of a menu cannot be reached
    through that menu: the callback is run on a strictly shorter name, the
    data with every occurrence of the prefix removed. *)
Theorem prefix_in_a_name_is_cut (name : string) :
  (occurs "start_" name = true ->
   exists other,
     (String.length other < String.length name)%nat
     /\ button_handler ("start_" ++ name)
        = engine (start_syllabus_callback other))
  /\ (occurs "show_" name = true ->
      exists other,
        (String.length other < String.length name)%nat
        /\ button_handler ("show_" ++ name) = show_syllabus_callback other)
  /\ (occurs "switch_" name = true ->
      exists other,
        (String.length other < String.length name)%nat
        /\ button_handler ("switch_" ++ name)
           = engine (switch_syllabus_callback other))
  /\ (occurs "pause_" name = true ->
      exists other,
        (String.length other < String.length name)%nat
        /\ button_handler ("pause_" ++ name)
           = engine (pause_syllabus_callback other))
  /\ (occurs "resume_" name = true ->
      exists other,
        (String.length other < String.length name)%nat
        /\ button_handler ("resume_" ++ name)
           = engine (resume_syllabus_callback other)).
Proof.
  repeat split; intros H.
  - exists (remove_from 0 "start_" name).
    split; [by apply remove_from_cut | reflexivity].
  - exists (remove_from 0 "show_" name).
    split; [by apply remove_from_cut | reflexivity].
  - exists (remove_from 0 "switch_" name).
    split; [by apply remove_from_cut | reflexivity].
  - exists (remove_from 0 "pause_" name).
    split; [by apply remove_from_cut | reflexivity].
  - exists (remove_from 0 "resume_" name).
    split; [by apply remove_from_cut | reflexivity].
Qed.

(** The button of a syllabus named "restart_plan" selects "replan". *)
Lemma prefix_in_a_name_is_cut_witness :
  exists other,
    (String.length other < String.length "restart_plan")%nat
    /\ button_handler "start_restart_plan"
       = engine (start_syllabus_callback other).
Proof.
  apply (proj1 (prefix_in_a_name_is_cut "restart_plan")). reflexivity.
Defined.

(** ** Every update is answered *)

Ltac replies h :=
  intros w; let hd := head_of h in unfold hd; wp_auto;
  first [reflexivity | eexists; reflexivity].

Lemma select_replies name : replies_once (start_syllabus_callback name).
Proof. replies (start_syllabus_callback name). Qed.

Lemma switch_replies name : replies_once (switch_syllabus_callback name).
Proof. replies (switch_syllabus_callback name). Qed.

Lemma current_replies : replies_once current_week.
Proof. replies current_week. Qed.

Lemma check_replies : replies_once check_progress.
Proof. replies check_progress. Qed.

Lemma no_replies : replies_once handle_no_response.
Proof. replies handle_no_response. Qed.

Lemma reset_replies : replies_once handle_reset_yes.
Proof. replies handle_reset_yes. Qed.

Lemma pause_replies name : replies_once (pause_syllabus_callback name).
Proof. replies (pause_syllabus_callback name). Qed.

Lemma resume_replies name : replies_once (resume_syllabus_callback name).
Proof. replies (resume_syllabus_callback name). Qed.

Lemma toggle_replies : replies_once toggle_reminders.
Proof. replies toggle_reminders. Qed.

Lemma set_interval_replies args : replies_once (set_reminder_interval args).
Proof. replies (set_reminder_interval args). Qed.

Lemma statistics_replies : replies_once show_statistics.
Proof. replies show_statistics. Qed.

Lemma yes_replies : replies_once handle_yes_response.
Proof.
  intros w. unfold handle_yes_response. wp_go.
  destruct (bool_decide _); wp_go; [eexists; reflexivity|].
  wp_case; wp_go; [|wp_case; wp_go; [|eexists; reflexivity]].
  all: destruct (mem _ _); wp_auto; eexists; reflexivity.
Qed.

Lemma engine_answered h w :
  replies_once h ->
  wp (try_except (engine h) error_handler) w (fun o w' =>
    exists v, o = Ok v /\ answered_once w w' v).
Proof.
  intros Hh. apply wp_try_except. unfold engine. apply wp_bind.
  eapply wp_mono; [apply Hh|].
  intros [[]|e] w' H.
  - apply wp_ret. by exists None.
  - unfold error_handler. apply wp_ret. by exists (Some ViewSorry).
Qed.

Lemma completed_lines_pure tasks dates weeks :
  forall w, wp (completed_lines tasks dates weeks) w (fun _ w' => w' = w).
Proof.
  induction weeks as [|i rest IH]; intros w; cbn [completed_lines].
  - by apply wp_ret.
  - destruct (i <? len tasks); [|apply IH].
    apply wp_bind, wp_index. destruct (py_index tasks i); [|reflexivity].
    apply wp_bind. eapply wp_mono; [apply IH|].
    cbn beta. intros [lines|e] w' ->; [by apply wp_ret | reflexivity].
Qed.

Ltac shown := repeat split; auto; discriminate.

Lemma menu_shows k : shows true (menu k).
Proof. intros w. unfold menu, handle_errors_view. wp_auto; shown. Qed.

Lemma help_shows : shows true help_command.
Proof. intros w. unfold help_command, handle_errors_view. wp_auto; shown. Qed.

Lemma reset_prompt_shows : shows true reset_progress.
Proof. intros w. unfold reset_progress, handle_errors_view. wp_auto; shown. Qed.

Lemma completed_shows : shows true show_completed.
Proof.
  intros w. unfold show_completed, handle_errors_view. wp_go.
  destruct (bool_decide _); wp_go; [shown|].
  wp_case; wp_go; [|shown]. wp_case; wp_go; [shown|].
  wp_case; wp_go.
  - wp_case; wp_go; [|shown].
    eapply wp_mono; [apply completed_lines_pure|].
    cbn beta. intros [[|line lines]|e] w' ->; wp_go; shown.
  - wp_case; wp_go; [|shown]. wp_case; wp_go; [|shown].
    eapply wp_mono; [apply completed_lines_pure|].
    cbn beta. intros [[|line lines]|e] w' ->; wp_go; shown.
Qed.

Lemma details_show name : shows false (show_syllabus_callback name).
Proof.
  intros w. unfold show_syllabus_callback, handle_errors_view.
  wp_auto; shown.
Qed.

Lemma shown_answered strict m w :
  shows strict m ->
  wp (try_except m error_handler) w (fun o w' =>
    sent w' = sent w
    /\ syllabi_json w' = syllabi_json w
    /\ progress_json w' = progress_json w
    /\ exists v, o = Ok v /\ (strict = true -> answered_once w w' v)).
Proof.
  intros Hm. apply wp_try_except. eapply wp_mono; [apply Hm|].
  cbn beta. intros [v|e] w' (H1 & H2 & H3 & H4).
  - repeat split; auto. exists v. split; [reflexivity|]. intros Hs.
    destruct v as [v|]; [exact H1|]. by destruct (H4 Hs).
  - unfold error_handler. apply wp_ret. repeat split; auto.
    by exists (Some ViewSorry).
Qed.

Ltac by_engine H :=
  eapply wp_mono; [apply engine_answered, H|];
  cbn beta; intros o w' (v & -> & Hv); exists v; auto.

Ltac by_view H :=
  eapply wp_mono; [apply (shown_answered true), H|];
  cbn beta; intros o w' (_ & _ & _ & v & -> & Hv); exists v; auto.

Lemma command_answered c w :
  wp (process_update (OnCommand c)) w (fun o w' =>
    exists v, o = Ok v /\ answered_once w w' v).
Proof.
  unfold process_update. destruct c; cbn [command_handler].
  - by_view (menu_shows StartMenu).
  - by_view help_shows.
  - by_engine current_replies.
  - by_view completed_shows.
  - by_engine check_replies.
  - by_view reset_prompt_shows.
  - by_view (menu_shows ShowAllMenu).
  - by_view (menu_shows SwitchMenu).
  - by_view (menu_shows PauseMenu).
  - by_view (menu_shows ResumeMenu).
  - by_engine toggle_replies.
  - by_engine (set_interval_replies args).
  - by_engine statistics_replies.
Qed.

Lemma button_answered data w :
  wp (process_update (OnButton data)) w (fun o w' =>
    exists v, o = Ok v
              /\ (answered_once w w' v \/ v = None /\ sent w' = sent w)).
Proof.
  unfold process_update, button_handler.
  repeat match goal with
         | |- wp (try_except (if ?b then _ else _) _) _ _ => destruct b
         end.
  1, 3-8: eapply wp_mono;
    [apply engine_answered;
     first [ apply select_replies | apply switch_replies | apply pause_replies
           | apply resume_replies | apply yes_replies | apply no_replies
           | apply reset_replies ]|];
    cbn beta; intros o w' (v & -> & Hv); exists v; auto.
  - eapply wp_mono; [apply (shown_answered false), details_show|].
    cbn beta. intros o w' (Hs & _ & _ & v & -> & _). exists v.
    split; [reflexivity|]. destruct v; [left; exact Hs | right; auto].
  - unfold handle_reset_no. wp_go. exists (Some ViewResetCancelled).
    split; [reflexivity|]. left. reflexivity.
  - wp_go. exists None. auto.
Qed.

(** No update goes unhandled and none is answered twice: whatever the
    documents hold, a command or a text ends normally with exactly one
    answer -- the handler's own, the report of the decorator, or the "Sorry"
    of the error handler when the callback let an exception escape -- and a
    button press with at most one (none for the details of a name the
    catalog does not have and for data no button carries). *)
Theorem every_update_is_answered (u : Update) (w : World) :
  let w' := run (process_update u) w in
  exists v,
    result (process_update u) w = Ok v
    /\ (answered_once w w' v \/ v = None /\ sent w' = sent w)
    /\ match u with
       | OnButton _ => True
       | OnCommand _ | OnText _ => answered_once w w' v
       end.
Proof.
  intros w'. subst w'. destruct u as [c|data|text].
  - destruct (wp_run _ _ _ (command_answered c w)) as (v & Hv & Hon).
    exists v. auto.
  - destruct (wp_run _ _ _ (button_answered data w)) as (v & Hv & Hon).
    exists v. auto.
  - exists (Some (ViewEcho text)). repeat split. left. reflexivity.
Qed.

(** ** The updates that only read *)

Ltac saved_nothing h :=
  intros w; let hd := head_of h in unfold hd; wp_auto; auto.

Lemma current_saves_nothing : saves_nothing current_week.
Proof. saved_nothing current_week. Qed.

Lemma check_saves_nothing : saves_nothing check_progress.
Proof. saved_nothing check_progress. Qed.

Lemma statistics_saves_nothing : saves_nothing show_statistics.
Proof. saved_nothing show_statistics. Qed.

Lemma engine_reads h w :
  saves_nothing h ->
  wp (try_except (engine h) error_handler) w (fun _ w' =>
    syllabi_json w' = syllabi_json w /\ progress_json w' = progress_json w).
Proof.
  intros Hh. apply wp_try_except. unfold engine. apply wp_bind.
  eapply wp_mono; [apply Hh|].
  intros [[]|e] w' H; [by apply wp_ret|].
  unfold error_handler. by apply wp_ret.
Qed.

Lemma view_reads strict m w :
  shows strict m ->
  wp (try_except m error_handler) w (fun _ w' =>
    syllabi_json w' = syllabi_json w /\ progress_json w' = progress_json w).
Proof.
  intros Hm. eapply wp_mono; [apply (shown_answered strict), Hm|].
  cbn beta. intros o w' (_ & H1 & H2 & _). auto.
Qed.

(** Looking never changes anything: [/start], [/help], [/current],
    [/completed], [/check], [/reset], [/statistics], the four menus, the
    details of a syllabus, the cancelled reset, a text and data no button
    carries leave [syllabi.json] and [progress.json] exactly as they were,
    also when the handler ends in an error -- the record and the settings
    that [load_progress] and [get_syllabus_progress] make up for a missing
    one are never saved by them. *)
Theorem looking_changes_nothing (u : Update) (w : World) :
  read_only u = true ->
  syllabi_json (run (process_update u) w) = syllabi_json w
  /\ progress_json (run (process_update u) w) = progress_json w.
Proof.
  intros Hro.
  apply (wp_run (process_update u) w
           (fun _ w' => syllabi_json w' = _ /\ progress_json w' = _)).
  unfold process_update. destruct u as [c|data|text].
  - destruct c; try discriminate Hro; cbn [command_handler].
    + apply (view_reads true), menu_shows.
    + apply (view_reads true), help_shows.
    + apply engine_reads, current_saves_nothing.
    + apply (view_reads true), completed_shows.
    + apply engine_reads, check_saves_nothing.
    + apply (view_reads true), reset_prompt_shows.
    + apply (view_reads true), menu_shows.
    + apply (view_reads true), menu_shows.
    + apply (view_reads true), menu_shows.
    + apply (view_reads true), menu_shows.
    + apply engine_reads, statistics_saves_nothing.
  - cbn [read_only] in Hro. unfold button_handler.
    destruct (startswith data "start_"); [discriminate|].
    destruct (startswith data "show_");
      [apply (view_reads false), details_show|].
    destruct (startswith data "switch_"); [discriminate|].
    destruct (startswith data "pause_"); [discriminate|].
    destruct (startswith data "resume_"); [discriminate|].
    destruct (bool_decide (data = "yes")); [discriminate|].
    destruct (bool_decide (data = "no")); [discriminate|].
    destruct (bool_decide (data = "reset_yes")); [discriminate|].
    unfold handle_reset_no.
    destruct (bool_decide (data = "reset_no")); wp_go; auto.
  - unfold echo. wp_go. auto.
Qed.

(** [/current] on the first run, before [progress.json] exists. *)
Lemma looking_changes_nothing_witness :
  progress_json (run (process_update (OnCommand CmdCurrent))
                     (Examples.world "Math" Examples.math_fresh Examples.T0))
  = Some (Examples.document Examples.math_fresh)
  /\ progress_json (run (process_update (OnCommand CmdStatistics))
                        (mkWorld (Some (Examples.catalog "Math")) None
                                 (Examples.clock_from Examples.T0) 0 []))
     = None.
Proof.
  split.
  - apply (looking_changes_nothing (OnCommand CmdCurrent)). reflexivity.
  - apply (looking_changes_nothing (OnCommand CmdStatistics)
             (mkWorld (Some (Examples.catalog "Math")) None
                      (Examples.clock_from Examples.T0) 0 [])).
    reflexivity.
Defined.

(** ** The days a selection announces *)

Lemma days_a_day_less t t' n :
  t < t' <= t + timedelta 1 -> days (t + timedelta n - t') = n - 1.
Proof.
  intros H. unfold days, timedelta in *. pose proof usec_per_day_pos.
  symmetry. apply (Z.div_unique_pos _ _ _ (usec_per_day - (t' - t))); lia.
Qed.

Lemma first_task_in_range {A} (first : A) rest :
  (len (first :: rest) <=? 1 - 1) = false.
Proof. apply Z.leb_gt. rewrite len_cons. pose proof (len_nonneg rest). lia. Qed.

Section Announced.
Variables (w : World) (name : string) (syl : Syllabus)
          (first : string) (rest : list string).
Hypothesis Hexists : syllabus_of w name = Some syl.
Hypothesis Hunpaused : is_paused syl = false.
Hypothesis Htasks : syl_tasks syl = first :: rest.
Hypothesis Hfresh :
  match stored w name with Some r => is_fresh r | None => True end.
Hypothesis Hrange : dates_in_range w 4 = true.

Ltac in_range :=
  rewrite interval_loaded;
  rewrite (dates_in_range_spec w 4 Hrange)
    by (pose proof (load_ticks_le w); lia).

Lemma select_fresh_announces :
  exists k,
    sent (run (start_syllabus_callback name) w)
    = sent w ++ [MsgSelected name StartingWith first
                   (Some (days (clock w k + timedelta (current_interval w)
                                - clock w (S k))))].
Proof using All.
  apply (wp_run (start_syllabus_callback name) w
           (fun _ w' => exists k, sent w' = _)).
  unfold start_syllabus_callback, syllabus_of in *.
  wp_go. rewrite Hexists, Hunpaused. cbn [negb]. wp_go.
  rewrite loaded_lookup, Htasks.
  destruct (stored w name) as [r|] eqn:Hr; wp_go.
  - pose proof Hfresh as [Hweek Hnone].
    rewrite (fresh_true r Hfresh). wp_go.
    rewrite loaded_lookup, Hr. wp_go. in_range. wp_go.
    rewrite Hweek, first_task_in_range. wp_go.
    rewrite record_of_table, lookup_alter_eq, loaded_lookup, Hr.
    cbn [fmap option_fmap option_map]. wp_go.
    cbn [set_due_date sp_due_date]. wp_go.
    change (py_index (first :: rest) (1 - 1)) with (Some first). wp_go.
    exists (load_ticks w + ticks w)%nat. do 3 f_equal.
    unfold status_text, fresh. cbn. by rewrite Hnone.
  - in_range. wp_go. change (fresh _ _) with true. wp_go.
    rewrite lookup_insert_eq. wp_go. in_range. wp_go.
    cbn [fresh_record sp_current_week]. rewrite first_task_in_range. wp_go.
    rewrite record_of_table, lookup_alter_eq, lookup_insert_eq.
    cbn [fmap option_fmap option_map]. wp_go.
    cbn [set_due_date sp_due_date fresh_record]. wp_go.
    change (py_index (first :: rest) (1 - 1)) with (Some first). wp_go.
    exists (S (S (load_ticks w + ticks w))). reflexivity.
Qed.

Lemma switch_fresh_announces :
  sent (run (switch_syllabus_callback name) w)
  = sent w ++ [MsgSwitched name StartingWith first (current_interval w)].
Proof using All.
  apply (wp_run (switch_syllabus_callback name) w (fun _ w' => sent w' = _)).
  unfold switch_syllabus_callback, syllabus_of in *.
  wp_go. rewrite Hexists, Hunpaused. cbn [negb]. wp_go.
  rewrite loaded_lookup, Htasks.
  destruct (stored w name) as [r|] eqn:Hr; wp_go.
  - pose proof Hfresh as [Hweek Hnone].
    rewrite loaded_lookup, Hr. wp_go. in_range. wp_go.
    rewrite record_of_table, lookup_alter_eq, loaded_lookup, Hr.
    cbn [fmap option_fmap option_map]. wp_go.
    rewrite Hweek, first_task_in_range. wp_go.
    change (py_index (first :: rest) (1 - 1)) with (Some first). wp_go.
    rewrite interval_loaded. do 3 f_equal.
    unfold status_text, fresh. cbn. by rewrite Hnone.
  - in_range. wp_go. rewrite lookup_insert_eq. wp_go. in_range. wp_go.
    rewrite record_of_table, lookup_alter_eq, lookup_insert_eq.
    cbn [fmap option_fmap option_map]. wp_go.
    cbn [fresh_record sp_current_week]. rewrite first_task_in_range. wp_go.
    change (py_index (first :: rest) (1 - 1)) with (Some first). wp_go.
    by rewrite interval_loaded.
Qed.
End Announced.

(** Selecting a syllabus that is fresh (no record yet, or week 1 with
    nothing completed) sets the due date one interval ahead and then
    announces the whole days left at the next reading of the clock: when
    the clock has advanced between the two readings, by a day at most, the
    answer says one day less than the interval, where switching to the same
    syllabus announces the interval itself.  The dates are assumed to fit a
    [datetime]. *)
Theorem select_announces_a_day_less (w : World) (name : string)
    (syl : Syllabus) (first : string) (rest : list string) :
  syllabus_of w name = Some syl ->
  is_paused syl = false ->
  syl_tasks syl = first :: rest ->
  match stored w name with Some r => is_fresh r | None => True end ->
  dates_in_range w 4 = true ->
  (forall k, clock w k < clock w (S k) <= clock w k + timedelta 1) ->
  sent (run (start_syllabus_callback name) w)
  = sent w ++ [MsgSelected name StartingWith first
                           (Some (current_interval w - 1))]
  /\ sent (run (switch_syllabus_callback name) w)
     = sent w ++ [MsgSwitched name StartingWith first (current_interval w)].
Proof.
  intros Hsyl Hp Htasks Hfresh Hrange Hclock. split.
  - destruct (select_fresh_announces w name syl first rest
                Hsyl Hp Htasks Hfresh Hrange) as [k Hk].
    by rewrite Hk, days_a_day_less.
  - by apply (switch_fresh_announces w name syl first rest).
Qed.

Lemma select_announces_a_day_less_witness :
  sent (run (start_syllabus_callback "Math") Examples.first_run)
  = [MsgSelected "Math" StartingWith "Algebra" (Some 6)]
  /\ sent (run (switch_syllabus_callback "Math") Examples.first_run)
     = [MsgSwitched "Math" StartingWith "Algebra" 7].
Proof.
  refine (select_announces_a_day_less Examples.first_run "Math" Examples.math
            "Algebra" ["Geometry"; "Calculus"] _ _ _ _ _ _).
  - vm_compute. reflexivity.
  - reflexivity.
  - reflexivity.
  - exact I.
  - vm_compute. reflexivity.
  - intros k. cbn [Examples.first_run clock]. unfold Examples.clock_from.
    change (timedelta 1) with 86400000000. lia.
Defined.

(** ** A syllabus without tasks *)

Lemma wp_index_nil {A} i w (Q : outcome A -> World -> Prop) :
  Q (Raise IndexError) w -> wp (index [] i) w Q.
Proof.
  intros H. apply wp_index. unfold py_index. cbn [length].
  destruct (0 <=? i) eqn:Hi.
  - by rewrite lookup_nil.
  - by rewrite Z.add_0_l, Hi.
Qed.

Ltac wp_nil :=
  wp_simpl;
  repeat (first [apply wp_index_nil | wp_rule | wp_case]; wp_simpl).

(** Selecting, or switching to, an unpaused syllabus whose task list is
    empty makes it the selected syllabus and then fails on its first task:
    nothing is answered by the callback, and the exception that leaves it is
    the [AttributeError] of the decorator, which has no message to reply
    to. *)
Theorem select_without_tasks (w : World) (name : string) (syl : Syllabus) :
  syllabus_of w name = Some syl ->
  is_paused syl = false ->
  syl_tasks syl = [] ->
  let selects (h : M unit) :=
    result h w = Raise AttributeError
    /\ sent (run h w) = sent w
    /\ syllabi_json (run h w)
       = Some (mkSyllabiDoc name (cat_syllabi (catalog_of w))) in
  selects (start_syllabus_callback name)
  /\ selects (switch_syllabus_callback name).
Proof.
  intros Hsyl Hp Htasks selects. unfold syllabus_of in Hsyl. subst selects.
  cbn beta. split.
  - apply (wp_run (start_syllabus_callback name) w
             (fun o w' => o = Raise AttributeError /\ sent w' = sent w
                          /\ syllabi_json w' = _)).
    unfold start_syllabus_callback. wp_go.
    rewrite Hsyl, Hp, Htasks. cbn [negb]. wp_nil; auto.
  - apply (wp_run (switch_syllabus_callback name) w
             (fun o w' => o = Raise AttributeError /\ sent w' = sent w
                          /\ syllabi_json w' = _)).
    unfold switch_syllabus_callback. wp_go.
    rewrite Hsyl, Hp, Htasks. cbn [negb]. wp_nil; auto.
Qed.

Lemma select_without_tasks_witness :
  let w := mkWorld (Some (mkSyllabiDoc "" {[ "Empty" := mkSyllabus [] None ]}))
                   None (Examples.clock_from Examples.T0) 0 [] in
  result (start_syllabus_callback "Empty") w = Raise AttributeError
  /\ sent (run (start_syllabus_callback "Empty") w) = []
  /\ syllabi_json (run (start_syllabus_callback "Empty") w)
     = Some (mkSyllabiDoc "Empty" {[ "Empty" := mkSyllabus [] None ]}).
Proof.
  intros w.
  refine (proj1 (select_without_tasks w "Empty" (mkSyllabus [] None) _ _ _)).
  - vm_compute. reflexivity.
  - reflexivity.
  - reflexivity.
Defined.

(** ** A selection the catalog no longer has *)

Section Dangling.
Variables (w : World) (name : string).
Hypothesis Hsel : selected w name.
Hypothesis Hgone : syllabus_of w name = None.

Ltac to_the_catalog :=
  pose proof Hgone as Hgone'; unfold syllabus_of in Hgone';
  wp_go; rewrite ?(not_selected_empty w name Hsel);
  pose proof Hsel as [_ Hcur]; rewrite ?Hcur, ?Hgone'; wp_go.

Lemma current_dangling :
  answers_only current_week w (MsgError InDecorator KeyError).
Proof using All.
  apply answers_only_wp. unfold current_week. to_the_catalog. auto.
Qed.

Lemma check_dangling :
  answers_only check_progress w (MsgError InDecorator KeyError).
Proof using All.
  apply answers_only_wp. unfold check_progress. to_the_catalog. auto.
Qed.

Lemma statistics_dangling : answers_only show_statistics w MsgCurrentNotFound.
Proof using All.
  apply answers_only_wp. unfold show_statistics. to_the_catalog. auto.
Qed.

Lemma job_dangling chat_id :
  reminders_on w = true ->
  wp (check_due_dates chat_id) w (fun o w' =>
    o = Raise KeyError
    /\ sent w' = sent w
    /\ syllabi_json w' = syllabi_json w
    /\ progress_json w' = progress_json w).
Proof using All.
  intros Hon. unfold check_due_dates. wp_go.
  rewrite enabled_loaded, Hon. cbn [negb]. to_the_catalog. auto.
Qed.

Lemma yes_dangling r :
  stored w name = Some r ->
  representable (clock w (S (load_ticks w + ticks w))) (current_interval w)
  = true ->
  wp handle_yes_response w (fun o w' =>
    o = Ok tt
    /\ sent w' = sent w ++ [MsgError InUpdatingProgress KeyError]
    /\ (sp_current_week <$> stored w' name) = Some (sp_current_week r + 1)).
Proof using All.
  intros Hrec Hrep. unfold handle_yes_response. to_the_catalog.
  rewrite loaded_lookup, Hrec. wp_go.
  destruct (mem _ _); wp_go;
    rewrite !lookup_alter_eq, loaded_lookup, Hrec;
    cbn [fmap option_fmap option_map]; wp_go;
    rewrite interval_loaded, Hrep; wp_go;
    rewrite record_of_table, !lookup_alter_eq, loaded_lookup, Hrec;
    cbn [fmap option_fmap option_map]; wp_go;
    rewrite Hgone'; wp_go;
    (split; [reflexivity|]; split; [reflexivity|]);
    stored_simpl; rewrite ?lookup_alter_eq, ?loaded_lookup, Hrec; reflexivity.
Qed.
End Dangling.

(** When the selected syllabus is no longer in the catalog (the syllabi
    are edited by hand), [/current] and [/check] answer with the error
    report of the decorator and [/statistics] with "Current syllabus not
    found", writing nothing; the daily job ends in a [KeyError] without a
    notice; but the "yes" button first moves the record on to the next week
    and saves it, and only then reports the error. *)
Theorem selection_not_in_catalog (w : World) (name : string)
    (r : SyllabusProgress) (chat_id : Z) :
  selected w name ->
  syllabus_of w name = None ->
  answers_only current_week w (MsgError InDecorator KeyError)
  /\ answers_only check_progress w (MsgError InDecorator KeyError)
  /\ answers_only show_statistics w MsgCurrentNotFound
  /\ (reminders_on w = true ->
      result (check_due_dates chat_id) w = Raise KeyError
      /\ sent (run (check_due_dates chat_id) w) = sent w
      /\ progress_json (run (check_due_dates chat_id) w) = progress_json w)
  /\ (stored w name = Some r ->
      representable (clock w (S (load_ticks w + ticks w))) (current_interval w)
      = true ->
      sent (run handle_yes_response w)
      = sent w ++ [MsgError InUpdatingProgress KeyError]
      /\ (sp_current_week <$> stored (run handle_yes_response w) name)
         = Some (sp_current_week r + 1)).
Proof.
  intros Hsel Hgone.
  split; [by apply (current_dangling w name)|].
  split; [by apply (check_dangling w name)|].
  split; [by apply (statistics_dangling w name)|].
  split.
  - intros Hon.
    destruct (wp_run _ _ _ (job_dangling w name Hsel Hgone chat_id Hon))
      as (H1 & H2 & _ & H3).
    auto.
  - intros Hrec Hrep.
    by destruct (wp_run _ _ _ (yes_dangling w name Hsel Hgone r Hrec Hrep))
      as (_ & H).
Qed.

Lemma selection_not_in_catalog_witness :
  let w := mkWorld (Some (mkSyllabiDoc "Physics" {[ "Math" := Examples.math ]}))
                   (Some (mkProgressDoc (Some Examples.settings)
                            (Some {[ "Physics" := Examples.math_fresh ]})))
                   (Examples.clock_from Examples.T0) 0 [] in
  answers_only current_week w (MsgError InDecorator KeyError)
  /\ (sp_current_week <$> stored (run handle_yes_response w) "Physics")
     = Some 2.
Proof.
  intros w.
  destruct (selection_not_in_catalog w "Physics" Examples.math_fresh
              Examples.chat) as (H1 & _ & _ & _ & H5).
  - split; [discriminate | reflexivity].
  - vm_compute. reflexivity.
  - split; [exact H1|]. apply H5; vm_compute; reflexivity.
Defined.

(** ** The task a selection shows *)

Section Shown.
Variables (w : World) (name : string) (syl : Syllabus) (r : SyllabusProgress).
Hypothesis Hsel : selected w name.
Hypothesis Hsyl : syllabus_of w name = Some syl.
Hypothesis Hunpaused : is_paused syl = false.
Hypothesis Hrec : stored w name = Some r.
Hypothesis Hweek : 1 <= sp_current_week r <= len (syl_tasks syl).

Lemma current_shows_the_task task :
  syl_tasks syl !! Z.to_nat (sp_current_week r - 1) = Some task ->
  exists status,
    sent (run current_week w) = sent w ++ [MsgCurrentTask name task status].
Proof using All.
  intros Htask.
  apply (wp_run current_week w (fun _ w' => exists status, sent w' = _)).
  pose proof Hsyl as Hsyl'. unfold syllabus_of in Hsyl'.
  unfold current_week. wp_go.
  rewrite (not_selected_empty w name Hsel).
  pose proof Hsel as [_ Hcur]. rewrite Hcur, Hsyl', Hunpaused.
  wp_go. rewrite loaded_lookup, Hrec. wp_go.
  rewrite Hsyl'.
  rewrite (proj2 (Z.ltb_lt 0 _)), (proj2 (Z.leb_le _ _)) by lia.
  cbn [andb]. wp_go.
  destruct (sp_due_date r); wp_go;
    rewrite py_index_in_range, Htask by lia; wp_go; eexists; reflexivity.
Qed.
End Shown.

Lemma task_in_range (tasks : list string) i :
  0 <= i < len tasks -> exists task, tasks !! Z.to_nat i = Some task.
Proof.
  intros H. apply lookup_lt_is_Some_2. unfold len in H. lia.
Qed.

Section Selected.
Variables (w : World) (name : string) (syl : Syllabus) (r : SyllabusProgress).
Hypothesis Hsyl : syllabus_of w name = Some syl.
Hypothesis Hunpaused : is_paused syl = false.
Hypothesis Htasks : 0 < len (syl_tasks syl).
Hypothesis Hrec : stored w name = Some r.
Hypothesis Hweek : 1 <= sp_current_week r.
Hypothesis Hrep :
  representable (clock w (load_ticks w + ticks w)) (current_interval w) = true.

(** The week the selection leaves in the record. *)
Let week' :=
  if len (syl_tasks syl) <=? sp_current_week r - 1 then 1
  else sp_current_week r.

Lemma select_shows :
  wp (start_syllabus_callback name) w (fun o w' =>
    o = Ok tt
    /\ cat_current_field (catalog_of w') = name
    /\ syllabus_of w' name = Some syl
    /\ exists st task days_remaining r',
         sent w' = sent w ++ [MsgSelected name st task days_remaining]
         /\ stored w' name = Some r'
         /\ sp_current_week r' = week'
         /\ syl_tasks syl !! Z.to_nat (week' - 1) = Some task).
Proof using All.
  assert (Hin : 0 <= week' - 1 < len (syl_tasks syl)).
  { subst week'. destruct (Z.leb_spec (len (syl_tasks syl))
                                      (sp_current_week r - 1)); lia. }
  destruct (task_in_range _ _ Hin) as [task Htask].
  assert (Hcat : forall pj c k s,
    syllabus_of (mkWorld (Some (mkSyllabiDoc name (cat_syllabi (catalog_of w))))
                         pj c k s) name = Some syl) by (intros; exact Hsyl).
  unfold start_syllabus_callback.
  pose proof Hsyl as Hsyl'. unfold syllabus_of in Hsyl'.
  wp_go. rewrite Hsyl', Hunpaused. cbn [negb]. wp_go.
  rewrite loaded_lookup, Hrec. wp_go.
  destruct (fresh (sp_current_week r) r) eqn:Hf; wp_go.
  - rewrite loaded_lookup, Hrec. wp_go. rewrite interval_loaded, Hrep. wp_go.
    fold week' in Htask |- *.
    destruct (len (syl_tasks syl) <=? sp_current_week r - 1) eqn:Hlen; wp_go.
    all: rewrite record_of_table, !lookup_alter_eq, loaded_lookup, Hrec;
      cbn [fmap option_fmap option_map]; wp_go;
      cbn [set_due_date set_current_week sp_due_date]; wp_go.
    + change (py_index (syl_tasks syl) 0)
        with (syl_tasks syl !! Z.to_nat (1 - 1)).
      subst week'. rewrite Htask. wp_go.
      split; [reflexivity|]. split; [reflexivity|]. split; [apply Hcat|].
      eexists _, task, _, _. split; [reflexivity|].
      stored_simpl. rewrite ?lookup_alter_eq, ?loaded_lookup, Hrec.
      cbn [fmap option_fmap option_map]. repeat split; exact Htask.
    + rewrite py_index_in_range by (subst week'; lia).
      subst week'. rewrite Htask. wp_go.
      split; [reflexivity|]. split; [reflexivity|]. split; [apply Hcat|].
      eexists _, task, _, _. split; [reflexivity|].
      stored_simpl. rewrite Hrec.
      cbn [fmap option_fmap option_map]. repeat split; exact Htask.
  - fold week' in Htask |- *.
    destruct (len (syl_tasks syl) <=? sp_current_week r - 1) eqn:Hlen; wp_go;
      rewrite record_of_table, ?lookup_alter_eq, loaded_lookup, Hrec;
      cbn [fmap option_fmap option_map]; wp_go;
      cbn [set_current_week sp_due_date].
    + subst week'.
      destruct (sp_due_date r); wp_go;
        change (py_index (syl_tasks syl) 0)
          with (syl_tasks syl !! Z.to_nat (1 - 1));
        rewrite Htask; wp_go;
        (split; [reflexivity|]; split; [reflexivity|]; split; [apply Hcat|]);
        eexists _, task, _, _; (split; [reflexivity|]);
        stored_simpl; rewrite Hrec;
        cbn [fmap option_fmap option_map]; repeat split; exact Htask.
    + subst week'.
      destruct (sp_due_date r); wp_go;
        rewrite py_index_in_range by lia;
        rewrite Htask; wp_go;
        (split; [reflexivity|]; split; [reflexivity|]; split; [apply Hcat|]);
        eexists _, task, _, _; (split; [reflexivity|]);
        rewrite stored_same, Hrec; repeat split; exact Htask.
Qed.
End Selected.

(** The task a selection shows is the task [/current] shows next: for an
    unpaused syllabus with at least one task and a record from week 1 on,
    the selection answers with a task -- the first one again when the record
    was past the last -- and an immediate [/current] names the same task.
    The due date a fresh record gets is assumed to fit a [datetime]. *)
Theorem select_then_current_agree (w : World) (name : string) (syl : Syllabus)
    (r : SyllabusProgress) :
  name <> "" ->
  syllabus_of w name = Some syl ->
  is_paused syl = false ->
  0 < len (syl_tasks syl) ->
  stored w name = Some r ->
  1 <= sp_current_week r ->
  representable (clock w (load_ticks w + ticks w)) (current_interval w) = true ->
  let w' := run (start_syllabus_callback name) w in
  exists st task days_remaining status,
    sent w' = sent w ++ [MsgSelected name st task days_remaining]
    /\ sent (run current_week w')
       = sent w' ++ [MsgCurrentTask name task status].
Proof.
  intros Hname Hsyl Hp Htasks Hrec Hweek Hrep w'.
  destruct (wp_run _ _ _ (select_shows w name syl r Hsyl Hp Htasks Hrec
                            Hweek Hrep))
    as (_ & Hcur & Hsyl' & st & task & d & r' & Hsent & Hr' & Hw' & Htask).
  fold w' in Hcur, Hsyl', Hsent, Hr'.
  assert (Hin : 1 <= sp_current_week r' <= len (syl_tasks syl)).
  { rewrite Hw'. destruct (Z.leb_spec (len (syl_tasks syl))
                                      (sp_current_week r - 1)); lia. }
  rewrite <- Hw' in Htask.
  destruct (current_shows_the_task w' name syl r' (conj Hname Hcur) Hsyl' Hp
              Hr' Hin task Htask) as [status Hstatus].
  by exists st, task, d, status.
Qed.

Lemma select_then_current_agree_witness :
  let w := Examples.world "" Examples.math_completed
             (Examples.T0 + Examples.day 5) in
  let w' := run (start_syllabus_callback "Math") w in
  exists st task days_remaining status,
    sent w' = sent w ++ [MsgSelected "Math" st task days_remaining]
    /\ sent (run current_week w')
       = sent w' ++ [MsgCurrentTask "Math" task status].
Proof.
  intros w.
  refine (select_then_current_agree w "Math" Examples.math
            Examples.math_completed _ _ _ _ _ _ _).
  - discriminate.
  - vm_compute. reflexivity.
  - reflexivity.
  - reflexivity.
  - vm_compute. reflexivity.
  - vm_compute. discriminate.
  - vm_compute. reflexivity.
Defined.

(** ** Statistics past the last task *)

Section Past.
Variables (w : World) (name : string) (syl : Syllabus) (r : SyllabusProgress).
Hypothesis Hsel : selected w name.
Hypothesis Hsyl : syllabus_of w name = Some syl.
Hypothesis Hrec : stored w name = Some r.
Hypothesis Hpast : len (syl_tasks syl) < sp_current_week r.

Lemma statistics_past :
  wp show_statistics w (fun o w' =>
    o = Ok tt
    /\ syllabi_json w' = syllabi_json w
    /\ progress_json w' = progress_json w
    /\ exists s,
         sent w' = sent w ++ [MsgStatistics s]
         /\ st_progress_task s = len (syl_tasks syl)
         /\ st_remaining_tasks s = None
         /\ st_estimate s = None
         /\ (len (syl_tasks syl) = 0 -> st_completion_pct s = 0%Q)).
Proof using All.
  unfold show_statistics. wp_go.
  rewrite (not_selected_empty w name Hsel).
  pose proof Hsel as [_ Hcur]. rewrite Hcur.
  unfold syllabus_of in Hsyl. rewrite Hsyl.
  wp_go. rewrite loaded_lookup, Hrec. wp_go.
  rewrite (proj2 (Z.leb_gt _ _)) by lia.
  destruct (sp_due_date r); wp_go;
    (split; [reflexivity|]; split; [reflexivity|]; split; [reflexivity|]);
    eexists; (split; [reflexivity|]); cbn;
    (split; [lia|]); (split; [reflexivity|]); (split; [reflexivity|]);
    by intros ->.
Qed.
End Past.

(** For a selected syllabus whose record is past the last task,
    [/statistics] reports the number of tasks as the progress, and neither
    remaining tasks nor an estimated completion; for a syllabus without
    tasks the completion is 0 percent, not a division by zero.  Nothing is
    written. *)
Theorem statistics_after_the_last_task (w : World) (name : string)
    (syl : Syllabus) (r : SyllabusProgress) :
  selected w name ->
  syllabus_of w name = Some syl ->
  stored w name = Some r ->
  len (syl_tasks syl) < sp_current_week r ->
  let w' := run show_statistics w in
  result show_statistics w = Ok tt
  /\ syllabi_json w' = syllabi_json w
  /\ progress_json w' = progress_json w
  /\ exists s,
       sent w' = sent w ++ [MsgStatistics s]
       /\ st_progress_task s = len (syl_tasks syl)
       /\ st_remaining_tasks s = None
       /\ st_estimate s = None
       /\ (len (syl_tasks syl) = 0 -> st_completion_pct s = 0%Q).
Proof.
  intros Hsel Hsyl Hrec Hpast.
  exact (wp_run _ _ _ (statistics_past w name syl r Hsel Hsyl Hrec Hpast)).
Qed.

Lemma statistics_after_the_last_task_witness :
  let w := Examples.world "Math" Examples.math_completed
             (Examples.T0 + Examples.day 5) in
  exists s,
    sent (run show_statistics w) = sent w ++ [MsgStatistics s]
    /\ st_progress_task s = 3
    /\ st_remaining_tasks s = None
    /\ st_estimate s = None.
Proof.
  intros w.
  destruct (statistics_after_the_last_task w "Math" Examples.math
              Examples.math_completed)
    as (_ & _ & _ & s & H1 & H2 & H3 & H4 & _).
  - split; [discriminate | vm_compute; reflexivity].
  - vm_compute. reflexivity.
  - vm_compute. reflexivity.
  - vm_compute. reflexivity.
  - exists s. auto.
Defined.
